(** * LogicBoxes API client: a shallow embedding of the TypeScript sources

    The development follows the layout of the repository:

    - [Js]        the JavaScript values and built-ins the code relies on
                  (JSON values, [String], [parseInt], string methods,
                  [URLSearchParams]);
    - [Errors]    [errors.ts]: the error classes and
                  [createErrorFromResponse];
    - [Client]    [client.ts]: [LogicBoxesClient], over a [Platform] that
                  provides [fetch] and the [URL] constructor;
    - [Types]     the declarations of [types.ts] the API modules use;
    - [DnsApi], [CustomerApi], [DomainApi]   the three API modules;
    - [Demo]      a concrete platform and sample responses, for examples;
    - [Spec]      the notions the statements are phrased with;
    - the properties, each group after the lemmas it rests on.

    An [async] method is a function of the client state (the remote side
    and the list of [fetch] calls made so far) that returns the new state
    with a value or a thrown error.  The one unbounded loop, in
    [searchAllRecords], takes a number of pages it may fetch per record
    type.

    Numbers are integers ([Z]); IEEE doubles are not modelled.  Strings are
    sequences of 8-bit characters; the Unicode-aware parts of
    [toLowerCase] and of whitespace skipping are therefore restricted to
    ASCII. *)

From Stdlib Require Import ZArith Ascii String List Bool Lia.
From stdpp Require Import base option list strings pretty gmap.

Local Open Scope string_scope.
Local Open Scope list_scope.
Local Open Scope Z_scope.

(* ===================================================================== *)
(** * JavaScript values and built-ins *)
(* ===================================================================== *)

Module Js.

(** A value produced by [JSON.parse].  The property list of [JObj] is in
    the order [Object.keys] enumerates it.  [undefined] is not a JSON
    value: a property read has type [option json], [None] being
    [undefined]. *)
#[warnings="-register-all"]
Inductive json : Type :=
| JNull
| JBool (b : bool)
| JNum (n : Z)
| JStr (s : string)
| JArr (items : list json)
| JObj (props : list (string * json)).

(** The six error classes that reach the modelled code.  [TypeError] is the
    built-in one; the other five are declared in [errors.ts]. *)
Inductive ErrorClass : Type :=
| TypeError
| LogicBoxesError
| AuthenticationError
| NotFoundError
| ValidationError
| ApiError.

(** An [Error] instance: its class, its [message], and the three optional
    fields [LogicBoxesError] adds. *)
Record JsError : Type := mkError {
  errClass   : ErrorClass;
  message    : string;
  statusCode : option Z;
  apiStatus  : option json;
  apiMessage : option json;
}.

(** The outcome of a synchronous computation: a value or a thrown error. *)
Inductive Result (A : Type) : Type :=
| Ok (a : A)
| Throw (e : JsError).
Arguments Ok {A} a.
Arguments Throw {A} e.

Definition rbind {A B} (r : Result A) (k : A -> Result B) : Result B :=
  match r with
  | Ok a => k a
  | Throw e => Throw e
  end.

Definition typeError (msg : string) : JsError :=
  mkError TypeError msg None None None.

(** A JavaScript number as far as comparisons need it: [NaN], or an
    integer that a number holds exactly (a safe integer, below [2^53] in
    absolute value).  Larger integers are rounded by JavaScript and are
    outside the model. *)
Inductive number : Type :=
| NaN
| Int (z : Z).

(** [a > b]: false as soon as one side is [NaN]. *)
Definition gt (a b : number) : bool :=
  match a, b with
  | Int x, Int y => y <? x
  | _, _ => false
  end.

(** ** String methods *)

(** [s.indexOf(c)] for a one-character [c]: the position of its first
    occurrence, [-1] when there is none. *)
Fixpoint indexOf (s : string) (c : ascii) : Z :=
  match s with
  | EmptyString => -1
  | String a rest =>
      if Ascii.eqb a c then 0
      else let i := indexOf rest c in if i <? 0 then -1 else i + 1
  end.

Fixpoint drop_chars (n : nat) (s : string) : string :=
  match n, s with
  | O, _ => s
  | S _, EmptyString => EmptyString
  | S n', String _ rest => drop_chars n' rest
  end.

(** [s.slice(start)] for [start >= 0]. *)
Definition slice (s : string) (start : Z) : string :=
  drop_chars (Z.to_nat start) s.

(** [s.includes(needle)]. *)
Fixpoint includes (s needle : string) : bool :=
  String.prefix needle s
  || match s with
     | EmptyString => false
     | String _ rest => includes rest needle
     end.

(** [s.endsWith(suffix)]: some tail of [s] is [suffix]. *)
Fixpoint endsWith (s suffix : string) : bool :=
  String.eqb s suffix
  || match s with
     | EmptyString => false
     | String _ rest => endsWith rest suffix
     end.

Definition lower_ascii (c : ascii) : ascii :=
  let n := N_of_ascii c in
  if ((65 <=? n) && (n <=? 90))%N then ascii_of_N (n + 32) else c.

(** [s.toLowerCase()], on ASCII letters. *)
Fixpoint toLowerCase (s : string) : string :=
  match s with
  | EmptyString => EmptyString
  | String c rest => String (lower_ascii c) (toLowerCase rest)
  end.

Fixpoint join (sep : string) (parts : list string) : string :=
  match parts with
  | [] => ""
  | [p] => p
  | p :: rest => p +:+ sep +:+ join sep rest
  end.

(** ** Property reads on parsed JSON *)

(** [o[name]] on the property list of a parsed object, for a [name] that
    [Object.prototype] does not define. *)
Fixpoint lookup_prop (name : string) (props : list (string * json)) : option json :=
  match props with
  | [] => None
  | (k, v) :: rest => if String.eqb k name then Some v else lookup_prop name rest
  end.

(** [v[name]] for a parsed JSON value [v] that is not [null] and a [name]
    that is neither an index, nor [length], nor a prototype method: only
    objects carry such a property. *)
Definition get_prop (v : json) (name : string) : option json :=
  match v with
  | JObj props => lookup_prop name props
  | _ => None
  end.

(** [typeof v === 'object' && v !== null]: arrays are objects too. *)
Definition is_object (v : json) : bool :=
  match v with
  | JArr _ | JObj _ => true
  | _ => false
  end.

(** [name in v] for an object [v] and a [name] as in [get_prop]. *)
Definition has_prop (name : string) (v : json) : bool :=
  match get_prop v name with
  | Some _ => true
  | None => false
  end.

(** [Object.hasOwn(v, name)] for a parsed value [v] and a [name] that is
    neither an index nor [length]: only objects own such a property. *)
Definition has_own (name : string) (v : json) : bool :=
  match v with
  | JObj props =>
      match lookup_prop name props with
      | Some _ => true
      | None => false
      end
  | _ => false
  end.

(** Truthiness of a value that may be [undefined]. *)
Definition truthy (v : option json) : bool :=
  match v with
  | None | Some JNull => false
  | Some (JBool b) => b
  | Some (JNum n) => negb (n =? 0)
  | Some (JStr s) => negb (String.eqb s "")
  | Some (JArr _) | Some (JObj _) => true
  end.

(** [v === s] for a string literal [s]. *)
Definition strict_eq_str (v : option json) (s : string) : bool :=
  match v with
  | Some (JStr t) => String.eqb t s
  | _ => false
  end.

(** [v ?? d]: [d] replaces [undefined] and [null] only. *)
Definition nullish_or (v : option json) (d : json) : json :=
  match v with
  | None | Some JNull => d
  | Some x => x
  end.

Fixpoint index_from (i : nat) (items : list json) : list (string * json) :=
  match items with
  | [] => []
  | x :: rest => (pretty i, x) :: index_from (S i) rest
  end.

Fixpoint chars_from (i : nat) (s : string) : list (string * json) :=
  match s with
  | EmptyString => []
  | String c rest => (pretty i, JStr (String c EmptyString)) :: chars_from (S i) rest
  end.

(** The pairs [(key, v[key])] for [key] ranging over [Object.keys(v)], for
    a [v] other than [null]: a number or a boolean has no keys; a string
    has its characters and an array its elements under their indices. *)
Definition own_entries (v : json) : list (string * json) :=
  match v with
  | JNull | JBool _ | JNum _ => []
  | JStr s => chars_from 0 s
  | JArr items => index_from 0 items
  | JObj props => props
  end.

(** [Object.keys(v)] followed by the reads [v[key]] (or [Object.entries]):
    [null] has no keys to enumerate and throws. *)
Definition entries (v : json) : Result (list (string * json)) :=
  match v with
  | JNull => Throw (typeError "Cannot convert undefined or null to object")
  | _ => Ok (own_entries v)
  end.

(** ** [String(v)] *)

(** [String(v)].  A parsed object is printed by [Object.prototype.toString]
    unless it shadows [toString] with an own property, which is then not
    callable, and the conversion throws; an array joins the conversions of
    its elements, [null] elements printing as the empty string.  A number
    is a safe integer (below [2^53] in absolute value), which is printed
    in full decimal; JavaScript rounds larger integers and prints them in
    exponent notation from [1e21] on, which the model does not follow. *)
Fixpoint js_String (v : json) : Result string :=
  match v with
  | JNull => Ok "null"
  | JBool true => Ok "true"
  | JBool false => Ok "false"
  | JNum n => Ok (pretty n)
  | JStr s => Ok s
  | JArr items =>
      let fix go (l : list json) : Result (list string) :=
        match l with
        | [] => Ok []
        | x :: rest =>
            rbind (match x with JNull => Ok "" | _ => js_String x end) (fun s =>
            rbind (go rest) (fun ss => Ok (s :: ss)))
        end in
      rbind (go items) (fun ss => Ok (join "," ss))
  | JObj props =>
      match lookup_prop "toString" props with
      | Some _ => Throw (typeError "Cannot convert object to primitive value")
      | None => Ok "[object Object]"
      end
  end.

(** ** [parseInt(s, 10)] *)

Definition is_space (c : ascii) : bool :=
  let n := N_of_ascii c in
  ((9 <=? n) && (n <=? 13) || (n =? 32))%N.

Fixpoint trimStart (s : string) : string :=
  match s with
  | String c rest => if is_space c then trimStart rest else s
  | EmptyString => EmptyString
  end.

Definition digit_of (c : ascii) : option Z :=
  let n := N_of_ascii c in
  if ((48 <=? n) && (n <=? 57))%N then Some (Z.of_N (n - 48)) else None.

(** The value of the longest prefix of decimal digits, [None] when the
    string does not start with a digit. *)
Fixpoint digits (acc : option Z) (s : string) : option Z :=
  match s with
  | EmptyString => acc
  | String c rest =>
      match digit_of c with
      | Some d => digits (Some (10 * default 0 acc + d)) rest
      | None => acc
      end
  end.

(** [parseInt(s, 10)] for a string whose leading digits stand for a safe
    integer (below [2^53] in absolute value), which is returned exactly;
    JavaScript rounds larger values to the nearest number, which the model
    does not follow. *)
Definition parseInt (s : string) : number :=
  let s := trimStart s in
  let '(neg, s) :=
    match s with
    | String "-" rest => (true, rest)
    | String "+" rest => (false, rest)
    | _ => (false, s)
    end in
  match digits None s with
  | None => NaN
  | Some z => Int (if neg then - z else z)
  end.

(** ** [URLSearchParams] *)

(** [params.get(name)]: the value of the first pair named [name]. *)
Fixpoint sp_get (name : string) (l : list (string * string)) : option string :=
  match l with
  | [] => None
  | (k, v) :: rest => if String.eqb k name then Some v else sp_get name rest
  end.

(** [params.set(name, value)]: the first pair named [name] takes the value
    and the other pairs of that name are removed; without such a pair, the
    new one is appended. *)
Fixpoint sp_set (name value : string) (l : list (string * string)) : list (string * string) :=
  match l with
  | [] => [(name, value)]
  | (k, v) :: rest =>
      if String.eqb k name
      then (name, value) :: List.filter (fun p => negb (String.eqb (fst p) name)) rest
      else (k, v) :: sp_set name value rest
  end.

End Js.

Import Js.


(* ===================================================================== *)
(** * [errors.ts] *)
(* ===================================================================== *)

Module Errors.

(** [LogicBoxesErrorOptions]. *)
Record LogicBoxesErrorOptions : Type := mkOptions {
  opt_statusCode : option Z;
  opt_apiStatus  : option json;
  opt_apiMessage : option json;
}.

(** [new C(message, options)] for [C] one of the five classes of the file:
    every subclass constructor forwards to the one of [LogicBoxesError]. *)
Definition new_error (cls : ErrorClass) (msg : string)
    (options : option LogicBoxesErrorOptions) : JsError :=
  {| errClass   := cls;
     message    := msg;
     statusCode := options ≫= opt_statusCode;
     apiStatus  := options ≫= opt_apiStatus;
     apiMessage := options ≫= opt_apiMessage |}.

(** [e instanceof LogicBoxesError]. *)
Definition instanceof_LogicBoxesError (e : JsError) : bool :=
  match errClass e with
  | TypeError => false
  | LogicBoxesError | AuthenticationError | NotFoundError
  | ValidationError | ApiError => true
  end.

(** [message.toLowerCase()] where [message] has only been cast to a string:
    a value of another type has no such method. *)
Definition message_toLowerCase (msg : json) : Result string :=
  match msg with
  | JStr s => Ok (toLowerCase s)
  | _ => Throw (typeError "message.toLowerCase is not a function")
  end.

(** [new C(message, options)] where [message] has only been cast to a
    string: [Error] stores [String(message)]. *)
Definition new_error_of (cls : ErrorClass) (msg : json)
    (options : LogicBoxesErrorOptions) : Result JsError :=
  rbind (js_String msg) (fun m => Ok (new_error cls m (Some options))).

Definition createErrorFromResponse (response : list (string * json)) : Result JsError :=
  let status := lookup_prop "status" response in
  let msg := nullish_or (lookup_prop "message" response) (JStr "Unknown API error") in
  let options := {| opt_statusCode := None;
                    opt_apiStatus := status;
                    opt_apiMessage := Some msg |} in
  if negb (strict_eq_str status "ERROR") then new_error_of ApiError msg options
  else
    rbind (message_toLowerCase msg) (fun lowerMessage =>
    if includes lowerMessage "authentication"
       || includes lowerMessage "invalid credentials"
    then new_error_of AuthenticationError msg options
    else if includes lowerMessage "no entity found"
            || includes lowerMessage "not found"
    then new_error_of NotFoundError msg options
    else if includes lowerMessage "invalid"
    then new_error_of ValidationError msg options
    else new_error_of ApiError msg options).

End Errors.

Import Errors.


(* ===================================================================== *)
(** * [client.ts] *)
(* ===================================================================== *)

Module Client.

(** ** The platform: [URL] and [fetch] *)

Inductive Method : Type := GET | POST.

(** A parsed [URL]: its serialisation without the query ([address]) and the
    pairs of its [searchParams], in order.  [url.toString()] is determined
    by the two; requests carry the record itself so that the query can be
    read back. *)
Record URL : Type := mkURL {
  address      : string;
  searchParams : list (string * string);
}.

(** What [fetch(url, init)] is called with: [init.method], [init.headers]
    and [init.body] (the pairs of the form-encoded body when there is one). *)
Record Request : Type := mkRequest {
  req_url     : URL;
  req_method  : Method;
  req_headers : list (string * string);
  req_body    : option (list (string * string));
}.

(** What a promise of the platform rejects with: the [DOMException] named
    [AbortError] of an aborted request, another [Error] instance with its
    message ([TypeError] of a network failure, [SyntaxError] of
    [response.json()]), or a value that is no [Error]. *)
Inductive Rejection : Type :=
| AbortError
| ErrorInstance (msg : string)
| NonError.

(** [response.json()]. *)
Inductive Body : Type :=
| Parsed (data : json)
| Unparsed (r : Rejection).

Inductive FetchOutcome : Type :=
| Rejected (r : Rejection)
| Response (status : Z) (statusText : string) (body : Body).

(** [response.ok]. *)
Definition response_ok (status : Z) : bool :=
  (200 <=? status) && (status <=? 299).

(** The environment of the client: the remote side, as a state machine
    answering each request (the timeout of the [AbortController] is part of
    it: it answers [AbortError] when the timer fires first), and the [URL]
    constructor, [None] when [new URL(path, base)] throws. *)
Class Platform : Type := {
  World   : Type;
  new_URL : string -> string -> option URL;
  fetch   : World -> Request -> World * FetchOutcome;
}.

(** ** Parameters *)

(** A query parameter value, [string | number]. *)
Inductive ParamValue : Type :=
| PStr (s : string)
| PNum (n : Z).

(** [String(value)]. *)
Definition String_of (v : ParamValue) : string :=
  match v with
  | PStr s => s
  | PNum n => pretty n
  end.

(** [Record<string, string | number | undefined>], in enumeration order. *)
Definition Params : Type := list (string * option ParamValue).

(** A [Record<string, string | number>] passed where [undefined] is allowed. *)
Definition defined (ps : list (string * ParamValue)) : Params :=
  map (fun p => (fst p, Some (snd p))) ps.

(** ** The client *)

Definition DEFAULT_BASE_URL : string := "https://httpapi.com/api/".
Definition DEFAULT_TIMEOUT : Z := 30000.

Record LogicBoxesConfig : Type := mkConfig {
  cfg_authUserId : string;
  cfg_apiKey     : string;
  cfg_baseUrl    : option string;
  cfg_timeout    : option Z;
}.

Record LogicBoxesClient : Type := mkClient {
  authUserId : string;
  apiKey     : string;
  baseUrl    : string;
  timeout    : Z;
}.

Definition new_LogicBoxesClient (config : LogicBoxesConfig) : LogicBoxesClient :=
  let base := default DEFAULT_BASE_URL (cfg_baseUrl config) in
  let base := if negb (endsWith base "/") then base +:+ "/" else base in
  {| authUserId := cfg_authUserId config;
     apiKey     := cfg_apiKey config;
     baseUrl    := base;
     timeout    := default DEFAULT_TIMEOUT (cfg_timeout config) |}.

Section WithPlatform.
Context {P : Platform}.

(** The state threaded through the asynchronous methods: the remote side
    and the calls of [fetch] made so far, oldest first. *)
Record ClientState : Type := mkState {
  world    : World;
  fetchLog : list Request;
}.

(** An [async] method: it may call [fetch], and resolves or rejects. *)
Definition M (A : Type) : Type := ClientState -> ClientState * Result A.

Definition ret {A} (a : A) : M A := fun st => (st, Ok a).

Definition throw {A} (e : JsError) : M A := fun st => (st, Throw e).

Definition bind {A B} (m : M A) (k : A -> M B) : M B :=
  fun st =>
    match m st with
    | (st', Ok a) => k a st'
    | (st', Throw e) => (st', Throw e)
    end.

(** A synchronous call inside an [async] method. *)
Definition lift {A} (r : Result A) : M A := fun st => (st, r).

Definition buildUrl (self : LogicBoxesClient) (path : string)
    (params : option Params) : Result URL :=
  match new_URL path (baseUrl self) with
  | None => Throw (typeError "Invalid URL")
  | Some url =>
      let sp := sp_set "auth-userid" (authUserId self) (searchParams url) in
      let sp := sp_set "api-key" (apiKey self) sp in
      let sp :=
        match params with
        | Some ps =>
            fold_left (fun sp '(key, value) =>
                         match value with
                         | Some v => sp_set key (String_of v) sp
                         | None => sp
                         end) ps sp
        | None => sp
        end in
      Ok {| address := address url; searchParams := sp |}
  end.

(** The [RequestInit] of [request]: headers and body are set for a [POST]
    with a non-empty [body] only. *)
Definition request_init (url : URL) (method : Method)
    (body : option (list (string * ParamValue))) : Request :=
  match method, body with
  | POST, Some (entry :: more) =>
      let formParams :=
        fold_left (fun fp '(key, value) => sp_set key (String_of value) fp)
                  (entry :: more) [] in
      mkRequest url method
        [("Content-Type", "application/x-www-form-urlencoded")] (Some formParams)
  | _, _ => mkRequest url method [] None
  end.

(** What the [catch] clause of [request] receives: an error thrown by the
    code of the [try] block, or the rejection of an awaited promise. *)
Inductive Caught : Type :=
| CaughtError (e : JsError)
| CaughtRejection (r : Rejection).

(** The [try] block of [request], after [fetch] has settled. *)
Definition request_try (outcome : FetchOutcome) : Caught + json :=
  match outcome with
  | Rejected r => inl (CaughtRejection r)
  | Response status statusText body =>
      if negb (response_ok status) then
        inl (CaughtError
               (new_error LogicBoxesError
                  ("HTTP " +:+ pretty status +:+ ": " +:+ statusText)
                  (Some (mkOptions (Some status) None None))))
      else
        match body with
        | Unparsed r => inl (CaughtRejection r)
        | Parsed data =>
            match data with
            | JObj props =>
                if strict_eq_str (lookup_prop "status" props) "ERROR"
                   || strict_eq_str (lookup_prop "status" props) "error"
                then
                  (* [throw createErrorFromResponse(data)]: the error it
                     returns, or the one it throws itself *)
                  match createErrorFromResponse props with
                  | Ok e | Throw e => inl (CaughtError e)
                  end
                else inr data
            | _ => inr data
            end
        end
  end.

(** The [catch] clause of [request]: the error it throws in turn. *)
Definition request_catch (self : LogicBoxesClient) (c : Caught) : JsError :=
  match c with
  | CaughtError e =>
      if instanceof_LogicBoxesError e then e
      else new_error LogicBoxesError ("Network error: " +:+ message e) None
  | CaughtRejection AbortError =>
      new_error LogicBoxesError
        ("Request timed out after " +:+ pretty (timeout self) +:+ "ms") None
  | CaughtRejection (ErrorInstance msg) =>
      new_error LogicBoxesError ("Network error: " +:+ msg) None
  | CaughtRejection NonError =>
      new_error LogicBoxesError ("Network error: " +:+ "Unknown network error") None
  end.

Definition request (self : LogicBoxesClient) (url : URL) (method : Method)
    (body : option (list (string * ParamValue))) : M json :=
  fun st =>
    let init := request_init url method body in
    let '(w, outcome) := fetch (world st) init in
    let st' := {| world := w; fetchLog := fetchLog st ++ [init] |} in
    match request_try outcome with
    | inr data => (st', Ok data)
    | inl c => (st', Throw (request_catch self c))
    end.

Definition get (self : LogicBoxesClient) (path : string)
    (params : option Params) : M json :=
  bind (lift (buildUrl self path params)) (fun url =>
  request self url GET None).

Definition post (self : LogicBoxesClient) (path : string)
    (params : option Params) : M json :=
  bind (lift (buildUrl self path params)) (fun url =>
  request self url POST None).

End WithPlatform.

Arguments ClientState P : clear implicits.
Arguments M P A : clear implicits.

Declare Scope client_scope.
Delimit Scope client_scope with client.
Notation "'let*' x ':=' c 'in' k" := (bind c (fun x => k))
  (at level 10, x name, c at level 100, k at level 200) : client_scope.
Notation "c ';;' k" := (bind c (fun _ => k))
  (at level 100, k at level 200, right associativity) : client_scope.

End Client.

Import Client.

(* ===================================================================== *)
(** * [types.ts]: the declarations the API modules use *)
(* ===================================================================== *)

Module Types.

Inductive DnsRecordType : Type := A | AAAA | CNAME | MX | TXT | NS | SRV | SOA.

(** The string a [DnsRecordType] is at run time. *)
Definition type_name (t : DnsRecordType) : string :=
  match t with
  | A => "A" | AAAA => "AAAA" | CNAME => "CNAME" | MX => "MX"
  | TXT => "TXT" | NS => "NS" | SRV => "SRV" | SOA => "SOA"
  end.

Definition DNS_RECORD_TYPE_MAP (t : DnsRecordType) : string :=
  match t with
  | A => "ipv4" | AAAA => "ipv6" | CNAME => "cname" | MX => "mx"
  | TXT => "txt" | NS => "ns" | SRV => "srv" | SOA => "soa"
  end.

Definition MIN_TTL : Z := 7200.

Record DnsSearchParams : Type := mkDnsSearchParams {
  search_domainName  : string;
  search_type        : DnsRecordType;
  search_host        : option string;
  search_value       : option string;
  search_noOfRecords : option Z;
  search_pageNo      : option Z;
}.

Record AddDnsRecordParams : Type := mkAddParams {
  add_domainName : string;
  add_host       : string;
  add_value      : string;
  add_ttl        : Z;
  add_priority   : option Z;
  add_port       : option Z;
  add_weight     : option Z;
}.

Record UpdateDnsRecordParams : Type := mkUpdateParams {
  upd_domainName   : string;
  upd_host         : string;
  upd_currentValue : string;
  upd_newValue     : string;
  upd_ttl          : Z;
  upd_priority     : option Z;
  upd_port         : option Z;
  upd_weight       : option Z;
}.

Record UpdateSoaParams : Type := mkSoaParams {
  soa_domainName        : string;
  soa_responsiblePerson : string;
  soa_refresh           : Z;
  soa_retry             : Z;
  soa_expire            : Z;
  soa_ttl               : Z;
}.

Record DeleteDnsRecordParams : Type := mkDeleteParams {
  del_domainName : string;
  del_host       : string;
  del_value      : string;
  del_port       : option Z;
  del_weight     : option Z;
}.

(** [Customer]: every field a string, [websitecount] optional. *)
Record Customer : Type := mkCustomer {
  customerid     : string;
  username       : string;
  name           : string;
  company        : string;
  city           : string;
  state          : string;
  country        : string;
  customerstatus : string;
  totalreceipts  : string;
  websitecount   : option string;
}.

Record CustomerSearchParams : Type := mkCustomerSearchParams {
  cs_noOfRecords : option Z;
  cs_pageNo      : option Z;
  cs_customerId  : option Z;
  cs_username    : option string;
  cs_name        : option string;
  cs_company     : option string;
  cs_city        : option string;
  cs_state       : option string;
  cs_status      : option string;
}.

Record DomainSearchParams : Type := mkDomainSearchParams {
  ds_noOfRecords : option Z;
  ds_pageNo      : option Z;
  ds_customerId  : option Z;
  ds_domainName  : option string;
  ds_status      : option string;
}.

(** The value the three [parseSearchResponse] methods return: the list
    ([records], [customers] or [domains]) with the two counts. *)
Record Page (T : Type) : Type := mkPage {
  items    : list T;
  total    : number;
  pageSize : number;
}.
Arguments mkPage {T} items total pageSize.
Arguments items {T} p.
Arguments total {T} p.
Arguments pageSize {T} p.

(** [parseInt(String(raw[name] ?? '0'), 10)], the expression the three
    modules compute [total] and [pageSize] with. *)
Definition count_field (raw : json) (name : string) : Result number :=
  rbind (js_String (nullish_or (get_prop raw name) (JStr "0"))) (fun s =>
  Ok (parseInt s)).

End Types.

Import Types.

(* ===================================================================== *)
(** * [dns.ts] *)
(* ===================================================================== *)

Module DnsApi.

Local Open Scope client_scope.

Definition getApiType (type : DnsRecordType) : string :=
  DNS_RECORD_TYPE_MAP type.

Definition validateTtl (ttl : Z) : Result unit :=
  if ttl <? MIN_TTL then
    Throw (new_error ValidationError
             ("TTL must be at least " +:+ pretty MIN_TTL +:+ " seconds, got "
              +:+ pretty ttl) None)
  else Ok tt.

(** A [DnsRecord] is the parsed entry itself. *)
Definition DnsRecord : Type := json.

(** The loop of [parseSearchResponse]: one step per key of [raw]. *)
Definition push_record (records : list DnsRecord) (kv : string * json)
    : list DnsRecord :=
  let value := snd kv in
  if is_object value && has_prop "host" value then records ++ [value]
  else records.

Definition parseSearchResponse (raw : json) : Result (Page DnsRecord) :=
  rbind (entries raw) (fun kvs =>
  let records := fold_left push_record kvs [] in
  rbind (count_field raw "recsindb") (fun total =>
  rbind (count_field raw "recsonpage") (fun pageSize =>
  Ok (mkPage records total pageSize)))).

(** [if (v !== undefined) obj[key] = v] on a fresh key. *)
Definition set_if_defined (key : string) (v : option ParamValue)
    (obj : list (string * ParamValue)) : list (string * ParamValue) :=
  match v with
  | Some x => obj ++ [(key, x)]
  | None => obj
  end.

Section WithPlatform.
Context {P : Platform}.

Definition searchRecords (client : LogicBoxesClient) (params : DnsSearchParams)
    : M P (Page DnsRecord) :=
  let queryParams :=
    [ ("domain-name", PStr (search_domainName params));
      ("type", PStr (type_name (search_type params)));
      ("no-of-records", PNum (default 50 (search_noOfRecords params)));
      ("page-no", PNum (default 1 (search_pageNo params))) ] in
  let queryParams := set_if_defined "host" (PStr <$> search_host params) queryParams in
  let queryParams := set_if_defined "value" (PStr <$> search_value params) queryParams in
  let* raw := get client "dns/manage/search-records.json" (Some (defined queryParams)) in
  lift (parseSearchResponse raw).

(** The [while (hasMore)] loop of [searchAllRecords] for one record type,
    from page [pageNo] on.  [allRecords] is the array shared by all
    iterations: pages are pushed onto it as they arrive, so the result
    carries it beside the outcome, as it stands when the loop ends or
    throws.  [None]: the loop is still running after [fuel] pages. *)
Fixpoint search_pages (fuel : nat) (client : LogicBoxesClient)
    (domainName : string) (type : DnsRecordType) (pageNo : Z)
    (allRecords : list DnsRecord) (st : ClientState P)
    : option (ClientState P * list DnsRecord * Result unit) :=
  match fuel with
  | O => None
  | S fuel' =>
      match searchRecords client
              (mkDnsSearchParams domainName type None None (Some 50) (Some pageNo)) st with
      | (st', Throw e) => Some (st', allRecords, Throw e)
      | (st', Ok result) =>
          let allRecords := allRecords ++ items result in
          let hasMore := gt (total result) (Int (pageNo * 50)) in
          if hasMore
          then search_pages fuel' client domainName type (pageNo + 1) allRecords st'
          else Some (st', allRecords, Ok tt)
      end
  end.

(** The test of the [catch] clause of [searchAllRecords]; every error of
    the model is an [Error] instance. *)
Definition is_no_records_error (error : JsError) : bool :=
  includes (message error) "No records found"
  || includes (message error) "No Entity found"
  || includes (message error) "not found".

Definition allTypes : list DnsRecordType :=
  [A; AAAA; CNAME; MX; TXT; NS; SRV; SOA].

(** The [for (const type of ...)] loop of [searchAllRecords] over the
    record types still to search. *)
Fixpoint search_types (fuel : nat) (client : LogicBoxesClient)
    (domainName : string) (types : list DnsRecordType)
    (allRecords : list DnsRecord) (st : ClientState P)
    : option (ClientState P * Result (list DnsRecord)) :=
  match types with
  | [] => Some (st, Ok allRecords)
  | type :: rest =>
      match search_pages fuel client domainName type 1 allRecords st with
      | None => None
      | Some (st', allRecords, Ok _) =>
          search_types fuel client domainName rest allRecords st'
      | Some (st', allRecords, Throw error) =>
          if is_no_records_error error
          then search_types fuel client domainName rest allRecords st'
          else Some (st', Throw error)
      end
  end.

(** The result of [searchAllRecords]. *)
Record AllRecords : Type := mkAllRecords {
  all_records : list DnsRecord;
  all_total   : Z;
}.

(** [searchAllRecords], each record type being given [fuel] pages. *)
Definition searchAllRecords (fuel : nat) (client : LogicBoxesClient)
    (domainName : string) (st : ClientState P)
    : option (ClientState P * Result AllRecords) :=
  match search_types fuel client domainName allTypes [] st with
  | None => None
  | Some (st', Throw e) => Some (st', Throw e)
  | Some (st', Ok allRecords) =>
      Some (st', Ok (mkAllRecords allRecords (Z.of_nat (length allRecords))))
  end.

Definition is_MX_or_SRV (type : DnsRecordType) : bool :=
  match type with MX | SRV => true | _ => false end.

Definition is_SRV (type : DnsRecordType) : bool :=
  match type with SRV => true | _ => false end.

Definition is_SOA (type : DnsRecordType) : bool :=
  match type with SOA => true | _ => false end.

Definition validation_error {T} (msg : string) : M P T :=
  throw (new_error ValidationError msg None).

(** [if (v === undefined) throw new ValidationError(msg)]. *)
Definition required (v : option Z) (msg : string) : M P Z :=
  match v with
  | Some x => ret x
  | None => validation_error msg
  end.

Definition addRecord (client : LogicBoxesClient) (type : DnsRecordType)
    (params : AddDnsRecordParams) : M P json :=
  if is_SOA type then
    validation_error
      "SOA records cannot be added; use updateSoa() to update the existing SOA record"
  else
    lift (validateTtl (add_ttl params));;
    let apiType := getApiType type in
    let requestParams :=
      [ ("domain-name", PStr (add_domainName params));
        ("host", PStr (add_host params));
        ("value", PStr (add_value params));
        ("ttl", PNum (add_ttl params)) ] in
    let* requestParams :=
      if is_MX_or_SRV type then
        let* priority := required (add_priority params)
                           ("Priority is required for " +:+ type_name type +:+ " records") in
        ret (requestParams ++ [("priority", PNum priority)])
      else ret requestParams in
    let* requestParams :=
      if is_SRV type then
        let* port := required (add_port params) "Port is required for SRV records" in
        let* weight := required (add_weight params) "Weight is required for SRV records" in
        ret (requestParams ++ [("port", PNum port); ("weight", PNum weight)])
      else ret requestParams in
    post client ("dns/manage/add-" +:+ apiType +:+ "-record.json")
         (Some (defined requestParams)).

Definition updateRecord (client : LogicBoxesClient) (type : DnsRecordType)
    (params : UpdateDnsRecordParams) : M P json :=
  if is_SOA type then
    validation_error
      "SOA records cannot be updated with updateRecord(); use updateSoa() instead"
  else
    lift (validateTtl (upd_ttl params));;
    let apiType := getApiType type in
    let requestParams :=
      [ ("domain-name", PStr (upd_domainName params));
        ("host", PStr (upd_host params));
        ("current-value", PStr (upd_currentValue params));
        ("new-value", PStr (upd_newValue params));
        ("ttl", PNum (upd_ttl params)) ] in
    let requestParams :=
      if is_MX_or_SRV type
      then set_if_defined "priority" (PNum <$> upd_priority params) requestParams
      else requestParams in
    let requestParams :=
      if is_SRV type
      then set_if_defined "weight" (PNum <$> upd_weight params)
             (set_if_defined "port" (PNum <$> upd_port params) requestParams)
      else requestParams in
    post client ("dns/manage/update-" +:+ apiType +:+ "-record.json")
         (Some (defined requestParams)).

Definition updateSoa (client : LogicBoxesClient) (params : UpdateSoaParams)
    : M P json :=
  let requestParams :=
    [ ("domain-name", PStr (soa_domainName params));
      ("responsible-person", PStr (soa_responsiblePerson params));
      ("refresh", PNum (soa_refresh params));
      ("retry", PNum (soa_retry params));
      ("expire", PNum (soa_expire params));
      ("ttl", PNum (soa_ttl params)) ] in
  post client "dns/manage/update-soa-record.json" (Some (defined requestParams)).

Definition deleteRecord (client : LogicBoxesClient) (type : DnsRecordType)
    (params : DeleteDnsRecordParams) : M P json :=
  if is_SOA type then validation_error "SOA records cannot be deleted"
  else
    let apiType := getApiType type in
    let requestParams :=
      [ ("domain-name", PStr (del_domainName params));
        ("host", PStr (del_host params));
        ("value", PStr (del_value params)) ] in
    let* requestParams :=
      if is_SRV type then
        let* port := required (del_port params)
                       "Port is required when deleting SRV records" in
        let* weight := required (del_weight params)
                         "Weight is required when deleting SRV records" in
        ret (requestParams ++ [("port", PNum port); ("weight", PNum weight)])
      else ret requestParams in
    post client ("dns/manage/delete-" +:+ apiType +:+ "-record.json")
         (Some (defined requestParams)).

Definition activateDns (client : LogicBoxesClient) (orderId : string) : M P json :=
  post client "dns/activate.json" (Some (defined [("order-id", PStr orderId)])).

End WithPlatform.

End DnsApi.

(* ===================================================================== *)
(** * [customers.ts] *)
(* ===================================================================== *)

Module CustomerApi.

Local Open Scope client_scope.

(** [String(record[name] ?? '')]. *)
Definition field (record : json) (name : string) : Result string :=
  js_String (nullish_or (get_prop record name) (JStr "")).

(** [record[name] !== undefined ? String(record[name]) : undefined]. *)
Definition optional_field (record : json) (name : string) : Result (option string) :=
  match get_prop record name with
  | Some v => rbind (js_String v) (fun s => Ok (Some s))
  | None => Ok None
  end.

(** The object literal pushed for one entry, its fields evaluated in
    source order. *)
Definition to_customer (record : json) : Result Customer :=
  rbind (field record "customer.customerid") (fun customerid =>
  rbind (field record "customer.username") (fun username =>
  rbind (field record "customer.name") (fun name =>
  rbind (field record "customer.company") (fun company =>
  rbind (field record "customer.city") (fun city =>
  rbind (field record "customer.state") (fun state =>
  rbind (field record "customer.country") (fun country =>
  rbind (field record "customer.customerstatus") (fun customerstatus =>
  rbind (field record "customer.totalreceipts") (fun totalreceipts =>
  rbind (optional_field record "customer.websitecount") (fun websitecount =>
  Ok (mkCustomer customerid username name company city state country
        customerstatus totalreceipts websitecount))))))))))).

(** The loop of [parseSearchResponse] over the entries still to visit. *)
Fixpoint push_customers (kvs : list (string * json)) (customers : list Customer)
    : Result (list Customer) :=
  match kvs with
  | [] => Ok customers
  | (_, entry) :: rest =>
      if negb (is_object entry) then push_customers rest customers
      else rbind (to_customer entry) (fun c =>
           push_customers rest (customers ++ [c]))
  end.

Definition parseSearchResponse (raw : json) : Result (Page Customer) :=
  rbind (entries raw) (fun kvs =>
  rbind (push_customers kvs []) (fun customers =>
  rbind (count_field raw "recsindb") (fun total =>
  rbind (count_field raw "recsonpage") (fun pageSize =>
  Ok (mkPage customers total pageSize))))).

Section WithPlatform.
Context {P : Platform}.

Definition getByUsername (client : LogicBoxesClient) (username : string) : M P json :=
  get client "customers/details.json" (Some [("username", Some (PStr username))]).

Definition getById (client : LogicBoxesClient) (customerId : Z) : M P json :=
  get client "customers/details-by-id.json"
      (Some [("customer-id", Some (PNum customerId))]).

Definition search (client : LogicBoxesClient) (params : option CustomerSearchParams)
    : M P (Page Customer) :=
  let* raw :=
    get client "customers/search.json"
      (Some [ ("no-of-records", Some (PNum (default 25 (params ≫= cs_noOfRecords))));
              ("page-no", Some (PNum (default 1 (params ≫= cs_pageNo))));
              ("customer-id", PNum <$> (params ≫= cs_customerId));
              ("username", PStr <$> (params ≫= cs_username));
              ("name", PStr <$> (params ≫= cs_name));
              ("company", PStr <$> (params ≫= cs_company));
              ("city", PStr <$> (params ≫= cs_city));
              ("state", PStr <$> (params ≫= cs_state));
              ("status", PStr <$> (params ≫= cs_status)) ]) in
  lift (parseSearchResponse raw).

End WithPlatform.

End CustomerApi.

(* ===================================================================== *)
(** * [domains.ts] *)
(* ===================================================================== *)

Module DomainApi.

Local Open Scope client_scope.

(** The prototype of the [domain] object: [Object.prototype], as for every
    object literal, until an assignment to [__proto__] replaces it by
    [null] or by a parsed object or array. *)
Inductive Prototype : Type :=
| ObjectPrototype
| NullPrototype
| ValuePrototype (v : json).

(** A [Domain] as [parseSearchResponse] builds it: an object filled by
    assignments [domain[key] = value], that is a map from the names of its
    own properties to their values, and its prototype. *)
Record Domain : Type := mkDomain {
  own   : gmap string json;
  proto : Prototype;
}.

(** [{}]. *)
Definition empty_object : Domain := mkDomain ∅ ObjectPrototype.

(** Whether a write to [__proto__] reaches the setter [Object.prototype]
    defines for it: no own property of that name, and none on the way
    along the prototype chain (a parsed object may own a property named
    [__proto__]; an array does not). *)
Definition reaches_proto_setter (domain : Domain) : bool :=
  match own domain !! "__proto__" with
  | Some _ => false
  | None =>
      match proto domain with
      | ObjectPrototype => true
      | NullPrototype => false
      | ValuePrototype v => negb (has_own "__proto__" v)
      end
  end.

(** [domain[key] = value].  Every property on the prototype chain of a
    [domain] is a writable data property, except the accessor [__proto__]
    of [Object.prototype], so the assignment creates or updates an own
    property, unless it reaches that accessor: its setter replaces the
    prototype when [value] is an object or [null] and does nothing
    otherwise. *)
Definition assign (domain : Domain) (key : string) (value : json) : Domain :=
  if String.eqb key "__proto__" && reaches_proto_setter domain then
    match value with
    | JObj _ | JArr _ => mkDomain (own domain) (ValuePrototype value)
    | JNull => mkDomain (own domain) NullPrototype
    | _ => domain
    end
  else mkDomain (<[key := value]> (own domain)) (proto domain).

(** [domain[name]] for a [name] as in [get_prop], that is one that
    [Object.prototype] does not define ([constructor], [toString],
    [__proto__] and the like are never [undefined] on an object literal):
    the own property, or else the property of the prototype. *)
Definition read (domain : Domain) (name : string) : option json :=
  match own domain !! name with
  | Some v => Some v
  | None =>
      match proto domain with
      | ValuePrototype v => get_prop v name
      | ObjectPrototype | NullPrototype => None
      end
  end.

(** The stripped key of one property of an entry. *)
Definition cleanKey (dottedKey : string) : string :=
  let dotIndex := indexOf dottedKey "." in
  if 0 <=? dotIndex then slice dottedKey (dotIndex + 1) else dottedKey.

(** One step of the inner loop: [domain[cleanKey] = value]. *)
Definition strip_entry (domain : Domain) (kv : string * json) : Domain :=
  assign domain (cleanKey (fst kv)) (snd kv).

(** The [domain] object after the inner loop. *)
Definition stripped (record : json) : Domain :=
  fold_left strip_entry (own_entries record) empty_object.

(** The [domain] pushed for one entry: the stripped object, with
    [description] mapped to [domainname]. *)
Definition to_domain (record : json) : Domain :=
  let domain := stripped record in
  if truthy (read domain "description") && negb (truthy (read domain "domainname"))
  then match read domain "description" with
       | Some description => assign domain "domainname" description
       | None => domain
       end
  else domain.

(** One step of the outer loop. *)
Definition push_domain (domains : list Domain) (kv : string * json) : list Domain :=
  let entry := snd kv in
  if negb (is_object entry) then domains
  else domains ++ [to_domain entry].

Definition parseSearchResponse (raw : json) : Result (Page Domain) :=
  rbind (entries raw) (fun kvs =>
  let domains := fold_left push_domain kvs [] in
  rbind (count_field raw "recsindb") (fun total =>
  rbind (count_field raw "recsonpage") (fun pageSize =>
  Ok (mkPage domains total pageSize)))).

Section WithPlatform.
Context {P : Platform}.

Definition search (client : LogicBoxesClient) (params : option DomainSearchParams)
    : M P (Page Domain) :=
  let* raw :=
    get client "domains/search.json"
      (Some [ ("no-of-records", Some (PNum (default 25 (params ≫= ds_noOfRecords))));
              ("page-no", Some (PNum (default 1 (params ≫= ds_pageNo))));
              ("customer-id", PNum <$> (params ≫= ds_customerId));
              ("domain-name", PStr <$> (params ≫= ds_domainName));
              ("status", PStr <$> (params ≫= ds_status)) ]) in
  lift (parseSearchResponse raw).

Definition getDetails (client : LogicBoxesClient) (orderId options : string) : M P json :=
  get client "domains/details.json"
      (Some [("order-id", Some (PStr orderId)); ("options", Some (PStr options))]).

Definition getDetailsByName (client : LogicBoxesClient) (domainName options : string)
    : M P json :=
  get client "domains/details-by-name.json"
      (Some [("domain-name", Some (PStr domainName)); ("options", Some (PStr options))]).

Definition getOrderId (client : LogicBoxesClient) (domainName : string) : M P string :=
  let* raw := get client "domains/orderid.json"
                (Some [("domain-name", Some (PStr domainName))]) in
  lift (js_String raw).

End WithPlatform.

End DomainApi.

(* ===================================================================== *)
(** * The DNS tools of the MCP server *)
(* ===================================================================== *)

Module DnsTools.

Import DnsApi.

Local Open Scope client_scope.

(** The line feed of the template literals. *)
Definition nl : string := String "010"%char EmptyString.

(** ** [formatRecordsTable] *)

(** [r[name]] for a record [r] of the array and a [name] as in
    [get_prop]: reading a property of [null] throws. *)
Definition read_prop (r : json) (name : string) : Result (option json) :=
  match r with
  | JNull =>
      Throw (typeError ("Cannot read properties of null (reading '" +:+ name +:+ "')"))
  | _ => Ok (get_prop r name)
  end.

(** [records.some((r) => r[name] !== undefined)]. *)
Fixpoint some_defined (name : string) (records : list json) : Result bool :=
  match records with
  | [] => Ok false
  | r :: rest =>
      rbind (read_prop r name) (fun v =>
      match v with
      | Some _ => Ok true
      | None => some_defined name rest
      end)
  end.

(** [String(r[name] ?? '')]. *)
Definition cell (r : json) (name : string) : Result string :=
  rbind (read_prop r name) (fun v => js_String (nullish_or v (JStr ""))).

(** [if (present) row.push(String(r[name] ?? ''))]. *)
Definition push_cell (present : bool) (r : json) (name : string)
    (row : list string) : Result (list string) :=
  if present then rbind (cell r name) (fun c => Ok (row ++ [c])) else Ok row.

(** The callback that builds the row of one record. *)
Definition table_row (hasPriority hasPort hasWeight : bool) (r : json)
    : Result (list string) :=
  rbind (cell r "type") (fun type =>
  rbind (cell r "host") (fun host =>
  rbind (cell r "value") (fun value =>
  rbind (cell r "ttl") (fun ttl =>
  rbind (push_cell hasPriority r "priority" [type; host; value; ttl]) (fun row =>
  rbind (push_cell hasPort r "port" row) (fun row =>
  push_cell hasWeight r "weight" row)))))).

(** [records.map(f)] for a callback that may throw. *)
Fixpoint map_result {A B} (f : A -> Result B) (l : list A) : Result (list B) :=
  match l with
  | [] => Ok []
  | x :: rest =>
      rbind (f x) (fun y =>
      rbind (map_result f rest) (fun ys => Ok (y :: ys)))
  end.

(** [if (present) columns.push(name)]. *)
Definition push_column (present : bool) (name : string) (columns : list string)
    : list string :=
  if present then columns ++ [name] else columns.

(** [s.repeat(count)]. *)
Fixpoint str_repeat (s : string) (count : nat) : string :=
  match count with
  | O => ""
  | S n => s +:+ str_repeat s n
  end.

(** [s.padEnd(targetLength)]. *)
Definition padEnd (s : string) (targetLength : nat) : string :=
  s +:+ str_repeat " " (targetLength - String.length s).

(** [Math.max(col.length, ...rows.map((row) => row[i].length))]; every row
    has a cell [i]. *)
Definition column_width (rows : list (list string)) (i : nat) (col : string) : nat :=
  fold_left Nat.max (map (fun row => String.length (nth i row "")) rows)
    (String.length col).

(** [cells.map((cell, i) => cell.padEnd(widths[i]))]; without a width, a
    cell is left as it is. *)
Fixpoint pad_cells (cells : list string) (widths : list nat) : list string :=
  match cells with
  | [] => []
  | c :: rest => padEnd c (hd O widths) :: pad_cells rest (tl widths)
  end.

(** The header, the separator and the lines of the body of the table of
    a non-empty array. *)
Definition table_lines (records : list json)
    : Result (string * string * list string) :=
  rbind (some_defined "priority" records) (fun hasPriority =>
  rbind (some_defined "port" records) (fun hasPort =>
  rbind (some_defined "weight" records) (fun hasWeight =>
  let columns :=
    push_column hasWeight "Weight"
      (push_column hasPort "Port"
         (push_column hasPriority "Priority" ["Type"; "Host"; "Value"; "TTL"])) in
  rbind (map_result (table_row hasPriority hasPort hasWeight) records) (fun rows =>
  let widths := imap (column_width rows) columns in
  let header := join "  " (pad_cells columns widths) in
  let separator := join "  " (map (str_repeat "-") widths) in
  Ok (header, separator, map (fun row => join "  " (pad_cells row widths)) rows))))).

Definition formatRecordsTable (records : list json) : Result string :=
  match records with
  | [] => Ok "No records found."
  | _ =>
      rbind (table_lines records) (fun '(header, separator, lines) =>
      Ok (header +:+ nl +:+ separator +:+ nl +:+ join nl lines))
  end.

(** ** The result of a tool *)

(** [{ content: [{ type: 'text', text }], isError }]; [isError] is left
    out of a result that is no error. *)
Record ToolResult : Type := mkToolResult {
  text    : string;
  isError : bool;
}.

Definition success (text : string) : ToolResult := mkToolResult text false.

(** The [catch] clause every handler ends with; every error of the model
    is an [Error] instance. *)
Definition failure (error : JsError) : ToolResult :=
  mkToolResult ("Error: " +:+ message error) true.

(** [`${n}`] for a number. *)
Definition number_text (n : number) : string :=
  match n with
  | NaN => "NaN"
  | Int z => pretty z
  end.

(** [(v !== undefined ? `\n<label>${v}` : '')]. *)
Definition optional_line (label : string) (v : option Z) : string :=
  match v with
  | Some x => nl +:+ label +:+ pretty x
  | None => ""
  end.

(** ** Grouping by type in [list_all_dns_records] *)

(** The names [Object.prototype] defines: a fresh object literal answers
    a read of one of them with a function, or with [Object.prototype]
    itself for [__proto__]. *)
Definition Object_prototype_names : list string :=
  [ "constructor"; "__defineGetter__"; "__defineSetter__"; "hasOwnProperty";
    "__lookupGetter__"; "__lookupSetter__"; "isPrototypeOf";
    "propertyIsEnumerable"; "toString"; "valueOf"; "__proto__";
    "toLocaleString" ].

Definition inherited (name : string) : bool :=
  existsb (String.eqb name) Object_prototype_names.

(** The [grouped] object: its own properties in creation order, each an
    array of records. *)
Definition Grouped : Type := list (string * list json).

(** [if (!grouped[rtype]) grouped[rtype] = []; grouped[rtype].push(record)]
    for an [rtype] that [Object.prototype] does not define. *)
Fixpoint push_grouped (rtype : string) (record : json) (grouped : Grouped) : Grouped :=
  match grouped with
  | [] => [(rtype, [record])]
  | (key, records) :: rest =>
      if String.eqb key rtype then (key, records ++ [record]) :: rest
      else (key, records) :: push_grouped rtype record rest
  end.

(** [String(record.type ?? 'UNKNOWN')]. *)
Definition rtype_of (record : json) : Result string :=
  rbind (read_prop record "type") (fun v =>
  js_String (nullish_or v (JStr "UNKNOWN"))).

(** The grouping loop over the records still to visit.  Under a name
    that [Object.prototype] defines, [grouped[rtype]] is truthy and has no
    [push] method. *)
Fixpoint group_records (records : list json) (grouped : Grouped) : Result Grouped :=
  match records with
  | [] => Ok grouped
  | record :: rest =>
      rbind (rtype_of record) (fun rtype =>
      if inherited rtype
      then Throw (typeError "grouped[rtype].push is not a function")
      else group_records rest (push_grouped rtype record grouped))
  end.

(** The array index a property name stands for, if any: the canonical
    decimal form of an integer below [2^32 - 1]. *)
Definition array_index (key : string) : option Z :=
  match parseInt key with
  | Int n =>
      if (0 <=? n) && (n <? 4294967295) && String.eqb (pretty n) key
      then Some n else None
  | NaN => None
  end.

(** Insertion of an integer-keyed property among those already in
    ascending order. *)
Fixpoint insert_index (n : Z) (entry : string * list json)
    (sorted : list (Z * (string * list json))) : list (Z * (string * list json)) :=
  match sorted with
  | [] => [(n, entry)]
  | (m, e) :: rest =>
      if n <? m then (n, entry) :: sorted
      else (m, e) :: insert_index n entry rest
  end.

Fixpoint integer_keyed (grouped : Grouped) : list (Z * (string * list json)) :=
  match grouped with
  | [] => []
  | entry :: rest =>
      match array_index (fst entry) with
      | Some n => insert_index n entry (integer_keyed rest)
      | None => integer_keyed rest
      end
  end.

Definition string_keyed (grouped : Grouped) : Grouped :=
  List.filter (fun entry => match array_index (fst entry) with
                            | Some _ => false
                            | None => true
                            end) grouped.

(** [Object.entries(grouped)]: the integer keys in ascending order, then
    the other keys in creation order. *)
Definition Object_entries (grouped : Grouped) : Grouped :=
  map snd (integer_keyed grouped) ++ string_keyed grouped.

(** [`--- ${rtype} Records (${records.length}) ---\n${formatRecordsTable(records)}`]. *)
Definition section_text (entry : string * list json) : Result string :=
  rbind (formatRecordsTable (snd entry)) (fun table =>
  Ok ("--- " +:+ fst entry +:+ " Records (" +:+ pretty (length (snd entry))
      +:+ ") ---" +:+ nl +:+ table)).

(** The text of [list_all_dns_records], from the result of
    [searchAllRecords]. *)
Definition all_records_text (domainName : string) (result : AllRecords)
    : Result string :=
  rbind (group_records (all_records result) []) (fun grouped =>
  rbind (map_result section_text (Object_entries grouped)) (fun sections =>
  Ok ("Total: " +:+ pretty (all_total result) +:+ " record(s) for " +:+ domainName
      +:+ nl +:+ nl
      +:+ match sections with
          | [] => "No records found."
          | _ => join (nl +:+ nl) sections
          end))).

(** ** The handlers *)

Section WithPlatform.
Context {P : Platform}.

(** A handler: the state it leaves and the result it resolves to. *)
Definition Handler : Type := ClientState P -> ClientState P * ToolResult.

(** [try { await call; return ok(v) } catch (error) { ... }], where
    building the text may throw as well. *)
Definition handle {T} (call : M P T) (ok : T -> Result string) : Handler :=
  fun st =>
    match call st with
    | (st', Throw error) => (st', failure error)
    | (st', Ok v) =>
        match ok v with
        | Ok text => (st', success text)
        | Throw error => (st', failure error)
        end
    end.

Definition list_dns_records (dnsApi : LogicBoxesClient) (domainName : string)
    (type : DnsRecordType) (host value : option string) (pageNo : option Z)
    : Handler :=
  handle (searchRecords dnsApi (mkDnsSearchParams domainName type host value None pageNo))
    (fun result =>
       rbind (formatRecordsTable (items result)) (fun table =>
       Ok ("Found " +:+ number_text (total result) +:+ " " +:+ type_name type
           +:+ " record(s) for " +:+ domainName +:+ nl +:+ nl +:+ table))).

(** [list_all_dns_records]; [None]: [searchAllRecords] is still running
    after [fuel] pages of a record type. *)
Definition list_all_dns_records (fuel : nat) (dnsApi : LogicBoxesClient)
    (domainName : string) (st : ClientState P)
    : option (ClientState P * ToolResult) :=
  match searchAllRecords fuel dnsApi domainName st with
  | None => None
  | Some (st', Throw error) => Some (st', failure error)
  | Some (st', Ok result) =>
      match all_records_text domainName result with
      | Ok text => Some (st', success text)
      | Throw error => Some (st', failure error)
      end
  end.

Definition add_dns_record (dnsApi : LogicBoxesClient) (type : DnsRecordType)
    (args : AddDnsRecordParams) : Handler :=
  handle (addRecord dnsApi type args)
    (fun _ =>
       Ok ("Successfully added " +:+ type_name type +:+ " record for "
           +:+ add_domainName args +:+ ":" +:+ nl
           +:+ "  Host:  " +:+ add_host args +:+ nl
           +:+ "  Value: " +:+ add_value args +:+ nl
           +:+ "  TTL:   " +:+ pretty (add_ttl args)
           +:+ optional_line "  Priority: " (add_priority args)
           +:+ optional_line "  Port: " (add_port args)
           +:+ optional_line "  Weight: " (add_weight args))).

Definition update_dns_record (dnsApi : LogicBoxesClient) (type : DnsRecordType)
    (args : UpdateDnsRecordParams) : Handler :=
  handle (updateRecord dnsApi type args)
    (fun _ =>
       Ok ("Successfully updated " +:+ type_name type +:+ " record for "
           +:+ upd_domainName args +:+ ":" +:+ nl
           +:+ "  Host:      " +:+ upd_host args +:+ nl
           +:+ "  Old Value: " +:+ upd_currentValue args +:+ nl
           +:+ "  New Value: " +:+ upd_newValue args +:+ nl
           +:+ "  TTL:       " +:+ pretty (upd_ttl args)
           +:+ optional_line "  Priority: " (upd_priority args)
           +:+ optional_line "  Port: " (upd_port args)
           +:+ optional_line "  Weight: " (upd_weight args))).

Definition delete_dns_record (dnsApi : LogicBoxesClient) (type : DnsRecordType)
    (args : DeleteDnsRecordParams) : Handler :=
  handle (deleteRecord dnsApi type args)
    (fun _ =>
       Ok ("Successfully deleted " +:+ type_name type +:+ " record from "
           +:+ del_domainName args +:+ ":" +:+ nl
           +:+ "  Host:  " +:+ del_host args +:+ nl
           +:+ "  Value: " +:+ del_value args
           +:+ optional_line "  Port: " (del_port args)
           +:+ optional_line "  Weight: " (del_weight args))).

Definition activate_dns (dnsApi : LogicBoxesClient) (orderId : string) : Handler :=
  handle (activateDns dnsApi orderId)
    (fun _ => Ok ("Successfully activated DNS for order " +:+ orderId +:+ ".")).

End WithPlatform.

End DnsTools.

(* ===================================================================== *)
(** * A concrete platform for examples *)
(* ===================================================================== *)

Module Demo.

Definition has_http_scheme (base : string) : bool :=
  String.prefix "https://" base || String.prefix "http://" base.

(** [new URL(path, base)] as far as the examples need it: a base without
    scheme is rejected, and a relative path without query is appended to a
    base that ends with a slash. *)
Definition demo_URL (path base : string) : option URL :=
  if has_http_scheme base then Some (mkURL (base +:+ path) []) else None.

(** A remote side without state: [handler] answers each request. *)
Definition server (handler : Request -> FetchOutcome) : Platform :=
  {| World := unit;
     new_URL := demo_URL;
     fetch := fun w req => (w, handler req) |}.

(** The state before any call. *)
Definition start (handler : Request -> FetchOutcome) : ClientState (server handler) :=
  @mkState (server handler) tt [].

(** A [200 OK] response with the given body. *)
Definition ok_json (data : json) : FetchOutcome :=
  Response 200 "OK" (Parsed data).

Definition config : LogicBoxesConfig :=
  mkConfig "12345" "secret" None None.

Definition client : LogicBoxesClient := new_LogicBoxesClient config.

(** A configuration whose base URL lacks its scheme. *)
Definition config_without_scheme : LogicBoxesConfig :=
  mkConfig "12345" "secret" (Some "httpapi.com/api") None.

(** A remote side that accepts everything. *)
Definition accepting (req : Request) : FetchOutcome :=
  ok_json (JObj [("status", JStr "Success")]).

(** The parameter [name] of the query of a request. *)
Definition query (req : Request) (name : string) : option string :=
  sp_get name (searchParams (req_url req)).

Definition query_is (req : Request) (name value : string) : bool :=
  match query req name with
  | Some v => String.eqb v value
  | None => false
  end.

Definition www_record : json :=
  JObj [ ("host", JStr "www"); ("value", JStr "192.0.2.1"); ("ttl", JStr "7200");
         ("type", JStr "A"); ("status", JStr "Active") ].

Definition no_entity_found : json :=
  JObj [("status", JStr "ERROR"); ("message", JStr "No Entity found")].

(** A zone with one [A] record.  The remote side announces 51 of them,
    serves the first page of [A] records, and answers every other search
    with its [No Entity found] error. *)
Definition short_zone (req : Request) : FetchOutcome :=
  if query_is req "type" "A" && query_is req "page-no" "1"
  then ok_json (JObj [ ("1", www_record);
                       ("recsonpage", JStr "1"); ("recsindb", JStr "51") ])
  else ok_json no_entity_found.

(** A remote side that answers every request with the same status and
    no readable body, and one whose [fetch] always rejects. *)
Definition failing (status : Z) (statusText : string) (req : Request) : FetchOutcome :=
  Response status statusText (Unparsed (ErrorInstance "Unexpected end of JSON input")).

Definition rejecting (r : Rejection) (req : Request) : FetchOutcome :=
  Rejected r.

(** A page with one record that announces [n] records in all. *)
Definition announcing (n : Z) : json :=
  JObj [ ("1", JObj [ ("host", JStr "www"); ("value", JStr "192.0.2.1");
                      ("ttl", JStr "7200"); ("type", JStr "A");
                      ("status", JStr "Active") ]);
         ("recsonpage", JStr "1"); ("recsindb", JNum n) ].

Definition mx_record : json :=
  JObj [ ("host", JStr "@"); ("value", JStr "mail.example.com"); ("ttl", JStr "14400");
         ("type", JStr "MX"); ("priority", JStr "10") ].

(** A record whose type is the name of a member of [Object.prototype]. *)
Definition odd_record : json :=
  JObj [ ("host", JStr "www"); ("type", JStr "constructor") ].

(** A remote side that answers every request with the same body. *)
Definition serving (data : json) (req : Request) : FetchOutcome :=
  ok_json data.

Definition domain_entry : json :=
  JObj [ ("orders.orderid", JStr "101"); ("entity.customerid", JStr "7");
         ("entity.description", JStr "example.com");
         ("entity.currentstatus", JStr "Active") ].

Definition domain_response : json :=
  JObj [ ("1", domain_entry); ("recsonpage", JStr "1"); ("recsindb", JStr "1") ].

(** An entry whose description is the empty string. *)
Definition undescribed_entry : json :=
  JObj [ ("orders.orderid", JStr "102"); ("entity.description", JStr "") ].

Definition undescribed_response : json :=
  JObj [ ("1", undescribed_entry); ("recsonpage", JStr "1"); ("recsindb", JStr "1") ].

(** A response whose numbered entry is an object without [host]. *)
Definition hostless_response : json :=
  JObj [ ("1", JObj [("value", JStr "192.0.2.1"); ("type", JStr "A")]);
         ("recsonpage", JStr "1"); ("recsindb", JStr "1") ].

(** A response with an object under a key that is not a number. *)
Definition unnumbered_response : json :=
  JObj [ ("recsonpage", JStr "0"); ("recsindb", JStr "0"); ("summary", JObj []) ].

End Demo.

(* ===================================================================== *)
(** * Specification-side definitions *)
(* ===================================================================== *)

Module Spec.

(** A configuration that differs from [cfg] in its [baseUrl] only. *)
Definition with_baseUrl (cfg : LogicBoxesConfig) (base : string) : LogicBoxesConfig :=
  mkConfig (cfg_authUserId cfg) (cfg_apiKey cfg) (Some base) (cfg_timeout cfg).

(** The value the caller supplies for [key]: the defined value bound to
    [key] that is enumerated last (in an object, where keys are unique, the
    value of [key] when it is defined). *)
Fixpoint supplied (key : string) (ps : Params) : option ParamValue :=
  match ps with
  | [] => None
  | (k, v) :: rest =>
      match supplied key rest with
      | Some x => Some x
      | None => if String.eqb k key then v else None
      end
  end.

(** The parameters of [ps] whose value is not [undefined]. *)
Definition defined_only (ps : Params) : Params :=
  List.filter (fun kv => match snd kv with Some _ => true | None => false end) ps.

(** The parsed body announces an API-level error: an object whose
    [status] is ['ERROR'] or ['error']. *)
Definition error_body (data : json) : bool :=
  strict_eq_str (get_prop data "status") "ERROR"
  || strict_eq_str (get_prop data "status") "error".

(** The failure modes of a request: [fetch] rejects (network error,
    timeout abort), the status is not 2xx, the body cannot be read as JSON,
    or it announces an API-level error. *)
Definition failed (outcome : FetchOutcome) : bool :=
  match outcome with
  | Rejected _ => true
  | Response status _ body =>
      negb (response_ok status)
      || match body with
         | Unparsed _ => true
         | Parsed data => error_body data
         end
  end.

(** The object-valued entries of a response, in key-enumeration order. *)
Definition object_entries (raw : json) : list json :=
  List.filter is_object (map snd (own_entries raw)).

Definition is_digit (c : ascii) : bool :=
  ((48 <=? N_of_ascii c) && (N_of_ascii c <=? 57))%N.

Fixpoint all_digits (s : string) : bool :=
  match s with
  | EmptyString => true
  | String c rest => is_digit c && all_digits rest
  end.

(** A numbered key: the decimal numeral of a positive integer. *)
Definition is_numbered (key : string) : bool :=
  match key with
  | EmptyString => false
  | String c rest => is_digit c && negb (Ascii.eqb c "0") && all_digits rest
  end.

(** The entries the claim C2 speaks of: those stored under the numbered
    keys of the response, in key-enumeration order, the ones that are not
    objects left out. *)
Definition numbered_objects (raw : json) : list json :=
  List.filter is_object
    (map snd (List.filter (fun kv => is_numbered (fst kv)) (own_entries raw))).

(** The value of the property of an entry that is enumerated last among
    those whose stripped key is [name]. *)
Fixpoint last_stripped (name : string) (kvs : list (string * json)) : option json :=
  match kvs with
  | [] => None
  | (key, value) :: rest =>
      match last_stripped name rest with
      | Some v => Some v
      | None => if String.eqb (DomainApi.cleanKey key) name then Some value else None
      end
  end.

(** The message of an error response, as a string: its [message]
    property, or the default text when the property is missing or [null].
    [None] when the property holds a value of another type. *)
Definition message_text (response : list (string * json)) : option string :=
  match nullish_or (lookup_prop "message" response) (JStr "Unknown API error") with
  | JStr s => Some s
  | _ => None
  end.

(** How many pairs of a query are named [name]. *)
Definition occurrences (name : string) (l : list (string * string)) : nat :=
  length (List.filter (fun p => String.eqb (fst p) name) l).

(** The requests a run has added to the list of [fetch] calls. *)
Definition issued {P : Platform} (before after : ClientState P) (new : list Request) : Prop :=
  fetchLog after = fetchLog before ++ new.

(** [get] or [post], by method. *)
Definition invoke {P : Platform} (method : Method)
    : LogicBoxesClient -> string -> option Params -> M P json :=
  match method with
  | GET => get
  | POST => post
  end.

(** The message of the [LogicBoxesError] that stands for a rejected
    promise of the platform. *)
Definition transport_message (self : LogicBoxesClient) (r : Rejection) : string :=
  match r with
  | AbortError => "Request timed out after " +:+ pretty (timeout self) +:+ "ms"
  | ErrorInstance msg => "Network error: " +:+ msg
  | NonError => "Network error: Unknown network error"
  end.

(** A request [searchAllRecords] makes for [domainName]: a [GET] without
    body that asks for a page of fifty records of one of the record
    types. *)
Definition search_request (domainName : string) (req : Request) : Prop :=
  req_method req = GET /\ req_body req = None
  /\ sp_get "domain-name" (searchParams (req_url req)) = Some domainName
  /\ sp_get "no-of-records" (searchParams (req_url req)) = Some "50"
  /\ exists type, sp_get "type" (searchParams (req_url req)) = Some (type_name type).


(** [Number.isSafeInteger(n)]: the integers below [2^53] in absolute
    value, which a JavaScript number holds exactly and prints in full. *)
Definition safe_integer (n : Z) : Prop :=
  - 9007199254740991 <= n <= 9007199254740991.

(** What a raw response announces under [name]: the number [n], as a
    JSON number or as its decimal string; nothing, or [null], announces
    zero. *)
Definition announces (props : list (string * json)) (name : string) (n : Z) : Prop :=
  match lookup_prop name props with
  | Some (JNum z) => z = n
  | Some (JStr s) => s = pretty n
  | Some JNull | None => n = 0
  | Some _ => False
  end.


(** Whether [list_all_dns_records] files a record under [rtype]. *)
Definition has_type (rtype : string) (record : json) : bool :=
  match DnsTools.rtype_of record with
  | Ok s => String.eqb s rtype
  | Throw _ => false
  end.

(** [grouped[rtype]], for an own property. *)
Fixpoint group_of (rtype : string) (grouped : DnsTools.Grouped) : option (list json) :=
  match grouped with
  | [] => None
  | (key, records) :: rest =>
      if String.eqb key rtype then Some records else group_of rtype rest
  end.

(** The number of pages of fifty records that hold [total] records, one
    page being fetched in any case. *)
Definition pages_for (total : Z) : Z := Z.max 1 ((total + 49) / 50).

End Spec.

Import Spec.

(** Closed statements about concrete runs are settled by evaluation. *)
Ltac by_evaluation := repeat split; vm_compute; reflexivity.

(* ===================================================================== *)
(** * Properties of the built-ins *)
(* ===================================================================== *)

Section Builtins.

Lemma endsWith_refl (s : string) : endsWith s s = true.
Proof. destruct s; cbn [endsWith]; rewrite String.eqb_refl; reflexivity. Qed.

Lemma endsWith_app (s t : string) : endsWith (s +:+ t) t = true.
Proof.
  induction s as [|c s IH]; simpl.
  - apply endsWith_refl.
  - rewrite IH. apply orb_true_r.
Qed.

Lemma sp_get_set_eq (k v : string) (l : list (string * string)) :
  sp_get k (sp_set k v l) = Some v.
Proof.
  induction l as [|[k' v'] l IH]; simpl.
  - rewrite String.eqb_refl. reflexivity.
  - destruct (String.eqb k' k) eqn:E; simpl.
    + rewrite String.eqb_refl. reflexivity.
    + rewrite E. exact IH.
Qed.

Lemma sp_get_filter_ne (k k' : string) (l : list (string * string)) :
  k' <> k ->
  sp_get k' (List.filter (fun p => negb (String.eqb (fst p) k)) l) = sp_get k' l.
Proof.
  intros Hne. induction l as [|[a b] l IH]; simpl; [reflexivity|].
  destruct (String.eqb a k) eqn:E; simpl.
  - apply String.eqb_eq in E. subst a.
    destruct (String.eqb k k') eqn:E'; [|exact IH].
    apply String.eqb_eq in E'. congruence.
  - destruct (String.eqb a k'); [reflexivity|exact IH].
Qed.

Lemma sp_get_set_ne (k k' v : string) (l : list (string * string)) :
  k' <> k -> sp_get k' (sp_set k v l) = sp_get k' l.
Proof.
  intros Hne. induction l as [|[a b] l IH]; simpl.
  - destruct (String.eqb k k') eqn:E; [|reflexivity].
    apply String.eqb_eq in E. congruence.
  - destruct (String.eqb a k) eqn:E; simpl.
    + apply String.eqb_eq in E. subst a.
      destruct (String.eqb k k') eqn:E'.
      * apply String.eqb_eq in E'. congruence.
      * apply sp_get_filter_ne. exact Hne.
    + destruct (String.eqb a k'); [reflexivity|exact IH].
Qed.

End Builtins.

(* ===================================================================== *)
(** * The client: construction *)
(* ===================================================================== *)

Lemma baseUrl_normalised (cfg : LogicBoxesConfig) :
  endsWith (baseUrl (new_LogicBoxesClient cfg)) "/" = true.
Proof.
  unfold new_LogicBoxesClient; simpl.
  destruct (endsWith (default DEFAULT_BASE_URL (cfg_baseUrl cfg)) "/") eqn:E; simpl.
  - exact E.
  - apply endsWith_app.
Qed.

Lemma append_slash_ne (b : string) : b +:+ "/" <> b.
Proof.
  intros H. apply (f_equal String.length) in H.
  assert (Hlen : forall s t, String.length (s +:+ t)
                             = (String.length s + String.length t)%nat).
  { induction s as [|c s IH]; intros t; simpl; [reflexivity|]. f_equal. apply IH. }
  rewrite Hlen in H. simpl in H. lia.
Qed.

(** C10 (amended): the base URL of a constructed client ends with a
    slash, and constructing a client from an already normalised base URL
    changes nothing (the normalisation is idempotent).  A base URL that
    does not end with a slash and the same base URL followed by a slash
    give the same client, hence the same URL, [get] and [post] for every
    path and parameter map.  A base URL that already ends with a slash is
    kept as it is, and so is the same base URL followed by one more slash:
    these two configurations differ only in a trailing slash and do not
    give the same base URL. *)
Theorem C10_base_url_trailing_slash (cfg : LogicBoxesConfig) (b : string) :
  endsWith (baseUrl (new_LogicBoxesClient cfg)) "/" = true
  /\ new_LogicBoxesClient (with_baseUrl cfg (baseUrl (new_LogicBoxesClient cfg)))
     = new_LogicBoxesClient cfg
  /\ (endsWith b "/" = false ->
      new_LogicBoxesClient (with_baseUrl cfg (b +:+ "/"))
      = new_LogicBoxesClient (with_baseUrl cfg b)
      /\ forall (P : Platform) (path : string) (params : option Params),
           buildUrl (new_LogicBoxesClient (with_baseUrl cfg (b +:+ "/"))) path params
           = buildUrl (new_LogicBoxesClient (with_baseUrl cfg b)) path params
           /\ get (new_LogicBoxesClient (with_baseUrl cfg (b +:+ "/"))) path params
              = get (new_LogicBoxesClient (with_baseUrl cfg b)) path params
           /\ post (new_LogicBoxesClient (with_baseUrl cfg (b +:+ "/"))) path params
              = post (new_LogicBoxesClient (with_baseUrl cfg b)) path params)
  /\ (endsWith b "/" = true ->
      baseUrl (new_LogicBoxesClient (with_baseUrl cfg b)) = b
      /\ baseUrl (new_LogicBoxesClient (with_baseUrl cfg (b +:+ "/"))) = b +:+ "/"
      /\ baseUrl (new_LogicBoxesClient (with_baseUrl cfg (b +:+ "/")))
         <> baseUrl (new_LogicBoxesClient (with_baseUrl cfg b))).
Proof.
  split; [apply baseUrl_normalised|].
  split.
  { pose proof (baseUrl_normalised cfg) as Hn.
    unfold new_LogicBoxesClient, with_baseUrl in *; simpl in *.
    rewrite Hn. reflexivity. }
  split.
  - intros Hb.
    assert (Hsame : new_LogicBoxesClient (with_baseUrl cfg (b +:+ "/"))
                    = new_LogicBoxesClient (with_baseUrl cfg b)).
    { unfold new_LogicBoxesClient, with_baseUrl; simpl.
      rewrite endsWith_app, Hb. reflexivity. }
    split; [exact Hsame|].
    intros P path params. rewrite Hsame. repeat split; reflexivity.
  - intros Hb.
    assert (Hshort : baseUrl (new_LogicBoxesClient (with_baseUrl cfg b)) = b).
    { unfold new_LogicBoxesClient, with_baseUrl; simpl. rewrite Hb. reflexivity. }
    assert (Hlong : baseUrl (new_LogicBoxesClient (with_baseUrl cfg (b +:+ "/")))
                    = b +:+ "/").
    { unfold new_LogicBoxesClient, with_baseUrl; simpl.
      rewrite endsWith_app. reflexivity. }
    split; [exact Hshort|]. split; [exact Hlong|].
    rewrite Hshort, Hlong. apply append_slash_ne.
Qed.

Lemma C10_base_url_trailing_slash_witness :
  endsWith "https://test.httpapi.com/api" "/" = false
  /\ baseUrl (new_LogicBoxesClient
                (with_baseUrl Demo.config "https://test.httpapi.com/api/"))
     = baseUrl (new_LogicBoxesClient
                  (with_baseUrl Demo.config "https://test.httpapi.com/api")).
Proof.
  split; [reflexivity|].
  destruct (C10_base_url_trailing_slash Demo.config "https://test.httpapi.com/api")
    as (_ & _ & H & _).
  exact (f_equal baseUrl (proj1 (H eq_refl))).
Defined.

(** The claim C10 fails as stated for a base URL that ends with a slash:
    the configurations with the base URLs [https://httpapi.com/api/] and
    [https://httpapi.com/api//] differ only in a trailing slash, both base
    URLs are kept as they are, and the URLs of the same request differ. *)
Lemma C10_counterexample :
  endsWith "https://httpapi.com/api/" "/" = true
  /\ @buildUrl (Demo.server Demo.accepting)
       (new_LogicBoxesClient (with_baseUrl Demo.config "https://httpapi.com/api/"))
       "domains/search.json" None
     = Ok (mkURL "https://httpapi.com/api/domains/search.json"
             [("auth-userid", "12345"); ("api-key", "secret")])
  /\ @buildUrl (Demo.server Demo.accepting)
       (new_LogicBoxesClient
          (with_baseUrl Demo.config ("https://httpapi.com/api/" +:+ "/")))
       "domains/search.json" None
     = Ok (mkURL "https://httpapi.com/api//domains/search.json"
             [("auth-userid", "12345"); ("api-key", "secret")])
  /\ String.eqb "https://httpapi.com/api//domains/search.json"
       "https://httpapi.com/api/domains/search.json" = false.
Proof. by_evaluation. Qed.

(* ===================================================================== *)
(** * The client: URLs and requests *)
(* ===================================================================== *)

Section ClientFacts.
Context {P : Platform}.
Implicit Types (self : LogicBoxesClient) (st : ClientState P) (ps : Params).

(** The loop of [buildUrl] over the caller's parameters. *)
Lemma params_loop_get (key : string) ps (sp : list (string * string)) :
  sp_get key
    (fold_left (fun sp '(key, value) =>
                  match value with
                  | Some v => sp_set key (String_of v) sp
                  | None => sp
                  end) ps sp)
  = match supplied key ps with
    | Some v => Some (String_of v)
    | None => sp_get key sp
    end.
Proof.
  revert sp. induction ps as [|[k v] ps IH]; intros sp; simpl; [reflexivity|].
  rewrite IH. destruct (supplied key ps) as [x|]; [reflexivity|].
  destruct (String.eqb k key) eqn:E.
  - apply String.eqb_eq in E. subst k.
    destruct v as [v|]; [apply sp_get_set_eq|reflexivity].
  - destruct v as [v|]; [|reflexivity].
    apply sp_get_set_ne. intros ->. rewrite String.eqb_refl in E. discriminate.
Qed.

Lemma params_loop_defined_only ps (sp : list (string * string)) :
  fold_left (fun sp '(key, value) =>
               match value with
               | Some v => sp_set key (String_of v) sp
               | None => sp
               end) (defined_only ps) sp
  = fold_left (fun sp '(key, value) =>
                 match value with
                 | Some v => sp_set key (String_of v) sp
                 | None => sp
                 end) ps sp.
Proof.
  revert sp. induction ps as [|[k [v|]] ps IH]; intros sp; simpl;
    [reflexivity | apply IH | apply IH].
Qed.

Lemma supplied_absent (key : string) ps :
  key ∉ map fst ps -> supplied key ps = None.
Proof.
  induction ps as [|[k w] ps IH]; simpl; intros Hk; [reflexivity|].
  apply not_elem_of_cons in Hk as [Hne Hk].
  rewrite (IH Hk). destruct (String.eqb k key) eqn:E; [|reflexivity].
  apply String.eqb_eq in E. congruence.
Qed.

Lemma supplied_unique (key : string) (v : ParamValue) ps :
  NoDup (map fst ps) -> (key, Some v) ∈ ps -> supplied key ps = Some v.
Proof.
  induction ps as [|[k w] ps IH]; simpl; intros Hnd Hin.
  - apply elem_of_nil in Hin. contradiction.
  - apply NoDup_cons in Hnd as [Hk Hnd].
    apply elem_of_cons in Hin as [Heq|Hin].
    + injection Heq as <- <-.
      rewrite (supplied_absent _ _ Hk), String.eqb_refl. reflexivity.
    + rewrite (IH Hnd Hin). reflexivity.
Qed.

(** The query of a built URL, parameter by parameter. *)
Lemma buildUrl_query self (path : string) ps (url : URL) (key : string) :
  buildUrl self path (Some ps) = Ok url ->
  exists url0, new_URL path (baseUrl self) = Some url0
    /\ address url = address url0
    /\ sp_get key (searchParams url)
       = match supplied key ps with
         | Some v => Some (String_of v)
         | None =>
             if String.eqb key "api-key" then Some (apiKey self)
             else if String.eqb key "auth-userid" then Some (authUserId self)
             else sp_get key (searchParams url0)
         end.
Proof.
  unfold buildUrl. destruct (new_URL path (baseUrl self)) as [url0|]; [|discriminate].
  intros H. injection H as <-. exists url0. split; [reflexivity|]. split; [reflexivity|].
  simpl. rewrite params_loop_get. destruct (supplied key ps); [reflexivity|].
  destruct (String.eqb key "api-key") eqn:E1.
  - apply String.eqb_eq in E1. subst key. apply sp_get_set_eq.
  - rewrite sp_get_set_ne by (intros ->; discriminate).
    destruct (String.eqb key "auth-userid") eqn:E2.
    + apply String.eqb_eq in E2. subst key. apply sp_get_set_eq.
    + apply sp_get_set_ne. intros ->. discriminate.
Qed.

Lemma buildUrl_defined_only self (path : string) ps :
  buildUrl self path (Some (defined_only ps)) = buildUrl self path (Some ps).
Proof.
  unfold buildUrl. destruct (new_URL path (baseUrl self)); [|reflexivity].
  rewrite params_loop_defined_only. reflexivity.
Qed.

(** [get] and [post] pass no body: the request carries neither headers
    nor body. *)
Lemma request_init_no_body (url : URL) (method : Method) :
  request_init url method None = mkRequest url method [] None.
Proof. destruct method; reflexivity. Qed.

Lemma request_eq self (url : URL) (method : Method) st :
  request self url method None st
  = (mkState (fst (fetch (world st) (mkRequest url method [] None)))
             (fetchLog st ++ [mkRequest url method [] None]),
     match request_try (snd (fetch (world st) (mkRequest url method [] None))) with
     | inr data => Ok data
     | inl c => Throw (request_catch self c)
     end).
Proof.
  unfold request. rewrite request_init_no_body.
  destruct (fetch (world st) (mkRequest url method [] None)) as [w outcome]; simpl.
  destruct (request_try outcome); reflexivity.
Qed.

Lemma get_eq self (path : string) (params : option Params) st :
  get self path params st
  = match buildUrl self path params with
    | Ok url => request self url GET None st
    | Throw e => (st, Throw e)
    end.
Proof. unfold get, bind, lift. destruct (buildUrl self path params); reflexivity. Qed.

Lemma post_eq self (path : string) (params : option Params) st :
  post self path params st
  = match buildUrl self path params with
    | Ok url => request self url POST None st
    | Throw e => (st, Throw e)
    end.
Proof. unfold post, bind, lift. destruct (buildUrl self path params); reflexivity. Qed.

(** Whatever the [catch] clause of [request] receives, it throws a
    [LogicBoxesError]. *)
Lemma request_catch_class self (c : Caught) :
  instanceof_LogicBoxesError (request_catch self c) = true.
Proof.
  destruct c as [e|[|msg|]]; simpl; try reflexivity.
  destruct (instanceof_LogicBoxesError e) eqn:E; [exact E|reflexivity].
Qed.

Lemma request_try_failed (outcome : FetchOutcome) :
  failed outcome = true -> exists c, request_try outcome = inl c.
Proof.
  destruct outcome as [r|status text body]; simpl; [eauto|].
  destruct (response_ok status); simpl; [|eauto].
  destruct body as [data|r]; [|eauto].
  unfold error_body. destruct data; simpl; try discriminate.
  intros ->. destruct (createErrorFromResponse props); eauto.
Qed.

Lemma request_try_success (status : Z) (text : string) (data : json) :
  response_ok status = true -> error_body data = false ->
  request_try (Response status text (Parsed data)) = inr data.
Proof.
  intros Hok Hbody. simpl. rewrite Hok. simpl.
  unfold error_body in Hbody. destruct data; simpl in *; try reflexivity.
  rewrite Hbody. reflexivity.
Qed.

End ClientFacts.

Section ClientClaims.
Context {P : Platform}.
Implicit Types (self : LogicBoxesClient) (st : ClientState P).

Lemma buildUrl_no_params self (path : string) :
  buildUrl self path None = buildUrl self path (Some []).
Proof. reflexivity. Qed.

(** C6 (amended): whenever the client builds a URL, its query carries
    [auth-userid] and [api-key], with the credentials of the client unless
    the caller's map supplies a defined value under the same name, which
    then replaces the credential; it carries every caller-supplied
    parameter whose value is not [undefined], stringified; parameters whose
    value is [undefined] are omitted: the URL is the one built from the map
    without them, and a name the caller gives no defined value for is in
    the query only if it is a credential name or comes with the path.
    [get] and [post] send their request to this URL. *)
Theorem C6_query_parameters self (path : string) (params : option Params)
    (url : URL) :
  buildUrl self path params = Ok url ->
  sp_get "auth-userid" (searchParams url)
  = Some (match supplied "auth-userid" (default [] params) with
          | Some v => String_of v
          | None => authUserId self
          end)
  /\ sp_get "api-key" (searchParams url)
     = Some (match supplied "api-key" (default [] params) with
             | Some v => String_of v
             | None => apiKey self
             end)
  /\ (forall key v, supplied key (default [] params) = Some v ->
        sp_get key (searchParams url) = Some (String_of v))
  /\ (NoDup (map fst (default [] params)) ->
      forall key v, (key, Some v) ∈ default [] params ->
        sp_get key (searchParams url) = Some (String_of v))
  /\ buildUrl self path (defined_only <$> params) = Ok url
  /\ (forall key,
        supplied key (default [] params) = None ->
        key <> "auth-userid" -> key <> "api-key" ->
        exists url0,
          new_URL path (baseUrl self) = Some url0
          /\ sp_get key (searchParams url) = sp_get key (searchParams url0))
  /\ forall st,
       get self path params st = request self url GET None st
       /\ post self path params st = request self url POST None st.
Proof.
  intros Hurl.
  assert (Hps : buildUrl self path (Some (default [] params)) = Ok url).
  { destruct params; [exact Hurl|]. rewrite <- buildUrl_no_params. exact Hurl. }
  assert (Hkey : forall key v, supplied key (default [] params) = Some v ->
                   sp_get key (searchParams url) = Some (String_of v)).
  { intros key v Hs.
    destruct (buildUrl_query self path _ url key Hps) as (url0 & _ & _ & Hq).
    rewrite Hq, Hs. reflexivity. }
  repeat split.
  - destruct (buildUrl_query self path _ url "auth-userid" Hps) as (url0 & _ & _ & Hq).
    rewrite Hq. destruct (supplied "auth-userid" (default [] params)); reflexivity.
  - destruct (buildUrl_query self path _ url "api-key" Hps) as (url0 & _ & _ & Hq).
    rewrite Hq. destruct (supplied "api-key" (default [] params)); reflexivity.
  - exact Hkey.
  - intros Hnd key v Hin. apply Hkey. apply supplied_unique; assumption.
  - destruct params as [ps|]; simpl; [|exact Hurl].
    rewrite buildUrl_defined_only. exact Hurl.
  - intros key Hnone Hauth Hkey'.
    destruct (buildUrl_query self path _ url key Hps) as (url0 & Hnew & _ & Hq).
    exists url0. split; [exact Hnew|]. rewrite Hq, Hnone.
    destruct (String.eqb key "api-key") eqn:E1;
      [apply String.eqb_eq in E1; contradiction|].
    destruct (String.eqb key "auth-userid") eqn:E2;
      [apply String.eqb_eq in E2; contradiction|].
    reflexivity.
  - rewrite get_eq, Hurl. reflexivity.
  - rewrite post_eq, Hurl. reflexivity.
Qed.

(** C7 (amended): when [new URL] rejects the path and base, [get] and
    [post] throw its [TypeError] before any [fetch].  Otherwise the call
    performs exactly one [fetch], of a request without headers or body;
    every failure mode (rejected [fetch], non-2xx status, unreadable body,
    body announcing an error) ends in a thrown [LogicBoxesError] or
    subclass; and a 2xx response whose body announces no error resolves to
    the parsed body, unchanged. *)
Theorem C7_one_fetch_and_error_wrapping self (method : Method) (path : string)
    (params : option Params) st :
  let call := match method with GET => get | POST => post end in
  (forall e, buildUrl self path params = Throw e ->
     e = typeError "Invalid URL" /\ call self path params st = (st, Throw e))
  /\ (forall url, buildUrl self path params = Ok url ->
        let req := mkRequest url method [] None in
        let outcome := snd (fetch (world st) req) in
        exists r,
          call self path params st
          = (mkState (fst (fetch (world st) req)) (fetchLog st ++ [req]), r)
          /\ (failed outcome = true ->
              exists e, r = Throw e /\ instanceof_LogicBoxesError e = true)
          /\ (forall status text data,
                outcome = Response status text (Parsed data) ->
                response_ok status = true -> error_body data = false ->
                r = Ok data)).
Proof.
  intros call.
  assert (Hcall : call self path params st
                  = match buildUrl self path params with
                    | Ok url => request self url method None st
                    | Throw e => (st, Throw e)
                    end).
  { subst call. destruct method; [apply get_eq|apply post_eq]. }
  split.
  - intros e He. rewrite Hcall, He. split; [|reflexivity].
    unfold buildUrl in He. destruct (new_URL path (baseUrl self)); [discriminate|].
    injection He as <-. reflexivity.
  - intros url Hurl req outcome. rewrite Hcall, Hurl, request_eq.
    fold req. fold outcome. eexists. split; [reflexivity|]. split.
    + intros Hf. destruct (request_try_failed outcome Hf) as [c Hc].
      rewrite Hc. eexists. split; [reflexivity|]. apply request_catch_class.
    + intros status text data Hout Hok Hbody.
      rewrite Hout, (request_try_success status text data Hok Hbody). reflexivity.
Qed.


End ClientClaims.

Lemma C6_query_parameters_witness :
  @buildUrl (Demo.server Demo.accepting) Demo.client "domains/search.json"
     (Some [("page-no", Some (PNum 2)); ("status", None)])
  = Ok (mkURL "https://httpapi.com/api/domains/search.json"
          [("auth-userid", "12345"); ("api-key", "secret"); ("page-no", "2")])
  /\ sp_get "api-key"
       [("auth-userid", "12345"); ("api-key", "secret"); ("page-no", "2")]
     = Some "secret"
  /\ sp_get "page-no"
       [("auth-userid", "12345"); ("api-key", "secret"); ("page-no", "2")]
     = Some "2"
  /\ @buildUrl (Demo.server Demo.accepting) Demo.client "domains/search.json"
       (Some [("page-no", Some (PNum 2))])
     = Ok (mkURL "https://httpapi.com/api/domains/search.json"
             [("auth-userid", "12345"); ("api-key", "secret"); ("page-no", "2")]).
Proof.
  pose proof (@C6_query_parameters (Demo.server Demo.accepting) Demo.client
                "domains/search.json"
                (Some [("page-no", Some (PNum 2)); ("status", None)])
                (mkURL "https://httpapi.com/api/domains/search.json"
                   [("auth-userid", "12345"); ("api-key", "secret"); ("page-no", "2")])
                eq_refl) as (_ & Hkey & Hsup & _ & Hdef & _).
  split; [reflexivity|]. split; [exact Hkey|].
  split; [exact (Hsup "page-no" (PNum 2) eq_refl)|exact Hdef].
Defined.

(** The claim C6 fails as stated when the caller's map names a credential
    parameter: the query then carries the caller's value, not the
    credential. *)
Lemma C6_counterexample :
  @buildUrl (Demo.server Demo.accepting) Demo.client "domains/search.json"
     (Some [("api-key", Some (PStr "other"))])
  = Ok (mkURL "https://httpapi.com/api/domains/search.json"
          [("auth-userid", "12345"); ("api-key", "other")])
  /\ apiKey Demo.client = "secret"
  /\ sp_get "api-key" [("auth-userid", "12345"); ("api-key", "other")] = Some "other".
Proof. repeat split. Qed.

Lemma C7_one_fetch_and_error_wrapping_witness :
  @buildUrl (Demo.server Demo.short_zone) Demo.client "dns/manage/search-records.json"
     (Some [("type", Some (PStr "MX"))])
  = Ok (mkURL "https://httpapi.com/api/dns/manage/search-records.json"
          [("auth-userid", "12345"); ("api-key", "secret"); ("type", "MX")])
  /\ failed (Demo.short_zone
               (mkRequest
                  (mkURL "https://httpapi.com/api/dns/manage/search-records.json"
                     [("auth-userid", "12345"); ("api-key", "secret"); ("type", "MX")])
                  GET [] None)) = true
  /\ exists r,
       @get (Demo.server Demo.short_zone) Demo.client "dns/manage/search-records.json"
         (Some [("type", Some (PStr "MX"))]) (Demo.start Demo.short_zone)
       = (@mkState (Demo.server Demo.short_zone) tt
            [mkRequest
               (mkURL "https://httpapi.com/api/dns/manage/search-records.json"
                  [("auth-userid", "12345"); ("api-key", "secret"); ("type", "MX")])
               GET [] None], r)
       /\ exists e, r = Throw e /\ instanceof_LogicBoxesError e = true.
Proof.
  split; [reflexivity|]. split; [reflexivity|].
  destruct (@C7_one_fetch_and_error_wrapping (Demo.server Demo.short_zone)
              Demo.client GET "dns/manage/search-records.json"
              (Some [("type", Some (PStr "MX"))]) (Demo.start Demo.short_zone))
    as [_ H].
  destruct (H _ eq_refl) as (r & Hcall & Hfail & _).
  exists r. split; [exact Hcall|]. exact (Hfail eq_refl).
Defined.

(** The claim C7 fails as stated when the URL cannot be built: with a base
    URL that lacks its scheme, [get] throws the [TypeError] of [new URL],
    which is no [LogicBoxesError], and no [fetch] is attempted. *)
Lemma C7_counterexample :
  @get (Demo.server Demo.accepting)
     (new_LogicBoxesClient Demo.config_without_scheme) "domains/search.json" None
     (Demo.start Demo.accepting)
  = (Demo.start Demo.accepting, Throw (typeError "Invalid URL"))
  /\ fetchLog (Demo.start Demo.accepting) = []
  /\ instanceof_LogicBoxesError (typeError "Invalid URL") = false.
Proof. repeat split. Qed.


(* ===================================================================== *)
(** * [DnsApi]: validation *)
(* ===================================================================== *)

Section DnsValidation.
Context {P : Platform}.
Implicit Types (client : LogicBoxesClient) (st : ClientState P).

Import DnsApi.

Lemma validateTtl_low (ttl : Z) :
  ttl < MIN_TTL ->
  exists e, validateTtl ttl = Throw e /\ errClass e = ValidationError.
Proof.
  intros H. unfold validateTtl. apply Z.ltb_lt in H. rewrite H.
  eexists. split; reflexivity.
Qed.

Lemma validateTtl_ok (ttl : Z) : MIN_TTL <= ttl -> validateTtl ttl = Ok tt.
Proof.
  intros H. unfold validateTtl. apply Z.ltb_ge in H. rewrite H. reflexivity.
Qed.

(** C3 (amended): [addRecord] and [updateRecord] throw a
    [ValidationError] and issue no HTTP request whenever the given ttl is
    less than 7200 seconds, and with a ttl of at least 7200 the TTL check
    raises nothing.  [updateSoa] does not check its ttl: whatever its
    value, the parameters are posted with it (unless the URL cannot be
    built). *)
Theorem C3_ttl_validation client st :
  MIN_TTL = 7200
  /\ (forall type params, add_ttl params < MIN_TTL ->
        exists e, addRecord client type params st = (st, Throw e)
                  /\ errClass e = ValidationError)
  /\ (forall type params, upd_ttl params < MIN_TTL ->
        exists e, updateRecord client type params st = (st, Throw e)
                  /\ errClass e = ValidationError)
  /\ (forall ttl, MIN_TTL <= ttl -> validateTtl ttl = Ok tt)
  /\ (forall params,
        updateSoa client params st = (st, Throw (typeError "Invalid URL"))
        \/ exists url,
             fetchLog (fst (updateSoa client params st))
             = fetchLog st ++ [mkRequest url POST [] None]
             /\ sp_get "ttl" (searchParams url) = Some (pretty (soa_ttl params))).
Proof.
  split; [reflexivity|]. split; [|split; [|split]].
  - intros type params Hlow.
    destruct (validateTtl_low _ Hlow) as (e & He & Hcls).
    unfold addRecord. destruct type; simpl;
      try (exists e; unfold bind, lift; rewrite He; split; [reflexivity|exact Hcls]).
    eexists. split; reflexivity.
  - intros type params Hlow.
    destruct (validateTtl_low _ Hlow) as (e & He & Hcls).
    unfold updateRecord. destruct type; simpl;
      try (exists e; unfold bind, lift; rewrite He; split; [reflexivity|exact Hcls]).
    eexists. split; reflexivity.
  - apply validateTtl_ok.
  - intros params. unfold updateSoa. rewrite post_eq.
    destruct (buildUrl client "dns/manage/update-soa-record.json" _) as [url|e] eqn:Hurl.
    + right. exists url. rewrite request_eq. split; [reflexivity|].
      destruct (buildUrl_query client _ _ url "ttl" Hurl) as (url0 & _ & _ & Hq).
      rewrite Hq. reflexivity.
    + left. unfold buildUrl in Hurl.
      destruct (new_URL _ (baseUrl client)); [discriminate|].
      injection Hurl as <-. reflexivity.
Qed.

(** C4: whatever the parameters, [addRecord] and [deleteRecord] called
    with record type [SOA] throw a [ValidationError], and they do so before
    any HTTP request: the state, with the list of [fetch] calls, is left as
    it was. *)
Theorem C4_soa_cannot_be_added_or_deleted client st
    (add : AddDnsRecordParams) (del : DeleteDnsRecordParams) :
  (exists e, addRecord client SOA add st = (st, Throw e)
             /\ errClass e = ValidationError)
  /\ (exists e, deleteRecord client SOA del st = (st, Throw e)
                /\ errClass e = ValidationError)
  /\ fetchLog (fst (addRecord client SOA add st)) = fetchLog st
  /\ fetchLog (fst (deleteRecord client SOA del st)) = fetchLog st.
Proof.
  repeat split; eexists; split; reflexivity.
Qed.

End DnsValidation.

Lemma C3_ttl_validation_witness :
  3600 < MIN_TTL
  /\ exists e,
       @DnsApi.addRecord (Demo.server Demo.accepting) Demo.client A
         (mkAddParams "example.com" "www" "192.0.2.1" 3600 None None None)
         (Demo.start Demo.accepting)
       = (Demo.start Demo.accepting, Throw e)
       /\ errClass e = ValidationError.
Proof.
  split; [reflexivity|].
  destruct (@C3_ttl_validation (Demo.server Demo.accepting) Demo.client
              (Demo.start Demo.accepting)) as (_ & Hadd & _).
  exact (Hadd A (mkAddParams "example.com" "www" "192.0.2.1" 3600 None None None)
              eq_refl).
Defined.

(** The claim C3 fails as stated for [updateSoa]: with a ttl of 60 seconds
    nothing is thrown and the request is sent. *)
Lemma C3_counterexample :
  @DnsApi.updateSoa (Demo.server Demo.accepting) Demo.client
     (mkSoaParams "example.com" "hostmaster.example.com" 7200 7200 172800 60)
     (Demo.start Demo.accepting)
  = (@mkState (Demo.server Demo.accepting) tt
       [mkRequest
          (mkURL "https://httpapi.com/api/dns/manage/update-soa-record.json"
             [ ("auth-userid", "12345"); ("api-key", "secret");
               ("domain-name", "example.com");
               ("responsible-person", "hostmaster.example.com");
               ("refresh", "7200"); ("retry", "7200"); ("expire", "172800");
               ("ttl", "60") ])
          POST [] None],
     Ok (JObj [("status", JStr "Success")]))
  /\ 60 < MIN_TTL.
Proof. split; [vm_compute; reflexivity|reflexivity]. Qed.

(* ===================================================================== *)
(** * [DnsApi.searchAllRecords] *)
(* ===================================================================== *)

Section DnsSearchAll.
Context {P : Platform}.
Implicit Types (client : LogicBoxesClient) (st : ClientState P).

Import DnsApi.

(** Records already collected are never removed. *)
Lemma search_pages_keeps (fuel : nat) client (domainName : string)
    (type : DnsRecordType) (pageNo : Z) (allRecords : list DnsRecord) st
    st' allRecords' (r : Result unit) :
  search_pages fuel client domainName type pageNo allRecords st
  = Some (st', allRecords', r) ->
  exists got, allRecords' = allRecords ++ got.
Proof.
  revert pageNo allRecords st.
  induction fuel as [|fuel IH]; intros pageNo allRecords st; simpl; [discriminate|].
  destruct (searchRecords client _ st) as [st1 [result|e]].
  - destruct (gt (total result) (Int (pageNo * 50))).
    + intros H. destruct (IH _ _ _ H) as [got ->].
      exists (items result ++ got). rewrite app_assoc. reflexivity.
    + intros H. injection H as _ <- _. eauto.
  - intros H. injection H as _ <- _. exists []. rewrite app_nil_r. reflexivity.
Qed.





End DnsSearchAll.




(* ===================================================================== *)
(** * [createErrorFromResponse] *)
(* ===================================================================== *)

(** The classification where the message is a string, or is missing
    (the default text then stands in): the error returned carries the
    status and the message of the response and has the class fixed by
    them. *)
Lemma classification_of_text (response : list (string * json)) (m : string) :
  message_text response = Some m ->
  let status := lookup_prop "status" response in
  let lower := toLowerCase m in
  let auth := includes lower "authentication" || includes lower "invalid credentials" in
  let missing := includes lower "no entity found" || includes lower "not found" in
  exists e,
    createErrorFromResponse response = Ok e
    /\ message e = m /\ apiStatus e = status /\ apiMessage e = Some (JStr m)
    /\ (strict_eq_str status "ERROR" = false -> errClass e = ApiError)
    /\ (strict_eq_str status "ERROR" = true ->
        (auth = true -> errClass e = AuthenticationError)
        /\ (auth = false -> missing = true -> errClass e = NotFoundError)
        /\ (auth = false -> missing = false -> includes lower "invalid" = true ->
            errClass e = ValidationError)
        /\ (auth = false -> missing = false -> includes lower "invalid" = false ->
            errClass e = ApiError)).
Proof.
  intros Hm status lower auth missing.
  unfold createErrorFromResponse. fold status.
  unfold message_text in Hm.
  destruct (nullish_or (lookup_prop "message" response) (JStr "Unknown API error"))
    as [| | |s| |] eqn:Hmsg; try discriminate.
  injection Hm as ->.
  destruct (strict_eq_str status "ERROR") eqn:Hst; simpl.
  - fold lower. fold auth. fold missing.
    destruct auth, missing, (includes lower "invalid"); simpl;
      (eexists; repeat split; try reflexivity; try discriminate).
  - eexists; repeat split; try reflexivity; try discriminate.
Qed.

(** C5 (the code breaks the claim): [createErrorFromResponse] does not
    classify every response.  It does where the message is a string or is
    missing: the error returned carries the status and the message of the
    response, and its class is [ApiError] when the status is not exactly
    [ERROR], otherwise [AuthenticationError], [NotFoundError],
    [ValidationError] or [ApiError] by the lowercased message, as the claim
    says.  With another status, a message of any type gives an [ApiError]
    whose message is the text of that value.  But with the status [ERROR]
    and a message that is no string (a number, an object, ...), the function
    returns nothing: [message.toLowerCase] does not exist and it throws a
    [TypeError], as it does for the response with status [ERROR] and
    message 42. *)
Theorem C5_error_classification (response : list (string * json)) :
  let status := lookup_prop "status" response in
  let msg := nullish_or (lookup_prop "message" response) (JStr "Unknown API error") in
  (forall m, msg = JStr m ->
     let lower := toLowerCase m in
     let auth := includes lower "authentication"
                 || includes lower "invalid credentials" in
     let missing := includes lower "no entity found" || includes lower "not found" in
     exists e,
       createErrorFromResponse response = Ok e
       /\ message e = m /\ apiStatus e = status /\ apiMessage e = Some (JStr m)
       /\ (strict_eq_str status "ERROR" = false -> errClass e = ApiError)
       /\ (strict_eq_str status "ERROR" = true ->
           (auth = true -> errClass e = AuthenticationError)
           /\ (auth = false -> missing = true -> errClass e = NotFoundError)
           /\ (auth = false -> missing = false -> includes lower "invalid" = true ->
               errClass e = ValidationError)
           /\ (auth = false -> missing = false -> includes lower "invalid" = false ->
               errClass e = ApiError)))
  /\ (strict_eq_str status "ERROR" = false ->
      forall m, js_String msg = Ok m ->
        exists e,
          createErrorFromResponse response = Ok e
          /\ errClass e = ApiError /\ message e = m
          /\ apiStatus e = status /\ apiMessage e = Some msg)
  /\ (strict_eq_str status "ERROR" = true ->
      (forall m, msg <> JStr m) ->
      createErrorFromResponse response
      = Throw (typeError "message.toLowerCase is not a function"))
  /\ createErrorFromResponse [("status", JStr "ERROR"); ("message", JNum 42)]
     = Throw (typeError "message.toLowerCase is not a function").
Proof.
  intros status msg. split; [|split; [|split]].
  - intros m Hm. apply classification_of_text.
    unfold message_text. fold msg. rewrite Hm. reflexivity.
  - intros Hst m Hjs. unfold createErrorFromResponse. fold status. fold msg.
    rewrite Hst. simpl. unfold new_error_of. rewrite Hjs. simpl.
    eexists. repeat split; reflexivity.
  - intros Hst Hmsg. unfold createErrorFromResponse. fold status. fold msg.
    rewrite Hst. simpl.
    destruct msg as [| | |m| |]; try reflexivity.
    exfalso. apply (Hmsg m). reflexivity.
  - reflexivity.
Qed.

Lemma C5_error_classification_witness :
  (exists e,
     createErrorFromResponse
       [("status", JStr "ERROR"); ("message", JStr "Invalid TTL value")] = Ok e
     /\ message e = "Invalid TTL value"
     /\ errClass e = ValidationError)
  /\ (exists e,
        createErrorFromResponse [("status", JStr "error"); ("message", JNum 42)] = Ok e
        /\ message e = "42"
        /\ errClass e = ApiError)
  /\ createErrorFromResponse [("status", JStr "ERROR"); ("message", JBool true)]
     = Throw (typeError "message.toLowerCase is not a function").
Proof.
  split; [|split].
  - destruct (C5_error_classification
                [("status", JStr "ERROR"); ("message", JStr "Invalid TTL value")])
      as (Htext & _).
    destruct (Htext "Invalid TTL value" eq_refl)
      as (e & He & Hmsg & _ & _ & _ & Hcls).
    exists e. split; [exact He|]. split; [exact Hmsg|].
    destruct (Hcls eq_refl) as (_ & _ & Hval & _).
    exact (Hval eq_refl eq_refl eq_refl).
  - destruct (C5_error_classification
                [("status", JStr "error"); ("message", JNum 42)])
      as (_ & Hother & _).
    destruct (Hother eq_refl "42" eq_refl) as (e & He & Hcls & Hmsg & _).
    exists e. split; [exact He|]. split; [exact Hmsg|exact Hcls].
  - destruct (C5_error_classification
                [("status", JStr "ERROR"); ("message", JBool true)])
      as (_ & _ & Hthrow & _).
    apply (Hthrow eq_refl). intros m. discriminate.
Defined.

(** The response with status [ERROR] and message 42. *)
Lemma createErrorFromResponse_untyped_message :
  createErrorFromResponse [("status", JStr "ERROR"); ("message", JNum 42)]
  = Throw (typeError "message.toLowerCase is not a function").
Proof. reflexivity. Qed.

(* ===================================================================== *)
(** * The three [parseSearchResponse] methods *)
(* ===================================================================== *)

Section Parsing.

Lemma push_record_loop (kvs : list (string * json)) (records : list json) :
  fold_left DnsApi.push_record kvs records
  = records ++ List.filter (fun v => is_object v && has_prop "host" v) (map snd kvs).
Proof.
  revert records. induction kvs as [|[key value] kvs IH]; intros records; simpl.
  - rewrite app_nil_r. reflexivity.
  - rewrite IH. unfold DnsApi.push_record. simpl.
    destruct (is_object value && has_prop "host" value); [|reflexivity].
    rewrite <- app_assoc. reflexivity.
Qed.

Lemma push_domain_loop (kvs : list (string * json)) (domains : list DomainApi.Domain) :
  fold_left DomainApi.push_domain kvs domains
  = domains ++ map DomainApi.to_domain (List.filter is_object (map snd kvs)).
Proof.
  revert domains. induction kvs as [|[key entry] kvs IH]; intros domains; simpl.
  - rewrite app_nil_r. reflexivity.
  - rewrite IH. unfold DomainApi.push_domain. simpl.
    destruct (is_object entry); simpl; [|reflexivity].
    rewrite <- app_assoc. reflexivity.
Qed.

Lemma push_customers_loop (kvs : list (string * json)) (customers result : list Customer) :
  CustomerApi.push_customers kvs customers = Ok result ->
  exists pushed,
    result = customers ++ pushed
    /\ Forall2 (fun entry c => CustomerApi.to_customer entry = Ok c)
         (List.filter is_object (map snd kvs)) pushed.
Proof.
  revert customers. induction kvs as [|[key entry] kvs IH]; intros customers; simpl.
  - intros H. injection H as <-. exists []. rewrite app_nil_r. split; constructor.
  - destruct (is_object entry); simpl; [|apply IH].
    destruct (CustomerApi.to_customer entry) as [c|e] eqn:Hc; simpl; [|discriminate].
    intros H. destruct (IH _ H) as (pushed & -> & Hall).
    exists (c :: pushed). rewrite <- app_assoc. split; [reflexivity|].
    constructor; assumption.
Qed.

Lemma entries_ok (raw : json) (kvs : list (string * json)) :
  entries raw = Ok kvs -> kvs = own_entries raw.
Proof. destruct raw; simpl; intros H; inversion H; reflexivity. Qed.

Lemma dns_parse_items (raw : json) (page : Page DnsApi.DnsRecord) :
  DnsApi.parseSearchResponse raw = Ok page ->
  items page
  = List.filter (fun v => is_object v && has_prop "host" v) (map snd (own_entries raw)).
Proof.
  unfold DnsApi.parseSearchResponse.
  destruct (entries raw) as [kvs|e] eqn:Hkvs; simpl; [|discriminate].
  apply entries_ok in Hkvs. subst kvs.
  destruct (count_field raw "recsindb"); simpl; [|discriminate].
  destruct (count_field raw "recsonpage"); simpl; [|discriminate].
  intros H. injection H as <-. simpl. apply push_record_loop.
Qed.

Lemma customer_parse_items (raw : json) (page : Page Customer) :
  CustomerApi.parseSearchResponse raw = Ok page ->
  Forall2 (fun entry c => CustomerApi.to_customer entry = Ok c)
    (object_entries raw) (items page).
Proof.
  unfold CustomerApi.parseSearchResponse.
  destruct (entries raw) as [kvs|e] eqn:Hkvs; simpl; [|discriminate].
  apply entries_ok in Hkvs. subst kvs.
  destruct (CustomerApi.push_customers (own_entries raw) []) as [cs|e] eqn:Hcs;
    simpl; [|discriminate].
  destruct (count_field raw "recsindb"); simpl; [|discriminate].
  destruct (count_field raw "recsonpage"); simpl; [|discriminate].
  intros H. injection H as <-. simpl.
  destruct (push_customers_loop _ _ _ Hcs) as (pushed & -> & Hall). exact Hall.
Qed.

Lemma domain_parse_items (raw : json) (page : Page DomainApi.Domain) :
  DomainApi.parseSearchResponse raw = Ok page ->
  items page = map DomainApi.to_domain (object_entries raw).
Proof.
  unfold DomainApi.parseSearchResponse.
  destruct (entries raw) as [kvs|e] eqn:Hkvs; simpl; [|discriminate].
  apply entries_ok in Hkvs. subst kvs.
  destruct (count_field raw "recsindb"); simpl; [|discriminate].
  destruct (count_field raw "recsonpage"); simpl; [|discriminate].
  intros H. injection H as <-. simpl. apply push_domain_loop.
Qed.

End Parsing.

Section SearchClaims.
Context {P : Platform}.
Implicit Types (client : LogicBoxesClient) (st : ClientState P).

(** An [async] method that parses what [get] resolves to. *)
Lemma get_then_parse {T} client (path : string) (q : option Params)
    (parse : json -> Result T) st st' (page : T) :
  bind (get client path q) (fun raw => lift (parse raw)) st = (st', Ok page) ->
  exists raw, get client path q st = (st', Ok raw) /\ parse raw = Ok page.
Proof.
  unfold bind, lift. destruct (get client path q st) as [st1 [raw|e]]; [|discriminate].
  intros H. injection H as <- Hp. eauto.
Qed.

(** C2 (amended): the array a search method returns holds one element for
    each key of the raw response, numbered or not, whose value is an
    object ([DnsApi]: an object with a [host] property), in key-enumeration
    order: the object itself for [DnsApi.searchRecords], the customer or
    the domain built from it for [CustomerApi.search] and
    [DomainApi.search].  Entries whose value is not an object contribute
    nothing. *)
Theorem C2_search_results_flatten client st :
  (forall params st' page,
     DnsApi.searchRecords client params st = (st', Ok page) ->
     exists q raw,
       get client "dns/manage/search-records.json" q st = (st', Ok raw)
       /\ items page
          = List.filter (fun v => is_object v && has_prop "host" v)
              (map snd (own_entries raw)))
  /\ (forall params st' page,
        CustomerApi.search client params st = (st', Ok page) ->
        exists q raw,
          get client "customers/search.json" q st = (st', Ok raw)
          /\ Forall2 (fun entry c => CustomerApi.to_customer entry = Ok c)
               (object_entries raw) (items page))
  /\ (forall params st' page,
        DomainApi.search client params st = (st', Ok page) ->
        exists q raw,
          get client "domains/search.json" q st = (st', Ok raw)
          /\ items page = map DomainApi.to_domain (object_entries raw)).
Proof.
  split; [|split].
  - intros params st' page H. apply get_then_parse in H as (raw & Hget & Hparse).
    eexists. exists raw. split; [exact Hget|]. apply dns_parse_items. exact Hparse.
  - intros params st' page H. apply get_then_parse in H as (raw & Hget & Hparse).
    eexists. exists raw. split; [exact Hget|]. apply customer_parse_items. exact Hparse.
  - intros params st' page H. apply get_then_parse in H as (raw & Hget & Hparse).
    eexists. exists raw. split; [exact Hget|]. apply domain_parse_items. exact Hparse.
Qed.

End SearchClaims.

Lemma C2_search_results_flatten_witness :
  @DnsApi.searchRecords (Demo.server Demo.short_zone) Demo.client
     (mkDnsSearchParams "example.com" A None None None None)
     (Demo.start Demo.short_zone)
  = (@mkState (Demo.server Demo.short_zone) tt
       [mkRequest
          (mkURL "https://httpapi.com/api/dns/manage/search-records.json"
             [ ("auth-userid", "12345"); ("api-key", "secret");
               ("domain-name", "example.com"); ("type", "A");
               ("no-of-records", "50"); ("page-no", "1") ])
          GET [] None],
     Ok (mkPage [Demo.www_record] (Int 51) (Int 1)))
  /\ exists q raw,
       @get (Demo.server Demo.short_zone) Demo.client
         "dns/manage/search-records.json" q (Demo.start Demo.short_zone)
       = (@mkState (Demo.server Demo.short_zone) tt
            [mkRequest
               (mkURL "https://httpapi.com/api/dns/manage/search-records.json"
                  [ ("auth-userid", "12345"); ("api-key", "secret");
                    ("domain-name", "example.com"); ("type", "A");
                    ("no-of-records", "50"); ("page-no", "1") ])
               GET [] None],
          Ok raw)
       /\ [Demo.www_record]
          = List.filter (fun v => is_object v && has_prop "host" v)
              (map snd (own_entries raw)).
Proof.
  assert (Hrun :
    @DnsApi.searchRecords (Demo.server Demo.short_zone) Demo.client
       (mkDnsSearchParams "example.com" A None None None None)
       (Demo.start Demo.short_zone)
    = (@mkState (Demo.server Demo.short_zone) tt
         [mkRequest
            (mkURL "https://httpapi.com/api/dns/manage/search-records.json"
               [ ("auth-userid", "12345"); ("api-key", "secret");
                 ("domain-name", "example.com"); ("type", "A");
                 ("no-of-records", "50"); ("page-no", "1") ])
            GET [] None],
       Ok (mkPage [Demo.www_record] (Int 51) (Int 1))))
    by (vm_compute; reflexivity).
  split; [exact Hrun|].
  destruct (@C2_search_results_flatten (Demo.server Demo.short_zone) Demo.client
              (Demo.start Demo.short_zone)) as [Hdns _].
  exact (Hdns _ _ _ Hrun).
Defined.

(** The claim C2 fails as stated in both directions: [searchRecords]
    leaves out the object under the numbered key of a response when it has
    no [host], and [CustomerApi.search] builds a customer from an object
    stored under a key that is not a number. *)
Lemma C2_counterexample :
  snd (@DnsApi.searchRecords (Demo.server (Demo.serving Demo.hostless_response))
         Demo.client (mkDnsSearchParams "example.com" A None None None None)
         (Demo.start (Demo.serving Demo.hostless_response)))
  = Ok (mkPage [] (Int 1) (Int 1))
  /\ numbered_objects Demo.hostless_response
     = [JObj [("value", JStr "192.0.2.1"); ("type", JStr "A")]]
  /\ snd (@CustomerApi.search (Demo.server (Demo.serving Demo.unnumbered_response))
            Demo.client None (Demo.start (Demo.serving Demo.unnumbered_response)))
     = Ok (mkPage [mkCustomer "" "" "" "" "" "" "" "" "" None] (Int 0) (Int 0))
  /\ numbered_objects Demo.unnumbered_response = [].
Proof. by_evaluation. Qed.

(* ===================================================================== *)
(** * [DomainApi]: the entries of a search response *)
(* ===================================================================== *)

Section DomainEntries.

Import DomainApi.

Lemma indexOf_range (s : string) (c : ascii) : indexOf s c = -1 \/ 0 <= indexOf s c.
Proof.
  induction s as [|a s IH]; simpl; [left; reflexivity|].
  destruct (Ascii.eqb a c); [right; lia|].
  destruct (indexOf s c <? 0) eqn:E; [left; reflexivity|].
  right. apply Z.ltb_ge in E. lia.
Qed.

Lemma indexOf_first (prefix suffix : string) (c : ascii) :
  indexOf prefix c = -1 ->
  indexOf (prefix +:+ String c suffix) c = Z.of_nat (String.length prefix).
Proof.
  induction prefix as [|a p IH]; simpl; intros H.
  - rewrite Ascii.eqb_refl. reflexivity.
  - destruct (Ascii.eqb a c); [discriminate|].
    assert (Hp : indexOf p c = -1).
    { destruct (indexOf_range p c) as [Hp|Hp]; [exact Hp|].
      destruct (indexOf p c <? 0) eqn:E; [apply Z.ltb_lt in E; lia|lia]. }
    rewrite (IH Hp).
    destruct (Z.of_nat (String.length p) <? 0) eqn:E; [apply Z.ltb_lt in E; lia|lia].
Qed.

Lemma drop_chars_app (prefix rest : string) :
  drop_chars (String.length prefix) (prefix +:+ rest) = rest.
Proof. induction prefix as [|a p IH]; simpl; [destruct rest; reflexivity|exact IH]. Qed.

Lemma cleanKey_dotted (prefix suffix : string) :
  indexOf prefix "." = -1 -> cleanKey (prefix +:+ "." +:+ suffix) = suffix.
Proof.
  intros H. unfold cleanKey.
  change (prefix +:+ "." +:+ suffix) with (prefix +:+ String "." suffix).
  rewrite (indexOf_first prefix suffix "." H).
  destruct (0 <=? Z.of_nat (String.length prefix)) eqn:E; [|apply Z.leb_gt in E; lia].
  unfold slice.
  replace (Z.to_nat (Z.of_nat (String.length prefix) + 1))
    with (S (String.length prefix)) by lia.
  change (S (String.length prefix)) with (String.length (String "." prefix)).
  clear. induction prefix as [|a p IH]; simpl; [destruct suffix; reflexivity|exact IH].
Qed.

Lemma cleanKey_plain (key : string) : indexOf key "." = -1 -> cleanKey key = key.
Proof. intros H. unfold cleanKey. rewrite H. reflexivity. Qed.

(** An assignment changes the own property it names, and no other; the
    name [__proto__] apart. *)
Lemma assign_own (domain : Domain) (key name : string) (value : json) :
  name <> "__proto__" ->
  own (assign domain key value) !! name
  = if String.eqb key name then Some value else own domain !! name.
Proof.
  intros Hname. unfold assign.
  destruct (String.eqb key "__proto__" && reaches_proto_setter domain) eqn:E.
  - apply andb_true_iff in E as [E _]. apply String.eqb_eq in E. subst key.
    destruct (String.eqb "__proto__" name) eqn:E'.
    + apply String.eqb_eq in E'. congruence.
    + destruct value; reflexivity.
  - simpl. destruct (String.eqb key name) eqn:E'.
    + apply String.eqb_eq in E'. subst key. apply lookup_insert_eq.
    + apply lookup_insert_ne. intros ->. rewrite String.eqb_refl in E'. discriminate.
Qed.

Lemma strip_loop_own (kvs : list (string * json)) (domain : Domain) (name : string) :
  name <> "__proto__" ->
  own (fold_left strip_entry kvs domain) !! name
  = match last_stripped name kvs with
    | Some v => Some v
    | None => own domain !! name
    end.
Proof.
  intros Hname. revert domain.
  induction kvs as [|[key value] kvs IH]; intros domain; simpl; [reflexivity|].
  rewrite IH. destruct (last_stripped name kvs); [reflexivity|].
  unfold strip_entry. simpl. rewrite assign_own by exact Hname.
  destruct (String.eqb (cleanKey key) name); reflexivity.
Qed.

Lemma last_stripped_from (name : string) (kvs : list (string * json)) (v : json) :
  last_stripped name kvs = Some v ->
  exists key, (key, v) ∈ kvs /\ cleanKey key = name.
Proof.
  induction kvs as [|[key value] kvs IH]; simpl; [discriminate|].
  destruct (last_stripped name kvs) as [w|].
  - intros H. injection H as ->. destruct (IH eq_refl) as (k & Hin & Hk).
    exists k. split; [right; exact Hin|exact Hk].
  - destruct (String.eqb (cleanKey key) name) eqn:E; [|discriminate].
    intros H. injection H as ->. apply String.eqb_eq in E.
    exists key. split; [left|exact E].
Qed.

Lemma last_stripped_present (key : string) (value : json) (kvs : list (string * json)) :
  (key, value) ∈ kvs -> is_Some (last_stripped (cleanKey key) kvs).
Proof.
  induction kvs as [|[k v] kvs IH]; simpl; intros Hin.
  - apply elem_of_nil in Hin. contradiction.
  - apply elem_of_cons in Hin as [Heq|Hin].
    + injection Heq as <- <-.
      destruct (last_stripped (cleanKey key) kvs); [eauto|].
      rewrite String.eqb_refl. eauto.
    + destruct (IH Hin) as [w ->]. eauto.
Qed.

Lemma last_stripped_absent (name : string) (kvs : list (string * json)) :
  name ∉ map (fun kv => cleanKey (fst kv)) kvs -> last_stripped name kvs = None.
Proof.
  induction kvs as [|[k v] kvs IH]; simpl; intros Hnot; [reflexivity|].
  apply not_elem_of_cons in Hnot as [Hne Hnot].
  rewrite (IH Hnot). destruct (String.eqb (cleanKey k) name) eqn:E; [|reflexivity].
  apply String.eqb_eq in E. congruence.
Qed.

Lemma last_stripped_unique (key : string) (value : json) (kvs : list (string * json)) :
  NoDup (map (fun kv => cleanKey (fst kv)) kvs) ->
  (key, value) ∈ kvs -> last_stripped (cleanKey key) kvs = Some value.
Proof.
  induction kvs as [|[k v] kvs IH]; simpl; intros Hnd Hin.
  - apply elem_of_nil in Hin. contradiction.
  - apply NoDup_cons in Hnd as [Hk Hnd].
    apply elem_of_cons in Hin as [Heq|Hin].
    + injection Heq as <- <-.
      rewrite (last_stripped_absent _ _ Hk), String.eqb_refl. reflexivity.
    + rewrite (IH Hnd Hin). reflexivity.
Qed.

(** C1 (amended): [cleanKey] maps a dotted key to what follows its first
    dot and leaves a key without dot unchanged.  For every entry, the
    object built by the inner loop holds every property of the entry under
    its stripped key, and nothing else: under each name other than
    [__proto__] it holds the value of the property whose stripped key is
    that name (of the one enumerated last when several share it).  When
    the [description] of that object is truthy and its [domainname] is
    missing or falsy, [description] is copied into [domainname]; otherwise
    the object is pushed as it is: a missing, empty or otherwise falsy
    [description] is not copied.  The domains [parseSearchResponse] returns
    are the objects so built from the object-valued entries, in order. *)
Theorem C1_domain_entry_normalisation (record : json) :
  (forall prefix suffix,
     indexOf prefix "." = -1 -> cleanKey (prefix +:+ "." +:+ suffix) = suffix)
  /\ (forall key, indexOf key "." = -1 -> cleanKey key = key)
  /\ (forall name, name <> "__proto__" ->
        own (stripped record) !! name = last_stripped name (own_entries record))
  /\ (forall key value,
        (key, value) ∈ own_entries record -> cleanKey key <> "__proto__" ->
        is_Some (own (stripped record) !! cleanKey key)
        /\ (NoDup (map (fun kv => cleanKey (fst kv)) (own_entries record)) ->
            own (stripped record) !! cleanKey key = Some value))
  /\ (forall name value,
        name <> "__proto__" -> own (stripped record) !! name = Some value ->
        exists key, (key, value) ∈ own_entries record /\ cleanKey key = name)
  /\ (truthy (read (stripped record) "description") = true ->
      truthy (read (stripped record) "domainname") = false ->
      exists description,
        read (stripped record) "description" = Some description
        /\ to_domain record
           = mkDomain (<["domainname" := description]> (own (stripped record)))
               (proto (stripped record)))
  /\ (truthy (read (stripped record) "description") = false ->
      to_domain record = stripped record)
  /\ (truthy (read (stripped record) "domainname") = true ->
      to_domain record = stripped record)
  /\ (forall raw page,
        parseSearchResponse raw = Ok page ->
        items page = map to_domain (object_entries raw)).
Proof.
  assert (Hown : forall name, name <> "__proto__" ->
            own (stripped record) !! name = last_stripped name (own_entries record)).
  { intros name Hname. unfold stripped. rewrite strip_loop_own by exact Hname.
    destruct (last_stripped name (own_entries record)); [reflexivity|].
    apply lookup_empty. }
  split; [exact cleanKey_dotted|]. split; [exact cleanKey_plain|].
  split; [exact Hown|].
  split; [|split; [|split; [|split; [|split]]]].
  - intros key value Hin Hkey. rewrite (Hown _ Hkey). split.
    + exact (last_stripped_present _ _ _ Hin).
    + intros Hnd. exact (last_stripped_unique _ _ _ Hnd Hin).
  - intros name value Hname Hlook. rewrite (Hown _ Hname) in Hlook.
    exact (last_stripped_from _ _ _ Hlook).
  - intros Hd Hn. unfold to_domain. rewrite Hd, Hn. simpl.
    destruct (read (stripped record) "description") as [description|];
      [|discriminate].
    exists description. split; reflexivity.
  - intros Hd. unfold to_domain. rewrite Hd. reflexivity.
  - intros Hn. unfold to_domain. rewrite Hn, andb_false_r. reflexivity.
  - exact domain_parse_items.
Qed.

End DomainEntries.

Lemma C1_domain_entry_normalisation_witness :
  truthy (DomainApi.read (DomainApi.stripped Demo.domain_entry) "description") = true
  /\ truthy (DomainApi.read (DomainApi.stripped Demo.domain_entry) "domainname") = false
  /\ DomainApi.own (DomainApi.stripped Demo.domain_entry) !! "orderid"
     = Some (JStr "101")
  /\ DomainApi.own (DomainApi.to_domain Demo.domain_entry) !! "domainname"
     = Some (JStr "example.com").
Proof.
  assert (Hd : truthy (DomainApi.read (DomainApi.stripped Demo.domain_entry)
                         "description") = true) by (vm_compute; reflexivity).
  assert (Hn : truthy (DomainApi.read (DomainApi.stripped Demo.domain_entry)
                         "domainname") = false) by (vm_compute; reflexivity).
  destruct (C1_domain_entry_normalisation Demo.domain_entry)
    as (_ & _ & Hown & _ & _ & Hcopy & _).
  split; [exact Hd|]. split; [exact Hn|]. split.
  - rewrite (Hown "orderid") by discriminate. reflexivity.
  - destruct (Hcopy Hd Hn) as (description & Hread & ->). simpl.
    rewrite lookup_insert_eq. rewrite <- Hread. vm_compute. reflexivity.
Defined.

(** The claim C1 fails as stated for an entry whose description is the
    empty string: the domain built from it has a [description] field and
    no [domainname] field, and [description] is not copied. *)
Lemma C1_counterexample :
  snd (@DomainApi.search (Demo.server (Demo.serving Demo.undescribed_response))
         Demo.client None (Demo.start (Demo.serving Demo.undescribed_response)))
  = Ok (mkPage [DomainApi.to_domain Demo.undescribed_entry] (Int 1) (Int 1))
  /\ DomainApi.own (DomainApi.to_domain Demo.undescribed_entry) !! "description"
     = Some (JStr "")
  /\ DomainApi.own (DomainApi.to_domain Demo.undescribed_entry) !! "domainname" = None
  /\ DomainApi.read (DomainApi.to_domain Demo.undescribed_entry) "domainname" = None.
Proof. by_evaluation. Qed.

(* ===================================================================== *)
(** * Examples *)
(* ===================================================================== *)

Example parseInt_examples :
  parseInt "15" = Int 15 /\ parseInt "  -7px" = Int (-7) /\ parseInt "x" = NaN
  /\ parseInt "" = NaN.
Proof. by_evaluation. Qed.

Example js_String_examples :
  js_String (JArr [JNum 1; JNull; JStr "a"]) = Ok "1,,a"
  /\ js_String (JObj [("a", JNum 1)]) = Ok "[object Object]"
  /\ js_String (JNum (-12)) = Ok "-12".
Proof. by_evaluation. Qed.

Example cleanKey_examples :
  DomainApi.cleanKey "orders.orderid" = "orderid"
  /\ DomainApi.cleanKey "entity.domainname" = "domainname"
  /\ DomainApi.cleanKey "recsindb" = "recsindb"
  /\ DomainApi.cleanKey "a.b.c" = "b.c".
Proof. repeat split. Qed.

Example createErrorFromResponse_examples :
  createErrorFromResponse
    [("status", JStr "ERROR"); ("message", JStr "No Entity found")]
  = Ok (mkError NotFoundError "No Entity found" None
          (Some (JStr "ERROR")) (Some (JStr "No Entity found")))
  /\ createErrorFromResponse [("status", JStr "error"); ("message", JStr "Invalid TTL")]
     = Ok (mkError ApiError "Invalid TTL" None
             (Some (JStr "error")) (Some (JStr "Invalid TTL")))
  /\ createErrorFromResponse [("status", JStr "ERROR")]
     = Ok (mkError ApiError "Unknown API error" None
             (Some (JStr "ERROR")) (Some (JStr "Unknown API error"))).
Proof. repeat split. Qed.

Example get_example :
  @get (Demo.server Demo.accepting) Demo.client "dns/activate.json"
     (Some [("order-id", Some (PNum 7)); ("x", None)]) (Demo.start Demo.accepting)
  = (@mkState (Demo.server Demo.accepting) tt
       [mkRequest (mkURL "https://httpapi.com/api/dns/activate.json"
                     [("auth-userid", "12345"); ("api-key", "secret"); ("order-id", "7")])
                  GET [] None],
     Ok (JObj [("status", JStr "Success")])).
Proof. by_evaluation. Qed.

(** A property whose stripped key is [__proto__] becomes the prototype of
    the domain, and its [description] is then read through it. *)
Example domain_search_example :
  snd (@DomainApi.search (Demo.server (Demo.serving Demo.domain_response))
         Demo.client None (Demo.start (Demo.serving Demo.domain_response)))
  = Ok (mkPage
          [DomainApi.mkDomain
             {[ "orderid" := JStr "101"; "customerid" := JStr "7";
                "description" := JStr "example.com";
                "currentstatus" := JStr "Active";
                "domainname" := JStr "example.com" ]}
             DomainApi.ObjectPrototype]
          (Int 1) (Int 1)).
Proof. by_evaluation. Qed.

Example proto_entry_example :
  DomainApi.to_domain
    (JObj [("entity.__proto__", JObj [("description", JStr "example.com")])])
  = DomainApi.mkDomain {[ "domainname" := JStr "example.com" ]}
      (DomainApi.ValuePrototype (JObj [("description", JStr "example.com")])).
Proof. by_evaluation. Qed.

(* ===================================================================== *)
(** * Further properties: the query of a built URL *)
(* ===================================================================== *)

Section QueryNames.
Context {P : Platform}.
Implicit Types (self : LogicBoxesClient) (ps : Params).

Lemma occurrences_filter_ne (k k' : string) (l : list (string * string)) :
  k' <> k ->
  occurrences k' (List.filter (fun p => negb (String.eqb (fst p) k)) l)
  = occurrences k' l.
Proof.
  intros Hne. unfold occurrences.
  induction l as [|[a b] l IH]; simpl; [reflexivity|].
  destruct (String.eqb a k) eqn:E; simpl.
  - apply String.eqb_eq in E. subst a.
    destruct (String.eqb k k') eqn:E'; [|exact IH].
    apply String.eqb_eq in E'. congruence.
  - destruct (String.eqb a k'); simpl; rewrite IH; reflexivity.
Qed.

Lemma occurrences_filter_eq (k : string) (l : list (string * string)) :
  occurrences k (List.filter (fun p => negb (String.eqb (fst p) k)) l) = O.
Proof.
  unfold occurrences. induction l as [|[a b] l IH]; simpl; [reflexivity|].
  destruct (String.eqb a k) eqn:E; simpl; [exact IH|].
  rewrite E. exact IH.
Qed.

Lemma occurrences_set_eq (k v : string) (l : list (string * string)) :
  occurrences k (sp_set k v l) = 1%nat.
Proof.
  induction l as [|[a b] l IH]; simpl.
  - unfold occurrences. simpl. rewrite String.eqb_refl. reflexivity.
  - destruct (String.eqb a k) eqn:E.
    + change (occurrences k ((k, v) :: ?t))
        with (length (List.filter (fun p => String.eqb (fst p) k) ((k, v) :: t))).
      simpl. rewrite String.eqb_refl. simpl. f_equal. apply occurrences_filter_eq.
    + unfold occurrences in *. simpl. rewrite E. exact IH.
Qed.

Lemma occurrences_set_ne (k k' v : string) (l : list (string * string)) :
  k' <> k -> occurrences k' (sp_set k v l) = occurrences k' l.
Proof.
  intros Hne. induction l as [|[a b] l IH]; simpl.
  - unfold occurrences. simpl. destruct (String.eqb k k') eqn:E; [|reflexivity].
    apply String.eqb_eq in E. congruence.
  - destruct (String.eqb a k) eqn:E.
    + apply String.eqb_eq in E. subst a.
      pose proof (occurrences_filter_ne k k' l Hne) as Hf.
      unfold occurrences in *. simpl.
      destruct (String.eqb k k') eqn:E'; [apply String.eqb_eq in E'; congruence|].
      exact Hf.
    + unfold occurrences in *. simpl.
      destruct (String.eqb a k'); simpl; rewrite IH; reflexivity.
Qed.

Lemma params_loop_occurrences (key : string) ps (sp : list (string * string)) :
  occurrences key
    (fold_left (fun sp '(key, value) =>
                  match value with
                  | Some v => sp_set key (String_of v) sp
                  | None => sp
                  end) ps sp)
  = match supplied key ps with
    | Some _ => 1%nat
    | None => occurrences key sp
    end.
Proof.
  revert sp. induction ps as [|[k v] ps IH]; intros sp; simpl; [reflexivity|].
  rewrite IH. destruct (supplied key ps) as [x|]; [reflexivity|].
  destruct (String.eqb k key) eqn:E.
  - apply String.eqb_eq in E. subst k.
    destruct v as [v|]; [apply occurrences_set_eq|reflexivity].
  - destruct v as [v|]; [|reflexivity].
    apply occurrences_set_ne. intros ->. rewrite String.eqb_refl in E. discriminate.
Qed.

(** X1: in the query of a built URL each credential parameter and each
    parameter the caller supplies occurs exactly once, even when the query
    that came with the path names it several times; a name the client
    does not set occurs as often as in the query that came with the
    path. *)
Theorem query_names_set_once self (path : string) (params : option Params)
    (url url0 : URL) :
  new_URL path (baseUrl self) = Some url0 ->
  buildUrl self path params = Ok url ->
  occurrences "auth-userid" (searchParams url) = 1%nat
  /\ occurrences "api-key" (searchParams url) = 1%nat
  /\ (forall key v, supplied key (default [] params) = Some v ->
        occurrences key (searchParams url) = 1%nat)
  /\ (forall key, supplied key (default [] params) = None ->
        key <> "auth-userid" -> key <> "api-key" ->
        occurrences key (searchParams url) = occurrences key (searchParams url0)).
Proof.
  intros Hnew Hurl.
  assert (Hq : forall key,
            occurrences key (searchParams url)
            = match supplied key (default [] params) with
              | Some _ => 1%nat
              | None =>
                  occurrences key
                    (sp_set "api-key" (apiKey self)
                       (sp_set "auth-userid" (authUserId self) (searchParams url0)))
              end).
  { intros key. unfold buildUrl in Hurl. rewrite Hnew in Hurl.
    injection Hurl as <-. simpl. destruct params as [ps|]; simpl.
    - apply params_loop_occurrences.
    - reflexivity. }
  split; [|split; [|split]].
  - rewrite Hq. destruct (supplied "auth-userid" (default [] params)); [reflexivity|].
    rewrite occurrences_set_ne by discriminate. apply occurrences_set_eq.
  - rewrite Hq. destruct (supplied "api-key" (default [] params)); [reflexivity|].
    apply occurrences_set_eq.
  - intros key v Hs. rewrite Hq, Hs. reflexivity.
  - intros key Hs Hauth Hkey. rewrite Hq, Hs.
    rewrite !occurrences_set_ne by congruence. reflexivity.
Qed.

End QueryNames.

(* ===================================================================== *)
(** * Further properties: the errors of [get] and [post] *)
(* ===================================================================== *)

Section ClientErrors.
Context {P : Platform}.
Implicit Types (self : LogicBoxesClient) (st : ClientState P).

(** What a call resolves or rejects with, from the outcome of its one
    [fetch]. *)
Lemma invoke_outcome self (method : Method) (path : string)
    (params : option Params) st (url : URL) :
  buildUrl self path params = Ok url ->
  invoke method self path params st
  = (mkState (fst (fetch (world st) (mkRequest url method [] None)))
             (fetchLog st ++ [mkRequest url method [] None]),
     match request_try (snd (fetch (world st) (mkRequest url method [] None))) with
     | inr data => Ok data
     | inl c => Throw (request_catch self c)
     end).
Proof.
  intros Hurl. destruct method; simpl.
  - rewrite get_eq, Hurl. apply request_eq.
  - rewrite post_eq, Hurl. apply request_eq.
Qed.

(** X2: a response whose status is not 2xx makes [get] and [post] throw a
    plain [LogicBoxesError] that carries the status code and whose message
    is [HTTP <status>: <status text>]; the body is not read, so an error
    description in it is lost. *)
Theorem http_status_error self (method : Method) (path : string)
    (params : option Params) st (url : URL) (status : Z) (text : string)
    (body : Body) :
  buildUrl self path params = Ok url ->
  snd (fetch (world st) (mkRequest url method [] None)) = Response status text body ->
  response_ok status = false ->
  snd (invoke method self path params st)
  = Throw (mkError LogicBoxesError ("HTTP " +:+ pretty status +:+ ": " +:+ text)
             (Some status) None None).
Proof.
  intros Hurl Hout Hok. rewrite (invoke_outcome _ _ _ _ _ _ Hurl). simpl.
  rewrite Hout. simpl. rewrite Hok. reflexivity.
Qed.

(** X3: when [fetch] rejects, or [response.json()] rejects on a 2xx
    response, [get] and [post] throw a plain [LogicBoxesError] without
    status code: [Request timed out after <timeout>ms] for an abort, with
    the timeout of the client (30000 unless configured), and
    [Network error: <message>] otherwise, a JSON syntax error included. *)
Theorem transport_error_message self (method : Method) (path : string)
    (params : option Params) st (url : URL) (r : Rejection) :
  buildUrl self path params = Ok url ->
  (snd (fetch (world st) (mkRequest url method [] None)) = Rejected r
   \/ exists status text,
        snd (fetch (world st) (mkRequest url method [] None))
        = Response status text (Unparsed r)
        /\ response_ok status = true) ->
  snd (invoke method self path params st)
  = Throw (mkError LogicBoxesError (transport_message self r) None None None)
  /\ (forall cfg, cfg_timeout cfg = None ->
        transport_message (new_LogicBoxesClient cfg) AbortError
        = "Request timed out after 30000ms").
Proof.
  intros Hurl Hout. split.
  - rewrite (invoke_outcome _ _ _ _ _ _ Hurl). simpl.
    destruct Hout as [-> | (status & text & -> & Hok)]; simpl.
    + destruct r; reflexivity.
    + rewrite Hok. simpl. destruct r; reflexivity.
  - intros cfg Hcfg. unfold transport_message, new_LogicBoxesClient. simpl.
    rewrite Hcfg. reflexivity.
Qed.

(** X4: a 2xx response whose body is an object with status [ERROR] or
    [error] and a string message (or none: the default text) makes [get]
    and [post] throw the error [createErrorFromResponse] returns for it:
    its message and [apiMessage] are the message of the body, its
    [apiStatus] the status, it has no status code; and with the lowercase
    status [error] its class is [ApiError] whatever the message says. *)
Theorem api_error_thrown self (method : Method) (path : string)
    (params : option Params) st (url : URL) (status : Z) (text : string)
    (props : list (string * json)) (m : string) :
  buildUrl self path params = Ok url ->
  snd (fetch (world st) (mkRequest url method [] None))
  = Response status text (Parsed (JObj props)) ->
  response_ok status = true ->
  error_body (JObj props) = true ->
  message_text props = Some m ->
  exists e,
    createErrorFromResponse props = Ok e
    /\ snd (invoke method self path params st) = Throw e
    /\ message e = m /\ apiMessage e = Some (JStr m)
    /\ apiStatus e = lookup_prop "status" props /\ statusCode e = None
    /\ instanceof_LogicBoxesError e = true
    /\ (strict_eq_str (lookup_prop "status" props) "error" = true ->
        errClass e = ApiError).
Proof.
  intros Hurl Hout Hok Hbody Hm.
  rewrite (invoke_outcome _ _ _ _ _ _ Hurl). simpl. rewrite Hout. simpl.
  rewrite Hok. simpl. unfold error_body in Hbody. simpl in Hbody. rewrite Hbody.
  unfold message_text in Hm. unfold createErrorFromResponse.
  destruct (nullish_or (lookup_prop "message" props) (JStr "Unknown API error"))
    as [| | |s| |] eqn:Hmsg; try discriminate.
  injection Hm as ->.
  destruct (strict_eq_str (lookup_prop "status" props) "ERROR") eqn:Hst; simpl.
  - assert (Hlow : strict_eq_str (lookup_prop "status" props) "error" = false).
    { unfold strict_eq_str in *. destruct (lookup_prop "status" props) as [[| | |t| |]|];
        try discriminate. apply String.eqb_eq in Hst. subst t. reflexivity. }
    rewrite Hlow.
    destruct (includes (toLowerCase m) "authentication"
              || includes (toLowerCase m) "invalid credentials");
      [|destruct (includes (toLowerCase m) "no entity found"
                  || includes (toLowerCase m) "not found");
        [|destruct (includes (toLowerCase m) "invalid")]];
      simpl; eexists; (split; [reflexivity|]);
      repeat split; try reflexivity; discriminate.
  - eexists. split; [reflexivity|]. repeat split; reflexivity.
Qed.

(** X5: a 2xx response whose body has status [ERROR] and a message that
    is neither a string nor [null] does not reach the caller as an API
    error: classifying it fails, and [get] and [post] throw a plain
    [LogicBoxesError] that reports a network error and carries neither the
    status nor the message of the body. *)
Theorem untyped_message_reported_as_network_error self (method : Method)
    (path : string) (params : option Params) st (url : URL) (status : Z)
    (text : string) (props : list (string * json)) (msg : json) :
  buildUrl self path params = Ok url ->
  snd (fetch (world st) (mkRequest url method [] None))
  = Response status text (Parsed (JObj props)) ->
  response_ok status = true ->
  strict_eq_str (lookup_prop "status" props) "ERROR" = true ->
  lookup_prop "message" props = Some msg ->
  msg <> JNull -> (forall s, msg <> JStr s) ->
  snd (invoke method self path params st)
  = Throw (mkError LogicBoxesError
             "Network error: message.toLowerCase is not a function" None None None).
Proof.
  intros Hurl Hout Hok Hst Hmsg Hnull Hstr.
  rewrite (invoke_outcome _ _ _ _ _ _ Hurl). simpl. rewrite Hout. simpl.
  rewrite Hok. simpl. rewrite Hst. simpl.
  unfold createErrorFromResponse. rewrite Hst, Hmsg. simpl.
  destruct msg; try reflexivity; [congruence|exfalso; eapply Hstr; reflexivity].
Qed.

End ClientErrors.

(* ===================================================================== *)
(** * Further properties: the requests of [DnsApi] *)
(* ===================================================================== *)

Section DnsRequests.
Context {P : Platform}.
Implicit Types (client : LogicBoxesClient) (st : ClientState P).

Import DnsApi.

(** X6: with an admissible ttl, [addRecord] still sends nothing and
    throws a [ValidationError] when a field the record type requires is
    missing: the priority of an [MX] or [SRV] record, then the port, then
    the weight of an [SRV] record, reported in this order. *)
Theorem add_record_required_fields client (params : AddDnsRecordParams) st :
  MIN_TTL <= add_ttl params ->
  (forall type, is_MX_or_SRV type = true -> add_priority params = None ->
     addRecord client type params st
     = (st, Throw (mkError ValidationError
                     ("Priority is required for " +:+ type_name type +:+ " records")
                     None None None)))
  /\ (forall priority, add_priority params = Some priority ->
        add_port params = None ->
        addRecord client SRV params st
        = (st, Throw (mkError ValidationError "Port is required for SRV records"
                        None None None)))
  /\ (forall priority port, add_priority params = Some priority ->
        add_port params = Some port -> add_weight params = None ->
        addRecord client SRV params st
        = (st, Throw (mkError ValidationError "Weight is required for SRV records"
                        None None None))).
Proof.
  intros Httl. pose proof (validateTtl_ok _ Httl) as Hok.
  split; [|split].
  - intros type Htype Hprio. unfold addRecord.
    destruct type; try discriminate; simpl; unfold bind, lift;
      rewrite Hok, Hprio; reflexivity.
  - intros priority Hprio Hport. unfold addRecord. simpl. unfold bind, lift.
    rewrite Hok, Hprio, Hport. reflexivity.
  - intros priority port Hprio Hport Hweight. unfold addRecord. simpl.
    unfold bind, lift. rewrite Hok, Hprio, Hport, Hweight. reflexivity.
Qed.

(** X7: a valid [addRecord] (type other than [SOA], admissible ttl,
    required fields given) is one [post] to
    [dns/manage/add-<api type>-record.json] whose parameters carry the
    domain name, host, value and ttl; the priority is sent for [MX] and
    [SRV] records only and port and weight for [SRV] records only: given
    for another type, they are dropped without notice. *)
Theorem add_record_request client (type : DnsRecordType)
    (params : AddDnsRecordParams) st :
  is_SOA type = false ->
  MIN_TTL <= add_ttl params ->
  (is_MX_or_SRV type = true -> is_Some (add_priority params)) ->
  (is_SRV type = true -> is_Some (add_port params) /\ is_Some (add_weight params)) ->
  exists ps,
    addRecord client type params st
    = post client ("dns/manage/add-" +:+ DNS_RECORD_TYPE_MAP type +:+ "-record.json")
        (Some ps) st
    /\ supplied "domain-name" ps = Some (PStr (add_domainName params))
    /\ supplied "host" ps = Some (PStr (add_host params))
    /\ supplied "value" ps = Some (PStr (add_value params))
    /\ supplied "ttl" ps = Some (PNum (add_ttl params))
    /\ supplied "priority" ps
       = (if is_MX_or_SRV type then PNum <$> add_priority params else None)
    /\ supplied "port" ps = (if is_SRV type then PNum <$> add_port params else None)
    /\ supplied "weight" ps
       = (if is_SRV type then PNum <$> add_weight params else None).
Proof.
  intros Hsoa Httl Hprio Hsrv. pose proof (validateTtl_ok _ Httl) as Hok.
  unfold addRecord. rewrite Hsoa. unfold bind at 1, lift. rewrite Hok.
  destruct type; try discriminate; simpl;
    try (eexists; split; [reflexivity|]; repeat split; reflexivity).
  - destruct (Hprio eq_refl) as [priority Hp]. rewrite Hp. simpl.
    eexists. split; [reflexivity|]. repeat split; reflexivity.
  - destruct (Hprio eq_refl) as [priority Hp].
    destruct (Hsrv eq_refl) as [[port Hport] [weight Hweight]].
    rewrite Hp, Hport, Hweight. simpl.
    eexists. split; [reflexivity|]. repeat split; reflexivity.
Qed.

(** X8: [updateRecord] requires none of the optional fields: for a type
    other than [SOA] and an admissible ttl it is always one [post] to
    [dns/manage/update-<api type>-record.json], with the domain name,
    host, current value, new value and ttl; a priority is passed on for
    [MX] and [SRV] records when given, port and weight for [SRV] records
    when given, and they are dropped for the other types. *)
Theorem update_record_request client (type : DnsRecordType)
    (params : UpdateDnsRecordParams) st :
  is_SOA type = false ->
  MIN_TTL <= upd_ttl params ->
  exists ps,
    updateRecord client type params st
    = post client ("dns/manage/update-" +:+ DNS_RECORD_TYPE_MAP type +:+ "-record.json")
        (Some ps) st
    /\ supplied "domain-name" ps = Some (PStr (upd_domainName params))
    /\ supplied "host" ps = Some (PStr (upd_host params))
    /\ supplied "current-value" ps = Some (PStr (upd_currentValue params))
    /\ supplied "new-value" ps = Some (PStr (upd_newValue params))
    /\ supplied "ttl" ps = Some (PNum (upd_ttl params))
    /\ supplied "priority" ps
       = (if is_MX_or_SRV type then PNum <$> upd_priority params else None)
    /\ supplied "port" ps = (if is_SRV type then PNum <$> upd_port params else None)
    /\ supplied "weight" ps
       = (if is_SRV type then PNum <$> upd_weight params else None).
Proof.
  intros Hsoa Httl. pose proof (validateTtl_ok _ Httl) as Hok.
  unfold updateRecord. rewrite Hsoa. unfold bind at 1, lift. rewrite Hok.
  destruct type; try discriminate; simpl;
    try (eexists; split; [reflexivity|]; repeat split; reflexivity).
  - destruct (upd_priority params); simpl;
      (eexists; split; [reflexivity|]; repeat split; reflexivity).
  - destruct (upd_priority params), (upd_port params), (upd_weight params); simpl;
      (eexists; split; [reflexivity|]; repeat split; reflexivity).
Qed.

(** X9: [deleteRecord] checks no ttl and no priority.  For an [SRV] record
    it throws a [ValidationError] and sends nothing when the port, or else
    the weight, is missing; otherwise, for a type other than [SOA], it is
    one [post] to [dns/manage/delete-<api type>-record.json] with the
    domain name, host and value, and with port and weight for [SRV] records
    only. *)
Theorem delete_record_request client (type : DnsRecordType)
    (params : DeleteDnsRecordParams) st :
  is_SOA type = false ->
  (is_SRV type = true -> del_port params = None ->
   deleteRecord client type params st
   = (st, Throw (mkError ValidationError "Port is required when deleting SRV records"
                   None None None)))
  /\ (is_SRV type = true -> is_Some (del_port params) -> del_weight params = None ->
      deleteRecord client type params st
      = (st, Throw (mkError ValidationError
                      "Weight is required when deleting SRV records" None None None)))
  /\ ((is_SRV type = true -> is_Some (del_port params) /\ is_Some (del_weight params)) ->
      exists ps,
        deleteRecord client type params st
        = post client
            ("dns/manage/delete-" +:+ DNS_RECORD_TYPE_MAP type +:+ "-record.json")
            (Some ps) st
        /\ supplied "domain-name" ps = Some (PStr (del_domainName params))
        /\ supplied "host" ps = Some (PStr (del_host params))
        /\ supplied "value" ps = Some (PStr (del_value params))
        /\ supplied "ttl" ps = None /\ supplied "priority" ps = None
        /\ supplied "port" ps = (if is_SRV type then PNum <$> del_port params else None)
        /\ supplied "weight" ps
           = (if is_SRV type then PNum <$> del_weight params else None)).
Proof.
  intros Hsoa. unfold deleteRecord. rewrite Hsoa. split; [|split].
  - intros Hsrv Hport. destruct type; try discriminate. simpl.
    unfold bind. rewrite Hport. reflexivity.
  - intros Hsrv [port Hport] Hweight. destruct type; try discriminate. simpl.
    unfold bind. rewrite Hport, Hweight. reflexivity.
  - intros Hsrv.
    destruct type; try discriminate; simpl;
      try (eexists; split; [reflexivity|]; repeat split; reflexivity).
    destruct (Hsrv eq_refl) as [[port Hport] [weight Hweight]].
    rewrite Hport, Hweight. simpl.
    eexists. split; [reflexivity|]. repeat split; reflexivity.
Qed.

(** [searchRecords] is one [get] of [dns/manage/search-records.json]
    whose parameters carry the domain name and the record type, fifty
    records per page and page one unless the caller says otherwise, and the
    host and value filters only when the caller gives them; it resolves to
    what [parseSearchResponse] makes of the body and throws what [get]
    throws. *)
Lemma search_records_request client (params : DnsSearchParams) st :
  exists ps,
    searchRecords client params st
    = bind (get client "dns/manage/search-records.json" (Some ps))
        (fun raw => lift (parseSearchResponse raw)) st
    /\ supplied "domain-name" ps = Some (PStr (search_domainName params))
    /\ supplied "type" ps = Some (PStr (type_name (search_type params)))
    /\ supplied "no-of-records" ps
       = Some (PNum (default 50 (search_noOfRecords params)))
    /\ supplied "page-no" ps = Some (PNum (default 1 (search_pageNo params)))
    /\ supplied "host" ps = PStr <$> search_host params
    /\ supplied "value" ps = PStr <$> search_value params
    /\ (forall e st',
          get client "dns/manage/search-records.json" (Some ps) st = (st', Throw e) ->
          searchRecords client params st = (st', Throw e)).
Proof.
  unfold searchRecords.
  destruct (search_host params) as [host|], (search_value params) as [value|]; simpl;
    (eexists; split; [reflexivity|]; repeat split; try reflexivity;
     intros e st' Hget; unfold bind; rewrite Hget; reflexivity).
Qed.

End DnsRequests.

(* ===================================================================== *)
(** * Further properties: searching *)
(* ===================================================================== *)

Section Searching.
Context {P : Platform}.
Implicit Types (client : LogicBoxesClient) (st : ClientState P).

Import DnsApi.

Lemma buildUrl_some client (path : string) (params : option Params) (url0 : URL) :
  new_URL path (baseUrl client) = Some url0 ->
  exists url, buildUrl client path params = Ok url.
Proof. intros H. unfold buildUrl. rewrite H. eauto. Qed.

(** [get] adds at most one request, a [GET] to the built URL. *)
Lemma get_log client (path : string) (params : option Params) st st' (r : Result json) :
  get client path params st = (st', r) ->
  (st' = st /\ exists e, r = Throw e /\ buildUrl client path params = Throw e)
  \/ exists url, buildUrl client path params = Ok url
       /\ fetchLog st' = fetchLog st ++ [mkRequest url GET [] None].
Proof.
  rewrite get_eq. destruct (buildUrl client path params) as [url|e] eqn:Hurl.
  - rewrite request_eq. intros H. injection H as <- _. right. eauto.
  - intros H. injection H as <- <-. left. eauto.
Qed.

Lemma search_records_log client (params : DnsSearchParams) st st'
    (r : Result (Page DnsRecord)) :
  searchRecords client params st = (st', r) ->
  search_noOfRecords params = Some 50 ->
  (fetchLog st' = fetchLog st /\ exists e, r = Throw e)
  \/ exists req, fetchLog st' = fetchLog st ++ [req]
       /\ search_request (search_domainName params) req.
Proof.
  intros Hrun Hfifty. unfold searchRecords, bind in Hrun.
  destruct (get client _ _ st) as [st1 r1] eqn:Hget.
  assert (Hst : st' = st1).
  { destruct r1; [unfold lift in Hrun|]; injection Hrun as <- _; reflexivity. }
  subst st1.
  destruct (get_log _ _ _ _ _ _ Hget) as [(-> & e & -> & _)|(url & Hurl & Hlog)].
  - left. split; [reflexivity|]. injection Hrun as <-. eauto.
  - right. eexists. split; [exact Hlog|].
    unfold search_request. simpl. split; [reflexivity|]. split; [reflexivity|].
    rewrite Hfifty in Hurl.
    destruct (search_host params) as [host|], (search_value params) as [value|];
      simpl in Hurl;
      (split; [|split; [|exists (search_type params)]]);
      match goal with
      | |- sp_get ?k _ = _ =>
          destruct (buildUrl_query client _ _ url k Hurl) as (url0 & _ & _ & ->);
          reflexivity
      end.
Qed.

Lemma search_pages_log (fuel : nat) client (domainName : string)
    (type : DnsRecordType) (pageNo : Z) (allRecords : list DnsRecord) st
    st' allRecords' (r : Result unit) :
  search_pages fuel client domainName type pageNo allRecords st
  = Some (st', allRecords', r) ->
  exists new, issued st st' new /\ Forall (search_request domainName) new.
Proof.
  revert pageNo allRecords st.
  induction fuel as [|fuel IH]; intros pageNo allRecords st; simpl; [discriminate|].
  destruct (searchRecords client _ st) as [st1 r1] eqn:Hsearch.
  apply search_records_log in Hsearch; [|reflexivity]. simpl in Hsearch.
  assert (Hone : exists new1, issued st st1 new1 /\ Forall (search_request domainName) new1).
  { destruct Hsearch as [[Hlog _]|(req & Hlog & Hreq)].
    - exists []. split; [unfold issued; rewrite app_nil_r; exact Hlog|constructor].
    - exists [req]. split; [exact Hlog|]. constructor; [exact Hreq|constructor]. }
  destruct Hone as (new1 & Hlog1 & Hall1).
  destruct r1 as [result|e].
  - destruct (gt (total result) (Int (pageNo * 50))).
    + intros H. destruct (IH _ _ _ H) as (new2 & Hlog2 & Hall2).
      exists (new1 ++ new2). split.
      * unfold issued in *. rewrite Hlog2, Hlog1, app_assoc. reflexivity.
      * apply Forall_app. split; assumption.
    + intros H. injection H as <- _ _. eauto.
  - intros H. injection H as <- _ _. eauto.
Qed.

Lemma search_types_log (fuel : nat) client (domainName : string)
    (types : list DnsRecordType) (allRecords : list DnsRecord) st st'
    (r : Result (list DnsRecord)) :
  search_types fuel client domainName types allRecords st = Some (st', r) ->
  (exists new, issued st st' new /\ Forall (search_request domainName) new)
  /\ (forall e, r = Throw e -> is_no_records_error e = false).
Proof.
  revert allRecords st st' r.
  induction types as [|type rest IH]; intros allRecords st st' r; simpl.
  - intros H. injection H as <- <-. split; [|discriminate].
    exists []. split; [unfold issued; rewrite app_nil_r; reflexivity|constructor].
  - destruct (search_pages fuel client domainName type 1 allRecords st)
      as [[[st1 acc] r1]|] eqn:Hpages; [|discriminate].
    destruct (search_pages_log _ _ _ _ _ _ _ _ _ _ Hpages) as (new1 & Hlog1 & Hall1).
    assert (Hnext : forall st2 r2,
              search_types fuel client domainName rest acc st1 = Some (st2, r2) ->
              (exists new, issued st st2 new /\ Forall (search_request domainName) new)
              /\ (forall e, r2 = Throw e -> is_no_records_error e = false)).
    { intros st2 r2 H. destruct (IH _ _ _ _ H) as [(new2 & Hlog2 & Hall2) Herr].
      split; [|exact Herr]. exists (new1 ++ new2). split.
      - unfold issued in *. rewrite Hlog2, Hlog1, app_assoc. reflexivity.
      - apply Forall_app. split; assumption. }
    destruct r1 as [[]|error]; [apply Hnext|].
    destruct (is_no_records_error error) eqn:Hskip; [apply Hnext|].
    intros H. injection H as <- <-. split; [eauto|].
    intros e He. injection He as <-. exact Hskip.
Qed.

(** X10: [searchAllRecords] only reads: every request it makes is a [GET]
    without body to the search endpoint, for the given domain, asking for
    fifty records of one of the record types; and the error it throws, if
    any, is never one of the [not found] errors it is meant to skip. *)
Theorem search_all_records_only_reads (fuel : nat) client (domainName : string)
    st st' (r : Result AllRecords) :
  searchAllRecords fuel client domainName st = Some (st', r) ->
  (exists new, issued st st' new /\ Forall (search_request domainName) new)
  /\ (forall e, r = Throw e -> is_no_records_error e = false).
Proof.
  unfold searchAllRecords.
  destruct (search_types fuel client domainName allTypes [] st) as [[st1 r1]|] eqn:Hrun;
    [|discriminate].
  destruct (search_types_log _ _ _ _ _ _ _ _ Hrun) as [Hlog Herr].
  destruct r1 as [allRecords|e]; intros H; injection H as <- <-.
  - split; [exact Hlog|discriminate].
  - split; [exact Hlog|]. intros e' He'. injection He' as <-. apply Herr. reflexivity.
Qed.

Lemma search_records_ok_request client (params : DnsSearchParams) st st'
    (page : Page DnsRecord) :
  searchRecords client params st = (st', Ok page) ->
  exists req, fetchLog st' = fetchLog st ++ [req].
Proof.
  unfold searchRecords, bind.
  destruct (get client _ _ st) as [st1 [raw|e]] eqn:Hget; [|discriminate].
  unfold lift. intros H. injection H as <- _.
  destruct (get_log _ _ _ _ _ _ Hget) as [(_ & e & He & _)|(url & _ & Hlog)];
    [discriminate|eauto].
Qed.

(** X12: when the remote side announces the same total for every page of
    a record type, the search of that type ends normally after
    [max 1 (ceil (total / 50))] requests, given that many pages of fuel:
    one request when the total is at most fifty (or negative), one per
    started page of fifty otherwise. *)
Theorem search_pages_request_count (announced : Z) client (domainName : string)
    (type : DnsRecordType) (fuel : nat) (allRecords : list DnsRecord) st :
  (forall pageNo st0, exists st1 page,
     searchRecords client
       (mkDnsSearchParams domainName type None None (Some 50) (Some pageNo)) st0
     = (st1, Ok page)
     /\ total page = Int announced) ->
  pages_for announced <= Z.of_nat fuel ->
  exists st' allRecords',
    search_pages fuel client domainName type 1 allRecords st
    = Some (st', allRecords', Ok tt)
    /\ length (fetchLog st')
       = (length (fetchLog st) + Z.to_nat (pages_for announced))%nat.
Proof.
  intros Hremote.
  assert (Hgen : forall (fuel : nat) (pageNo : Z) (allRecords : list DnsRecord) st,
            1 <= pageNo ->
            Z.max 1 ((announced + 49) / 50 - pageNo + 1) <= Z.of_nat fuel ->
            exists st' allRecords',
              search_pages fuel client domainName type pageNo allRecords st
              = Some (st', allRecords', Ok tt)
              /\ length (fetchLog st')
                 = (length (fetchLog st)
                    + Z.to_nat (Z.max 1 ((announced + 49) / 50 - pageNo + 1)))%nat).
  { clear fuel allRecords st.
    assert (Hceil : 50 * ((announced + 49) / 50) <= announced + 49
                    < 50 * ((announced + 49) / 50) + 50).
    { pose proof (Z.div_mod (announced + 49) 50).
      pose proof (Z.mod_pos_bound (announced + 49) 50). lia. }
    induction fuel as [|fuel IH]; intros pageNo allRecords st Hpage Hfuel; [lia|].
    simpl. destruct (Hremote pageNo st) as (st1 & page & Hsearch & Htotal).
    rewrite Hsearch, Htotal. simpl.
    destruct (search_records_ok_request _ _ _ _ _ Hsearch) as [req Hlog].
    destruct (pageNo * 50 <? announced) eqn:Hmore.
    - apply Z.ltb_lt in Hmore.
      destruct (IH (pageNo + 1) (allRecords ++ items page) st1) as (st' & acc & Hrun & Hlen);
        [lia|lia|].
      exists st', acc. split; [exact Hrun|].
      rewrite Hlen, Hlog, length_app. simpl. lia.
    - apply Z.ltb_ge in Hmore. eexists _, _. split; [reflexivity|].
      rewrite Hlog, length_app. simpl. lia. }
  intros Hfuel. unfold pages_for in *.
  destruct (Hgen fuel 1 allRecords st) as (st' & acc & Hrun & Hlen); [lia|lia|].
  exists st', acc. split; [exact Hrun|].
  rewrite Hlen. f_equal. f_equal. lia.
Qed.

End Searching.

(* ===================================================================== *)
(** * Further properties: answers without records *)
(* ===================================================================== *)

Section Answers.
Context {P : Platform}.
Implicit Types (client : LogicBoxesClient) (st : ClientState P).

Import DnsApi.

(** The error made from a body whose message is a string, or missing. *)
Lemma create_error_message (props : list (string * json)) (m : string) :
  message_text props = Some m ->
  exists e, createErrorFromResponse props = Ok e
            /\ message e = m /\ instanceof_LogicBoxesError e = true.
Proof.
  unfold message_text, createErrorFromResponse.
  destruct (nullish_or (lookup_prop "message" props) (JStr "Unknown API error"))
    as [| | |s| |]; try discriminate.
  intros H. injection H as ->.
  destruct (strict_eq_str (lookup_prop "status" props) "ERROR"); simpl;
    [|eexists; repeat split; reflexivity].
  destruct (includes (toLowerCase m) "authentication"
            || includes (toLowerCase m) "invalid credentials");
    [|destruct (includes (toLowerCase m) "no entity found"
                || includes (toLowerCase m) "not found");
      [|destruct (includes (toLowerCase m) "invalid")]];
    eexists; repeat split; reflexivity.
Qed.

Lemma get_api_error client (path : string) (params : option Params) st
    (url0 : URL) (status : Z) (text : string) (props : list (string * json))
    (m : string) :
  new_URL path (baseUrl client) = Some url0 ->
  (forall req, snd (fetch (world st) req) = Response status text (Parsed (JObj props))) ->
  response_ok status = true ->
  error_body (JObj props) = true ->
  message_text props = Some m ->
  exists st1 e,
    get client path params st = (st1, Throw e)
    /\ message e = m
    /\ length (fetchLog st1) = S (length (fetchLog st)).
Proof.
  intros Hurl Hans Hok Hbody Hm.
  destruct (buildUrl_some _ _ params _ Hurl) as [url Hbuild].
  pose proof (invoke_outcome client GET path params st url Hbuild) as Hget.
  simpl in Hget. rewrite Hget, Hans. simpl. rewrite Hok. simpl.
  unfold error_body in Hbody. simpl in Hbody. rewrite Hbody.
  destruct (create_error_message _ _ Hm) as (e & -> & Hmsg & Hinst).
  simpl. rewrite Hinst. eexists _, e. split; [reflexivity|].
  split; [exact Hmsg|]. simpl. rewrite length_app. simpl. lia.
Qed.

Lemma search_records_api_error client (params : DnsSearchParams) st
    (url0 : URL) (status : Z) (text : string) (props : list (string * json))
    (m : string) :
  new_URL "dns/manage/search-records.json" (baseUrl client) = Some url0 ->
  (forall req, snd (fetch (world st) req) = Response status text (Parsed (JObj props))) ->
  response_ok status = true ->
  error_body (JObj props) = true ->
  message_text props = Some m ->
  exists st1 e,
    searchRecords client params st = (st1, Throw e)
    /\ message e = m
    /\ length (fetchLog st1) = S (length (fetchLog st)).
Proof.
  intros Hurl Hans Hok Hbody Hm. unfold searchRecords, bind.
  match goal with
  | |- context [get client ?path ?q st] =>
      destruct (get_api_error client path q st url0 status text props m
                  Hurl Hans Hok Hbody Hm) as (st1 & e & -> & Hmsg & Hlen)
  end.
  exists st1, e. split; [reflexivity|]. split; assumption.
Qed.

Lemma search_types_head (fuel : nat) client (domainName : string)
    (type : DnsRecordType) (rest : list DnsRecordType) (allRecords : list DnsRecord)
    st st1 (e : JsError) :
  search_pages fuel client domainName type 1 allRecords st
  = Some (st1, allRecords, Throw e) ->
  search_types fuel client domainName (type :: rest) allRecords st
  = if is_no_records_error e
    then search_types fuel client domainName rest allRecords st1
    else Some (st1, Throw e).
Proof. intros H. simpl. rewrite H. reflexivity. Qed.

(** X13: whether [searchAllRecords] skips a record type or gives up is
    decided by the text of the error message alone.  When the search of a
    type is answered by an error body with the message [m], one request
    is made for the type, no record is added, and the search goes on with
    the next type if [m] contains [No records found], [No Entity found] or
    [not found] in this very spelling; otherwise it throws the error, be it
    a [NotFoundError]. *)
Theorem not_found_decided_by_message (fuel : nat) client (domainName : string)
    (type : DnsRecordType) (rest : list DnsRecordType) (allRecords : list DnsRecord)
    st (url0 : URL) (status : Z) (text : string) (props : list (string * json))
    (m : string) :
  new_URL "dns/manage/search-records.json" (baseUrl client) = Some url0 ->
  (forall req, snd (fetch (world st) req) = Response status text (Parsed (JObj props))) ->
  response_ok status = true ->
  error_body (JObj props) = true ->
  message_text props = Some m ->
  exists st1 e,
    search_pages (S fuel) client domainName type 1 allRecords st
    = Some (st1, allRecords, Throw e)
    /\ message e = m
    /\ length (fetchLog st1) = S (length (fetchLog st))
    /\ search_types (S fuel) client domainName (type :: rest) allRecords st
       = if includes m "No records found" || includes m "No Entity found"
            || includes m "not found"
         then search_types (S fuel) client domainName rest allRecords st1
         else Some (st1, Throw e).
Proof.
  intros Hurl Hans Hok Hbody Hm.
  destruct (search_records_api_error client
              (mkDnsSearchParams domainName type None None (Some 50) (Some 1))
              st url0 status text props m Hurl Hans Hok Hbody Hm)
    as (st1 & e & Hsearch & Hmsg & Hlen).
  assert (Hpages : search_pages (S fuel) client domainName type 1 allRecords st
                   = Some (st1, allRecords, Throw e)).
  { cbn [search_pages]. rewrite Hsearch. reflexivity. }
  exists st1, e. split; [exact Hpages|]. split; [exact Hmsg|]. split; [exact Hlen|].
  rewrite (search_types_head _ _ _ _ _ _ _ _ _ Hpages).
  unfold is_no_records_error. rewrite Hmsg. reflexivity.
Qed.

Lemma get_null client (path : string) (params : option Params) st
    (status : Z) (text : string) :
  (forall path, is_Some (new_URL path (baseUrl client))) ->
  (forall req, snd (fetch (world st) req) = Response status text (Parsed JNull)) ->
  response_ok status = true ->
  exists st1, get client path params st = (st1, Ok JNull)
              /\ length (fetchLog st1) = S (length (fetchLog st)).
Proof.
  intros Hurl Hans Hok. destruct (Hurl path) as [url0 Hurl0].
  destruct (buildUrl_some _ _ params _ Hurl0) as [url Hbuild].
  pose proof (invoke_outcome client GET path params st url Hbuild) as Hget.
  simpl in Hget. rewrite Hget, Hans. simpl. rewrite Hok. simpl.
  eexists. split; [reflexivity|]. simpl. rewrite length_app. simpl. lia.
Qed.

(** X14: a 2xx response whose body is the JSON value [null] passes [get]
    but not the search methods: [searchRecords], [CustomerApi.search] and
    [DomainApi.search] make their one request and then throw a
    [TypeError], which is no [LogicBoxesError]; [searchAllRecords] gives
    up with it at the first record type. *)
Theorem null_body_type_error client st (status : Z) (text : string) :
  (forall path, is_Some (new_URL path (baseUrl client))) ->
  (forall req, snd (fetch (world st) req) = Response status text (Parsed JNull)) ->
  response_ok status = true ->
  let error := typeError "Cannot convert undefined or null to object" in
  instanceof_LogicBoxesError error = false
  /\ (forall params, exists st1,
        searchRecords client params st = (st1, Throw error)
        /\ length (fetchLog st1) = S (length (fetchLog st)))
  /\ (forall params, exists st1,
        CustomerApi.search client params st = (st1, Throw error)
        /\ length (fetchLog st1) = S (length (fetchLog st)))
  /\ (forall params, exists st1,
        DomainApi.search client params st = (st1, Throw error)
        /\ length (fetchLog st1) = S (length (fetchLog st)))
  /\ (forall fuel domainName, exists st1,
        searchAllRecords (S fuel) client domainName st = Some (st1, Throw error)
        /\ length (fetchLog st1) = S (length (fetchLog st))).
Proof.
  intros Hurl Hans Hok error. split; [reflexivity|].
  assert (Hsearch : forall params, exists st1,
            searchRecords client params st = (st1, Throw error)
            /\ length (fetchLog st1) = S (length (fetchLog st))).
  { intros params. unfold searchRecords, bind.
    match goal with
    | |- context [get client ?path ?q st] =>
        destruct (get_null client path q st status text Hurl Hans Hok)
          as (st1 & -> & Hlen)
    end.
    exists st1. split; [reflexivity|exact Hlen]. }
  split; [exact Hsearch|]. split; [|split].
  - intros params. unfold CustomerApi.search, bind.
    match goal with
    | |- context [get client ?path ?q st] =>
        destruct (get_null client path q st status text Hurl Hans Hok)
          as (st1 & -> & Hlen)
    end.
    exists st1. split; [reflexivity|exact Hlen].
  - intros params. unfold DomainApi.search, bind.
    match goal with
    | |- context [get client ?path ?q st] =>
        destruct (get_null client path q st status text Hurl Hans Hok)
          as (st1 & -> & Hlen)
    end.
    exists st1. split; [reflexivity|exact Hlen].
  - intros fuel domainName.
    destruct (Hsearch (mkDnsSearchParams domainName A None None (Some 50) (Some 1)))
      as (st1 & Hrun & Hlen).
    exists st1. split; [|exact Hlen].
    unfold searchAllRecords, allTypes.
    change (search_types (S fuel) client domainName
              [A; AAAA; CNAME; MX; TXT; NS; SRV; SOA] [] st)
      with (match search_pages (S fuel) client domainName A 1 [] st with
            | None => None
            | Some (st', allRecords, Ok _) =>
                search_types (S fuel) client domainName
                  [AAAA; CNAME; MX; TXT; NS; SRV; SOA] allRecords st'
            | Some (st', allRecords, Throw error) =>
                if is_no_records_error error
                then search_types (S fuel) client domainName
                       [AAAA; CNAME; MX; TXT; NS; SRV; SOA] allRecords st'
                else Some (st', Throw error)
            end).
    cbn [search_pages]. rewrite Hrun. reflexivity.
Qed.

Lemma get_failure client (path : string) (params : option Params) st
    (url0 : URL) (outcome : FetchOutcome) (c : Caught) :
  new_URL path (baseUrl client) = Some url0 ->
  (forall req, snd (fetch (world st) req) = outcome) ->
  request_try outcome = inl c ->
  exists st1,
    get client path params st = (st1, Throw (request_catch client c))
    /\ length (fetchLog st1) = S (length (fetchLog st)).
Proof.
  intros Hurl Hans Htry.
  destruct (buildUrl_some _ _ params _ Hurl) as [url Hbuild].
  pose proof (invoke_outcome client GET path params st url Hbuild) as Hget.
  simpl in Hget. rewrite Hget, Hans, Htry.
  eexists. split; [reflexivity|]. simpl. rewrite length_app. simpl. lia.
Qed.

Lemma search_records_failure client (params : DnsSearchParams) st
    (url0 : URL) (outcome : FetchOutcome) (c : Caught) :
  new_URL "dns/manage/search-records.json" (baseUrl client) = Some url0 ->
  (forall req, snd (fetch (world st) req) = outcome) ->
  request_try outcome = inl c ->
  exists st1,
    searchRecords client params st = (st1, Throw (request_catch client c))
    /\ length (fetchLog st1) = S (length (fetchLog st)).
Proof.
  intros Hurl Hans Htry. unfold searchRecords, bind.
  match goal with
  | |- context [get client ?path ?q st] =>
      destruct (get_failure client path q st url0 outcome c Hurl Hans Htry)
        as (st1 & -> & Hlen)
  end.
  exists st1. split; [reflexivity|exact Hlen].
Qed.

(** The search of every record type fails with an error the loop
    skips. *)
Lemma skip_all_types (fuel : nat) client (domainName : string) (url0 : URL)
    (outcome : FetchOutcome) (c : Caught) :
  new_URL "dns/manage/search-records.json" (baseUrl client) = Some url0 ->
  (forall w req, snd (fetch w req) = outcome) ->
  request_try outcome = inl c ->
  is_no_records_error (request_catch client c) = true ->
  forall (types : list DnsRecordType) (allRecords : list DnsRecord) st,
  exists st',
    search_types (S fuel) client domainName types allRecords st
    = Some (st', Ok allRecords)
    /\ length (fetchLog st') = (length (fetchLog st) + length types)%nat.
Proof.
  intros Hurl Hans Htry Hskip.
  induction types as [|type rest IH]; intros allRecords st.
  - exists st. split; [reflexivity|]. simpl. lia.
  - destruct (search_records_failure client
                (mkDnsSearchParams domainName type None None (Some 50) (Some 1))
                st url0 outcome c Hurl (Hans (world st)) Htry)
      as (st1 & Hsearch & Hlen).
    assert (Hpages : search_pages (S fuel) client domainName type 1 allRecords st
                     = Some (st1, allRecords, Throw (request_catch client c))).
    { cbn [search_pages]. rewrite Hsearch. reflexivity. }
    rewrite (search_types_head _ _ _ _ _ _ _ _ _ Hpages), Hskip.
    destruct (IH allRecords st1) as (st' & Hrun & Hlen').
    exists st'. split; [exact Hrun|]. rewrite Hlen', Hlen. simpl. lia.
Qed.

(** X11: [searchAllRecords] takes any failure for an empty record type
    when the message of its error contains [No records found],
    [No Entity found] or [not found]: a rejected [fetch], a status that is
    not 2xx or an unreadable body included.  When every request fails in
    this way, it makes its eight requests and resolves to a result without
    records and with total 0; the failure is not reported. *)
Theorem matching_failure_taken_for_empty_zone client (domainName : string) st
    (url0 : URL) (outcome : FetchOutcome) (c : Caught) :
  new_URL "dns/manage/search-records.json" (baseUrl client) = Some url0 ->
  (forall w req, snd (fetch w req) = outcome) ->
  request_try outcome = inl c ->
  is_no_records_error (request_catch client c) = true ->
  forall fuel, exists st8,
    searchAllRecords (S fuel) client domainName st
    = Some (st8, Ok (mkAllRecords [] 0))
    /\ length (fetchLog st8) = (length (fetchLog st) + 8)%nat.
Proof.
  intros Hurl Hans Htry Hskip fuel.
  destruct (skip_all_types fuel client domainName url0 outcome c
              Hurl Hans Htry Hskip allTypes [] st) as (st8 & Hrun & Hlen).
  exists st8. split; [|exact Hlen].
  unfold searchAllRecords. rewrite Hrun. reflexivity.
Qed.

Lemma api_error_caught (status : Z) (text : string) (props : list (string * json))
    (m : string) :
  response_ok status = true ->
  error_body (JObj props) = true ->
  message_text props = Some m ->
  exists e,
    request_try (Response status text (Parsed (JObj props))) = inl (CaughtError e)
    /\ message e = m /\ instanceof_LogicBoxesError e = true.
Proof.
  intros Hok Hbody Hm. simpl. rewrite Hok. simpl.
  unfold error_body in Hbody. simpl in Hbody. rewrite Hbody.
  destruct (create_error_message _ _ Hm) as (e & -> & Hmsg & Hinst).
  exists e. repeat split; assumption.
Qed.

End Answers.

(* ===================================================================== *)
(** * Further properties: the counts of a page *)
(* ===================================================================== *)

Section Counts.

Lemma digit_of_pretty_N_char (d : N) :
  (d < 10)%N -> digit_of (pretty_N_char d) = Some (Z.of_N d).
Proof.
  intros Hd.
  assert (H : (d = 0 \/ d = 1 \/ d = 2 \/ d = 3 \/ d = 4 \/ d = 5 \/ d = 6
               \/ d = 7 \/ d = 8 \/ d = 9)%N) by lia.
  destruct H as [->|[->|[->|[->|[->|[->|[->|[->|[->| ->]]]]]]]]]; reflexivity.
Qed.

(** Reading back the digits [pretty_N_go] writes in front of a string of
    [k] digits of value [v]. *)
Lemma digits_pretty_N_go (x : N) :
  forall (s : string) (k v : Z),
    (0 < x)%N -> 0 <= k ->
    (forall a, digits (Some a) s = Some (a * 10 ^ k + v)) ->
    exists k', 0 <= k'
      /\ forall acc, digits acc (pretty_N_go x s)
                     = Some (default 0 acc * 10 ^ k' + (Z.of_N x * 10 ^ k + v)).
Proof.
  induction (N.lt_wf_0 x) as [x _ IH]. intros s k v Hx Hk Hs.
  rewrite pretty_N_go_step by exact Hx.
  assert (Hd : (x mod 10 < 10)%N) by (apply N.mod_lt; lia).
  assert (Hstep : forall acc,
            digits acc (String (pretty_N_char (x mod 10)%N) s)
            = Some (default 0 acc * 10 ^ (k + 1)
                    + (Z.of_N (x mod 10)%N * 10 ^ k + v))).
  { intros acc. cbn [digits]. rewrite (digit_of_pretty_N_char _ Hd), Hs.
    f_equal. rewrite Z.pow_add_r by lia. lia. }
  assert (Hx10 : Z.of_N x = 10 * Z.of_N (x / 10)%N + Z.of_N (x mod 10)%N).
  { rewrite (N.div_mod x 10) at 1 by lia. lia. }
  destruct (N.eq_dec (x / 10)%N 0%N) as [Hz|Hnz].
  - rewrite Hz, pretty_N_go_0. exists (k + 1). split; [lia|].
    intros acc. rewrite Hstep. f_equal. rewrite Hx10, Hz. lia.
  - destruct (IH (x / 10)%N) with (s := String (pretty_N_char (x mod 10)%N) s)
        (k := k + 1) (v := Z.of_N (x mod 10)%N * 10 ^ k + v) as (k' & Hk' & Hgo).
    + apply N.div_lt; lia.
    + lia.
    + lia.
    + intros a. exact (Hstep (Some a)).
    + exists k'. split; [exact Hk'|]. intros acc. rewrite Hgo. f_equal.
      rewrite Hx10, Z.pow_add_r by lia. lia.
Qed.

(** The decimal form of a positive number starts with a digit. *)
Lemma pretty_N_go_head (x : N) :
  forall s, (0 < x)%N ->
    exists d rest, (d < 10)%N /\ pretty_N_go x s = String (pretty_N_char d) rest.
Proof.
  induction (N.lt_wf_0 x) as [x _ IH]. intros s Hx.
  rewrite pretty_N_go_step by exact Hx.
  destruct (N.eq_dec (x / 10)%N 0%N) as [Hz|Hnz].
  - rewrite Hz, pretty_N_go_0. exists (x mod 10)%N, s.
    split; [apply N.mod_lt; lia|reflexivity].
  - apply IH; [apply N.div_lt; lia|apply N.neq_0_lt_0; exact Hnz].
Qed.

Lemma parseInt_digit_head (c : ascii) (rest : string) (d : Z) :
  digit_of c = Some d ->
  parseInt (String c rest)
  = match digits None (String c rest) with
    | None => NaN
    | Some z => Int z
    end.
Proof.
  intros H.
  destruct c as [[] [] [] [] [] [] [] []];
    try (vm_compute in H; discriminate H); reflexivity.
Qed.

Lemma parseInt_minus (s : string) :
  parseInt ("-" +:+ s)
  = match digits None s with
    | None => NaN
    | Some z => Int (- z)
    end.
Proof. reflexivity. Qed.

Lemma parseInt_positive (p : positive) :
  parseInt (pretty (Npos p)) = Int (Zpos p)
  /\ parseInt ("-" +:+ pretty (Npos p)) = Int (Zneg p).
Proof.
  assert (Hp : (0 < Npos p)%N) by lia.
  destruct (digits_pretty_N_go (Npos p) "" 0 0 Hp (Z.le_refl 0)) as (k' & _ & Hgo).
  { intros a. simpl. f_equal. lia. }
  specialize (Hgo None). cbn [default] in Hgo.
  replace (0 * 10 ^ k' + (Z.of_N (Npos p) * 10 ^ 0 + 0)) with (Z.pos p) in Hgo by lia.
  destruct (pretty_N_go_head (Npos p) "" Hp) as (d & rest & Hd & Hhead).
  unfold pretty, pretty_N.
  destruct (decide (Npos p = 0%N)) as [Hz|_]; [discriminate|].
  split.
  - rewrite Hhead, (parseInt_digit_head _ _ _ (digit_of_pretty_N_char d Hd)).
    rewrite <- Hhead, Hgo. reflexivity.
  - rewrite parseInt_minus, Hgo. reflexivity.
Qed.

(** [parseInt] reads back the decimal form of an integer. *)
Lemma parseInt_pretty (n : Z) : parseInt (pretty n) = Int n.
Proof.
  destruct n as [|p|p].
  - reflexivity.
  - exact (proj1 (parseInt_positive p)).
  - exact (proj2 (parseInt_positive p)).
Qed.

Lemma count_field_announced (props : list (string * json)) (name : string) (n : Z) :
  announces props name n -> count_field (JObj props) name = Ok (Int n).
Proof.
  unfold announces, count_field. simpl.
  destruct (lookup_prop name props) as [[| |z|s| |]|]; simpl; intros H;
    try contradiction; subst; try reflexivity; rewrite parseInt_pretty; reflexivity.
Qed.

(** X15: the counts of a page are the numbers the response announces,
    as long as these are safe integers (below [2^53] in absolute value).
    Such a count, given as a JSON number or as its decimal string
    (negative ones included), is read back exactly, and a missing or [null]
    count is zero: the DNS and the domain parser then return the entries
    with these two counts, and so does the customer parser whenever it
    returns. *)
Theorem page_counts_read_back (props : list (string * json)) (n k : Z) :
  safe_integer n ->
  safe_integer k ->
  announces props "recsindb" n ->
  announces props "recsonpage" k ->
  DnsApi.parseSearchResponse (JObj props)
  = Ok (mkPage (List.filter (fun v => is_object v && has_prop "host" v) (map snd props))
          (Int n) (Int k))
  /\ DomainApi.parseSearchResponse (JObj props)
     = Ok (mkPage (map DomainApi.to_domain (object_entries (JObj props))) (Int n) (Int k))
  /\ (forall page, CustomerApi.parseSearchResponse (JObj props) = Ok page ->
        total page = Int n /\ pageSize page = Int k).
Proof.
  intros _ _ Hn Hk.
  pose proof (count_field_announced _ _ _ Hn) as Htotal.
  pose proof (count_field_announced _ _ _ Hk) as Hsize.
  split; [|split].
  - unfold DnsApi.parseSearchResponse. rewrite Htotal, Hsize. simpl.
    rewrite push_record_loop. reflexivity.
  - unfold DomainApi.parseSearchResponse. rewrite Htotal, Hsize. simpl.
    rewrite push_domain_loop. reflexivity.
  - intros page. unfold CustomerApi.parseSearchResponse. rewrite Htotal, Hsize. simpl.
    destruct (CustomerApi.push_customers props []); simpl; [|discriminate].
    intros H. injection H as <-. split; reflexivity.
Qed.

End Counts.

(* ===================================================================== *)
(** * Further properties: the prototype of a domain *)
(* ===================================================================== *)

Section DomainPrototype.

Import DomainApi.

Lemma assign_proto (domain : Domain) (key : string) (value : json) :
  key <> "__proto__" -> proto (assign domain key value) = proto domain.
Proof.
  intros Hkey. unfold assign.
  destruct (String.eqb key "__proto__") eqn:E; [|reflexivity].
  apply String.eqb_eq in E. contradiction.
Qed.

Lemma strip_loop_proto (kvs : list (string * json)) (domain : Domain) :
  Forall (fun kv => cleanKey (fst kv) <> "__proto__") kvs ->
  proto (fold_left strip_entry kvs domain) = proto domain.
Proof.
  revert domain. induction kvs as [|kv kvs IH]; intros domain Hall; [reflexivity|].
  apply Forall_cons in Hall as [Hkv Hall]. simpl. rewrite (IH _ Hall).
  apply assign_proto. exact Hkv.
Qed.

Lemma strip_loop_no_proto (kvs : list (string * json)) (domain : Domain) :
  Forall (fun kv => cleanKey (fst kv) <> "__proto__") kvs ->
  own domain !! "__proto__" = None ->
  own (fold_left strip_entry kvs domain) !! "__proto__" = None.
Proof.
  revert domain. induction kvs as [|kv kvs IH]; intros domain Hall Hd; [exact Hd|].
  apply Forall_cons in Hall as [Hkv Hall]. simpl. apply (IH _ Hall).
  unfold strip_entry, assign.
  destruct (String.eqb (cleanKey (fst kv)) "__proto__") eqn:E.
  - apply String.eqb_eq in E. contradiction.
  - simpl. rewrite lookup_insert_ne; [exact Hd|exact Hkv].
Qed.

(** X16: unless a key of the entry is [__proto__] once its prefix is
    stripped, the domain built from the entry keeps the prototype of an
    object literal and has no own property of that name, and reading a
    property under a name that [Object.prototype] does not define gives
    the property the parser stored and nothing else.  (An entry with such a
    key replaces the prototype of its domain object.) *)
Theorem domain_prototype_untouched (record : json) :
  Forall (fun kv => cleanKey (fst kv) <> "__proto__") (own_entries record) ->
  proto (to_domain record) = ObjectPrototype
  /\ own (to_domain record) !! "__proto__" = None
  /\ forall name, name ∉ DnsTools.Object_prototype_names ->
        read (to_domain record) name = own (to_domain record) !! name.
Proof.
  intros Hall.
  assert (Hstripped : proto (stripped record) = ObjectPrototype).
  { unfold stripped. rewrite (strip_loop_proto _ _ Hall). reflexivity. }
  assert (Hown : own (stripped record) !! "__proto__" = None).
  { unfold stripped. apply strip_loop_no_proto; [exact Hall|apply lookup_empty]. }
  assert (Hproto : proto (to_domain record) = ObjectPrototype).
  { unfold to_domain.
    destruct (truthy (read (stripped record) "description")
              && negb (truthy (read (stripped record) "domainname")));
      [|exact Hstripped].
    destruct (read (stripped record) "description"); [|exact Hstripped].
    rewrite assign_proto by discriminate. exact Hstripped. }
  split; [exact Hproto|]. split.
  - unfold to_domain.
    destruct (truthy (read (stripped record) "description")
              && negb (truthy (read (stripped record) "domainname")));
      [|exact Hown].
    destruct (read (stripped record) "description"); [|exact Hown].
    unfold assign. simpl. rewrite lookup_insert_ne by discriminate. exact Hown.
  - intros name _. unfold read. rewrite Hproto.
    destruct (own (to_domain record) !! name); reflexivity.
Qed.

End DomainPrototype.

(* ===================================================================== *)
(** * Further properties: the table of records *)
(* ===================================================================== *)

Section Table.

Import DnsTools.












End Table.

(* ===================================================================== *)
(** * Further properties: the sections of [list_all_dns_records] *)
(* ===================================================================== *)

Section Grouping.

Import DnsTools.

Lemma group_of_push (k rtype : string) (record : json) (grouped : Grouped) :
  group_of k (push_grouped rtype record grouped)
  = if String.eqb rtype k
    then Some (default [] (group_of rtype grouped) ++ [record])
    else group_of k grouped.
Proof.
  induction grouped as [|[key records] rest IH]; simpl.
  - reflexivity.
  - destruct (String.eqb key rtype) eqn:Hkey; simpl.
    + apply String.eqb_eq in Hkey. subst key.
      destruct (String.eqb rtype k); reflexivity.
    + rewrite IH. destruct (String.eqb key k) eqn:Hk; [|reflexivity].
      apply String.eqb_eq in Hk. subst key. rewrite String.eqb_sym, Hkey. reflexivity.
Qed.

Lemma push_grouped_keys (k rtype : string) (record : json) (grouped : Grouped) :
  k ∈ map fst (push_grouped rtype record grouped) ->
  k = rtype \/ k ∈ map fst grouped.
Proof.
  induction grouped as [|[key records] rest IH]; simpl.
  - intros H. apply elem_of_cons in H as [->|H]; [left; reflexivity|inversion H].
  - destruct (String.eqb key rtype); simpl; intros H.
    + right. exact H.
    + apply elem_of_cons in H as [->|H].
      * right. apply elem_of_cons. left. reflexivity.
      * destruct (IH H) as [->|Hin]; [left; reflexivity|].
        right. apply elem_of_cons. right. exact Hin.
Qed.

Lemma push_grouped_NoDup (rtype : string) (record : json) (grouped : Grouped) :
  NoDup (map fst grouped) -> NoDup (map fst (push_grouped rtype record grouped)).
Proof.
  induction grouped as [|[key records] rest IH]; simpl; intros Hnd.
  - apply NoDup_cons. split; [intros H; inversion H|constructor].
  - apply NoDup_cons in Hnd as [Hkey Hnd].
    destruct (String.eqb key rtype) eqn:E; simpl.
    + apply NoDup_cons. split; assumption.
    + apply NoDup_cons. split; [|apply IH; exact Hnd].
      intros Hin. apply push_grouped_keys in Hin as [->|Hin].
      * rewrite String.eqb_refl in E. discriminate.
      * contradiction.
Qed.

Lemma group_of_elem (k : string) (records : list json) (grouped : Grouped) :
  NoDup (map fst grouped) ->
  (k, records) ∈ grouped <-> group_of k grouped = Some records.
Proof.
  induction grouped as [|[key rs] rest IH]; simpl; intros Hnd.
  - split; [intros H; inversion H|discriminate].
  - apply NoDup_cons in Hnd as [Hkey Hnd]. rewrite elem_of_cons.
    destruct (String.eqb key k) eqn:E.
    + apply String.eqb_eq in E. subst key. split.
      * intros [H|H]; [congruence|].
        exfalso. apply Hkey. apply list_elem_of_fmap. exists (k, records).
        split; [reflexivity|exact H].
      * intros H. left. congruence.
    + split.
      * intros [H|H]; [|apply IH; assumption].
        injection H as -> ->. rewrite String.eqb_refl in E. discriminate.
      * intros H. right. apply IH; assumption.
Qed.

Lemma filter_snoc {T} (f : T -> bool) (l : list T) (x : T) :
  List.filter f (l ++ [x]) = List.filter f l ++ (if f x then [x] else []).
Proof. rewrite List.filter_app. reflexivity. Qed.

(** The loop keeps, under each name, the records of that type visited so
    far. *)
Lemma group_records_invariant (records : list json) :
  forall (grouped grouped' : Grouped) (visited : list json),
    NoDup (map fst grouped) ->
    (forall k, group_of k grouped
               = match List.filter (has_type k) visited with
                 | [] => None
                 | rs => Some rs
                 end) ->
    group_records records grouped = Ok grouped' ->
    NoDup (map fst grouped')
    /\ forall k, group_of k grouped'
                 = match List.filter (has_type k) (visited ++ records) with
                   | [] => None
                   | rs => Some rs
                   end.
Proof.
  induction records as [|record rest IH]; intros grouped grouped' visited Hnd Hinv; simpl.
  - intros H. injection H as <-. rewrite app_nil_r. split; assumption.
  - destruct (rtype_of record) as [rtype|e] eqn:Hrtype; simpl; [|discriminate].
    destruct (inherited rtype); [discriminate|].
    intros Hrest.
    replace (visited ++ record :: rest) with ((visited ++ [record]) ++ rest)
      by (rewrite <- app_assoc; reflexivity).
    apply (IH _ _ _ (push_grouped_NoDup rtype record _ Hnd)); [|exact Hrest].
    intros k. rewrite group_of_push, filter_snoc.
    unfold has_type at 2. rewrite Hrtype.
    destruct (String.eqb rtype k) eqn:E.
    + apply String.eqb_eq in E. subst k. rewrite Hinv.
      destruct (List.filter (has_type rtype) visited); reflexivity.
    + rewrite app_nil_r. apply Hinv.
Qed.

Lemma insert_index_perm (n : Z) (entry : string * list json)
    (sorted : list (Z * (string * list json))) :
  map snd (insert_index n entry sorted) ≡ₚ entry :: map snd sorted.
Proof.
  induction sorted as [|[m e] rest IH]; simpl; [reflexivity|].
  destruct (n <? m); simpl; [reflexivity|].
  rewrite IH. apply Permutation_swap.
Qed.

Lemma Object_entries_perm (grouped : Grouped) : Object_entries grouped ≡ₚ grouped.
Proof.
  unfold Object_entries.
  induction grouped as [|entry rest IH]; simpl; [reflexivity|].
  destruct (array_index (fst entry)); simpl.
  - rewrite insert_index_perm. simpl. rewrite IH. reflexivity.
  - rewrite <- Permutation_middle, IH. reflexivity.
Qed.

(** X18: when the grouping of [list_all_dns_records] succeeds, its
    sections have distinct names, none is empty, and the section named
    [rtype] holds exactly the records whose type prints as [rtype]
    ([UNKNOWN] for a record without type), in the order of the result: each
    record is listed once, in the section of its type. *)
Theorem records_grouped_by_type (records : list json) (grouped : Grouped) :
  group_records records [] = Ok grouped ->
  NoDup (map fst (Object_entries grouped))
  /\ (forall rtype rs,
        (rtype, rs) ∈ Object_entries grouped
        <-> rs <> [] /\ rs = List.filter (has_type rtype) records)
  /\ (forall record, record ∈ records ->
        exists rtype, rtype_of record = Ok rtype
          /\ (rtype, List.filter (has_type rtype) records) ∈ Object_entries grouped).
Proof.
  intros Hrun.
  destruct (group_records_invariant records [] grouped [] (NoDup_nil_2 (A := string))) as [Hnd Hinv];
    [reflexivity|exact Hrun|].
  simpl in Hinv.
  assert (Hsections : forall rtype rs,
            (rtype, rs) ∈ Object_entries grouped
            <-> rs <> [] /\ rs = List.filter (has_type rtype) records).
  { intros rtype rs. rewrite (Object_entries_perm grouped).
    rewrite (group_of_elem _ _ _ Hnd), Hinv.
    destruct (List.filter (has_type rtype) records) as [|r rs'].
    - split; [discriminate|]. intros [Hne ->]. contradiction.
    - split.
      + intros H. injection H as <-. split; [discriminate|reflexivity].
      + intros [_ ->]. reflexivity. }
  split; [|split; [exact Hsections|]].
  - rewrite (Object_entries_perm grouped). exact Hnd.
  - assert (Hall : forall rs g g', group_records rs g = Ok g' ->
              forall record, record ∈ rs -> exists rtype, rtype_of record = Ok rtype).
    { induction rs as [|r rs IH]; intros g g' Hg record Hin; [inversion Hin|].
      simpl in Hg. destruct (rtype_of r) as [rtype|e] eqn:Hr; simpl in Hg; [|discriminate].
      destruct (inherited rtype); [discriminate|].
      apply elem_of_cons in Hin as [->|Hin]; [eauto|]. exact (IH _ _ Hg _ Hin). }
    intros record Hin. destruct (Hall _ _ _ Hrun _ Hin) as [rtype Hrtype].
    exists rtype. split; [exact Hrtype|]. apply Hsections. split; [|reflexivity].
    intros Hempty.
    assert (Hmem : record ∈ List.filter (has_type rtype) records).
    { apply list_elem_of_In, List.filter_In. split; [apply list_elem_of_In; exact Hin|].
      unfold has_type. rewrite Hrtype. apply String.eqb_refl. }
    rewrite Hempty in Hmem. inversion Hmem.
Qed.

(** X19: the grouping fails on a record whose type is the name of a
    member of [Object.prototype] ([constructor], [toString], [__proto__]):
    the property read finds the inherited member, no array is created, and
    the call of [push] throws a [TypeError]. *)
Theorem inherited_type_breaks_grouping (before after : list json) (record : json)
    (rtype : string) (grouped grouped' : Grouped) :
  group_records before grouped = Ok grouped' ->
  rtype_of record = Ok rtype ->
  rtype ∈ Object_prototype_names ->
  group_records (before ++ record :: after) grouped
  = Throw (typeError "grouped[rtype].push is not a function").
Proof.
  intros Hbefore Hrtype Hin.
  assert (Hinh : inherited rtype = true).
  { unfold inherited. apply existsb_exists. exists rtype.
    split; [apply list_elem_of_In; exact Hin|apply String.eqb_refl]. }
  revert grouped Hbefore. induction before as [|r before IH]; intros grouped; simpl.
  - intros _. rewrite Hrtype. simpl. rewrite Hinh. reflexivity.
  - destruct (rtype_of r) as [t|e]; simpl; [|discriminate].
    destruct (inherited t); [discriminate|]. apply IH.
Qed.

End Grouping.

(* ===================================================================== *)
(** * Further properties: the tools, end to end *)
(* ===================================================================== *)

Section Tools.
Context {P : Platform}.
Implicit Types (client : LogicBoxesClient) (st : ClientState P).

Import DnsApi DnsTools.

(** X20: a zone without records is an error for one tool and an empty
    listing for the other.  When the remote side answers every search with
    an error body whose message contains [No records found],
    [No Entity found] or [not found], [list_dns_records] makes one request
    and returns an error result with that message, while
    [list_all_dns_records] makes one request for each of the eight record
    types and returns a result that is no error: a total of 0 and the text
    [No records found.] *)
Theorem empty_zone_listing client (domainName : string) st (url0 : URL)
    (status : Z) (text : string) (props : list (string * json)) (m : string) :
  new_URL "dns/manage/search-records.json" (baseUrl client) = Some url0 ->
  (forall w req, snd (fetch w req) = Response status text (Parsed (JObj props))) ->
  response_ok status = true ->
  error_body (JObj props) = true ->
  message_text props = Some m ->
  includes m "No records found" || includes m "No Entity found"
  || includes m "not found" = true ->
  (forall type host value pageNo, exists st1,
     list_dns_records client domainName type host value pageNo st
     = (st1, mkToolResult ("Error: " +:+ m) true)
     /\ length (fetchLog st1) = S (length (fetchLog st)))
  /\ (forall fuel, exists st8,
        list_all_dns_records (S fuel) client domainName st
        = Some (st8, mkToolResult
                       ("Total: 0 record(s) for " +:+ domainName +:+ nl +:+ nl
                        +:+ "No records found.") false)
        /\ length (fetchLog st8) = (length (fetchLog st) + 8)%nat).
Proof.
  intros Hurl Hans Hok Hbody Hm Hskip. split.
  - intros type host value pageNo.
    destruct (search_records_api_error client
                (mkDnsSearchParams domainName type host value None pageNo)
                st url0 status text props m Hurl (Hans (world st)) Hok Hbody Hm)
      as (st1 & e & Hsearch & Hmsg & Hlen).
    exists st1. split; [|exact Hlen].
    unfold list_dns_records, handle. rewrite Hsearch. unfold failure.
    rewrite Hmsg. reflexivity.
  - intros fuel.
    destruct (api_error_caught status text props m Hok Hbody Hm)
      as (e & Htry & Hmsg & Hinst).
    assert (Hcaught : is_no_records_error (request_catch client (CaughtError e)) = true).
    { simpl. rewrite Hinst. unfold is_no_records_error. rewrite Hmsg. exact Hskip. }
    destruct (skip_all_types fuel client domainName url0 _ _
                Hurl Hans Htry Hcaught allTypes [] st) as (st8 & Hrun & Hlen).
    exists st8. split; [|exact Hlen].
    unfold list_all_dns_records, searchAllRecords. rewrite Hrun. reflexivity.
Qed.

(** X21: [add_dns_record] reports fields that were not sent.  For a
    record type other than [MX], [SRV] and [SOA], an admissible ttl and a
    remote side that accepts the request, the tool sends one [POST] whose
    query carries the ttl but no priority, port or weight (the URL of the
    endpoint having no query of its own), and its success text lists the
    priority, port and weight the caller gave all the same. *)
Theorem add_tool_reports_unsent_fields client (type : DnsRecordType)
    (args : AddDnsRecordParams) st (url0 : URL) (status : Z) (text : string)
    (data : json) :
  is_SOA type = false ->
  is_MX_or_SRV type = false ->
  MIN_TTL <= add_ttl args ->
  new_URL ("dns/manage/add-" +:+ DNS_RECORD_TYPE_MAP type +:+ "-record.json")
    (baseUrl client) = Some url0 ->
  searchParams url0 = [] ->
  (forall req, snd (fetch (world st) req) = Response status text (Parsed data)) ->
  response_ok status = true ->
  error_body data = false ->
  exists st1 req,
    add_dns_record client type args st
    = (st1, mkToolResult
              ("Successfully added " +:+ type_name type +:+ " record for "
               +:+ add_domainName args +:+ ":" +:+ nl
               +:+ "  Host:  " +:+ add_host args +:+ nl
               +:+ "  Value: " +:+ add_value args +:+ nl
               +:+ "  TTL:   " +:+ pretty (add_ttl args)
               +:+ optional_line "  Priority: " (add_priority args)
               +:+ optional_line "  Port: " (add_port args)
               +:+ optional_line "  Weight: " (add_weight args)) false)
    /\ fetchLog st1 = fetchLog st ++ [req]
    /\ req_method req = POST
    /\ sp_get "ttl" (searchParams (req_url req)) = Some (pretty (add_ttl args))
    /\ sp_get "priority" (searchParams (req_url req)) = None
    /\ sp_get "port" (searchParams (req_url req)) = None
    /\ sp_get "weight" (searchParams (req_url req)) = None.
Proof.
  intros Hsoa Hmx Httl Hurl Hsp Hans Hok Hbody.
  set (ps := defined [ ("domain-name", PStr (add_domainName args));
                       ("host", PStr (add_host args));
                       ("value", PStr (add_value args));
                       ("ttl", PNum (add_ttl args)) ]).
  set (path := "dns/manage/add-" +:+ DNS_RECORD_TYPE_MAP type +:+ "-record.json") in *.
  assert (Hadd : addRecord client type args st = post client path (Some ps) st).
  { unfold addRecord. rewrite Hsoa. unfold bind at 1, lift.
    rewrite (validateTtl_ok _ Httl). destruct type; try discriminate; reflexivity. }
  destruct (buildUrl_some _ _ (Some ps) _ Hurl) as [url Hbuild].
  pose proof (invoke_outcome client POST path (Some ps) st url Hbuild) as Hpost.
  simpl in Hpost. rewrite Hans, (request_try_success _ _ _ Hok Hbody) in Hpost.
  assert (Hquery : forall key,
            sp_get key (searchParams url)
            = match supplied key ps with
              | Some v => Some (String_of v)
              | None =>
                  if String.eqb key "api-key" then Some (apiKey client)
                  else if String.eqb key "auth-userid" then Some (authUserId client)
                  else None
              end).
  { intros key. destruct (buildUrl_query client path ps url key Hbuild)
      as (url0' & Hurl' & _ & ->).
    rewrite Hurl in Hurl'. injection Hurl' as <-. rewrite Hsp. reflexivity. }
  eexists _, (mkRequest url POST [] None). split.
  - unfold add_dns_record, handle. rewrite Hadd, Hpost. reflexivity.
  - split; [reflexivity|]. split; [reflexivity|]. simpl.
    rewrite !Hquery. repeat split; reflexivity.
Qed.

End Tools.

(* ===================================================================== *)
(** * The further properties on the example platform *)
(* ===================================================================== *)

Lemma query_names_set_once_witness :
  @buildUrl (Demo.server Demo.accepting) Demo.client "dns/activate.json"
     (Some [("order-id", Some (PStr "9")); ("api-key", Some (PStr "other"));
            ("order-id", Some (PStr "10"))])
  = Ok (mkURL "https://httpapi.com/api/dns/activate.json"
          [("auth-userid", "12345"); ("api-key", "other"); ("order-id", "10")])
  /\ occurrences "auth-userid"
       [("auth-userid", "12345"); ("api-key", "other"); ("order-id", "10")] = 1%nat
  /\ occurrences "api-key"
       [("auth-userid", "12345"); ("api-key", "other"); ("order-id", "10")] = 1%nat
  /\ occurrences "order-id"
       [("auth-userid", "12345"); ("api-key", "other"); ("order-id", "10")] = 1%nat.
Proof.
  pose proof (@query_names_set_once (Demo.server Demo.accepting) Demo.client
                "dns/activate.json"
                (Some [("order-id", Some (PStr "9")); ("api-key", Some (PStr "other"));
                       ("order-id", Some (PStr "10"))])
                (mkURL "https://httpapi.com/api/dns/activate.json"
                   [("auth-userid", "12345"); ("api-key", "other"); ("order-id", "10")])
                (mkURL "https://httpapi.com/api/dns/activate.json" [])
                eq_refl eq_refl) as (Huser & Hkey & Hsup & _).
  split; [reflexivity|]. split; [exact Huser|]. split; [exact Hkey|].
  exact (Hsup "order-id" (PStr "10") eq_refl).
Defined.

Lemma http_status_error_witness :
  snd (@invoke (Demo.server (Demo.failing 503 "Service Unavailable")) POST Demo.client
         "dns/activate.json" None (Demo.start (Demo.failing 503 "Service Unavailable")))
  = Throw (mkError LogicBoxesError "HTTP 503: Service Unavailable" (Some 503) None None).
Proof.
  exact (@http_status_error (Demo.server (Demo.failing 503 "Service Unavailable"))
           Demo.client POST "dns/activate.json" None
           (Demo.start (Demo.failing 503 "Service Unavailable"))
           (mkURL "https://httpapi.com/api/dns/activate.json"
              [("auth-userid", "12345"); ("api-key", "secret")])
           503 "Service Unavailable"
           (Unparsed (ErrorInstance "Unexpected end of JSON input"))
           eq_refl eq_refl eq_refl).
Defined.

Lemma transport_error_message_witness :
  snd (@invoke (Demo.server (Demo.rejecting AbortError)) GET Demo.client
         "domains/orderid.json" None (Demo.start (Demo.rejecting AbortError)))
  = Throw (mkError LogicBoxesError "Request timed out after 30000ms" None None None).
Proof.
  exact (proj1 (@transport_error_message (Demo.server (Demo.rejecting AbortError))
                  Demo.client GET "domains/orderid.json" None
                  (Demo.start (Demo.rejecting AbortError))
                  (mkURL "https://httpapi.com/api/domains/orderid.json"
                     [("auth-userid", "12345"); ("api-key", "secret")])
                  AbortError eq_refl (or_introl eq_refl))).
Defined.

Lemma api_error_thrown_witness :
  exists e,
    snd (@invoke (Demo.server (Demo.serving Demo.no_entity_found)) GET Demo.client
           "domains/orderid.json" None
           (Demo.start (Demo.serving Demo.no_entity_found)))
    = Throw e
    /\ message e = "No Entity found"
    /\ apiStatus e = Some (JStr "ERROR")
    /\ statusCode e = None.
Proof.
  destruct (@api_error_thrown (Demo.server (Demo.serving Demo.no_entity_found))
              Demo.client GET "domains/orderid.json" None
              (Demo.start (Demo.serving Demo.no_entity_found))
              (mkURL "https://httpapi.com/api/domains/orderid.json"
                 [("auth-userid", "12345"); ("api-key", "secret")])
              200 "OK"
              [("status", JStr "ERROR"); ("message", JStr "No Entity found")]
              "No Entity found" eq_refl eq_refl eq_refl eq_refl eq_refl)
    as (e & _ & Hthrow & Hmsg & _ & Hstatus & Hcode & _).
  exists e. split; [exact Hthrow|]. split; [exact Hmsg|].
  split; [exact Hstatus|exact Hcode].
Defined.

Lemma untyped_message_reported_as_network_error_witness :
  snd (@invoke (Demo.server
                  (Demo.serving (JObj [("status", JStr "ERROR"); ("message", JNum 42)])))
         GET Demo.client "domains/orderid.json" None
         (Demo.start (Demo.serving (JObj [("status", JStr "ERROR"); ("message", JNum 42)]))))
  = Throw (mkError LogicBoxesError
             "Network error: message.toLowerCase is not a function" None None None).
Proof.
  refine (@untyped_message_reported_as_network_error
            (Demo.server
               (Demo.serving (JObj [("status", JStr "ERROR"); ("message", JNum 42)])))
            Demo.client GET "domains/orderid.json" None
            (Demo.start (Demo.serving (JObj [("status", JStr "ERROR"); ("message", JNum 42)])))
            (mkURL "https://httpapi.com/api/domains/orderid.json"
               [("auth-userid", "12345"); ("api-key", "secret")])
            200 "OK" [("status", JStr "ERROR"); ("message", JNum 42)] (JNum 42)
            eq_refl eq_refl eq_refl eq_refl eq_refl _ _).
  - discriminate.
  - intros s. discriminate.
Defined.

Lemma add_record_required_fields_witness :
  @DnsApi.addRecord (Demo.server Demo.accepting) Demo.client SRV
    (mkAddParams "example.com" "_sip._tcp" "sip.example.com" 7200 (Some 10) None None)
    (Demo.start Demo.accepting)
  = (Demo.start Demo.accepting,
     Throw (mkError ValidationError "Port is required for SRV records" None None None)).
Proof.
  refine (proj1 (proj2 (@add_record_required_fields (Demo.server Demo.accepting)
                          Demo.client
                          (mkAddParams "example.com" "_sip._tcp" "sip.example.com" 7200
                             (Some 10) None None)
                          (Demo.start Demo.accepting) _)) 10 eq_refl eq_refl).
  unfold MIN_TTL. simpl. lia.
Defined.

Lemma add_record_request_witness :
  exists ps,
    @DnsApi.addRecord (Demo.server Demo.accepting) Demo.client A
      (mkAddParams "example.com" "www" "192.0.2.1" 14400 (Some 10) None None)
      (Demo.start Demo.accepting)
    = @post (Demo.server Demo.accepting) Demo.client "dns/manage/add-ipv4-record.json"
        (Some ps) (Demo.start Demo.accepting)
    /\ supplied "ttl" ps = Some (PNum 14400)
    /\ supplied "priority" ps = None.
Proof.
  destruct (@add_record_request (Demo.server Demo.accepting) Demo.client A
              (mkAddParams "example.com" "www" "192.0.2.1" 14400 (Some 10) None None)
              (Demo.start Demo.accepting) eq_refl)
    as (ps & Hrun & _ & _ & _ & Httl & Hprio & _).
  - unfold MIN_TTL. simpl. lia.
  - discriminate.
  - discriminate.
  - exists ps. split; [exact Hrun|]. split; [exact Httl|exact Hprio].
Defined.

Lemma update_record_request_witness :
  exists ps,
    @DnsApi.updateRecord (Demo.server Demo.accepting) Demo.client MX
      (mkUpdateParams "example.com" "@" "mx1.example.com" "mx2.example.com" 7200
         None (Some 25) None)
      (Demo.start Demo.accepting)
    = @post (Demo.server Demo.accepting) Demo.client "dns/manage/update-mx-record.json"
        (Some ps) (Demo.start Demo.accepting)
    /\ supplied "new-value" ps = Some (PStr "mx2.example.com")
    /\ supplied "priority" ps = None
    /\ supplied "port" ps = None.
Proof.
  destruct (@update_record_request (Demo.server Demo.accepting) Demo.client MX
              (mkUpdateParams "example.com" "@" "mx1.example.com" "mx2.example.com" 7200
                 None (Some 25) None)
              (Demo.start Demo.accepting) eq_refl)
    as (ps & Hrun & _ & _ & _ & Hnew & _ & Hprio & Hport & _).
  - unfold MIN_TTL. simpl. lia.
  - exists ps. split; [exact Hrun|]. split; [exact Hnew|]. split; [exact Hprio|exact Hport].
Defined.

Lemma delete_record_request_witness :
  @DnsApi.deleteRecord (Demo.server Demo.accepting) Demo.client SRV
    (mkDeleteParams "example.com" "_sip._tcp" "sip.example.com" (Some 5060) None)
    (Demo.start Demo.accepting)
  = (Demo.start Demo.accepting,
     Throw (mkError ValidationError "Weight is required when deleting SRV records"
              None None None)).
Proof.
  refine (proj1 (proj2 (@delete_record_request (Demo.server Demo.accepting) Demo.client
                          SRV
                          (mkDeleteParams "example.com" "_sip._tcp" "sip.example.com"
                             (Some 5060) None)
                          (Demo.start Demo.accepting) eq_refl)) eq_refl _ eq_refl).
  exists 5060. reflexivity.
Defined.

Lemma search_all_records_only_reads_witness :
  exists st' new,
    @DnsApi.searchAllRecords (Demo.server Demo.short_zone) 2 Demo.client "example.com"
      (Demo.start Demo.short_zone)
    = Some (st', Ok (DnsApi.mkAllRecords [Demo.www_record] 1))
    /\ issued (Demo.start Demo.short_zone) st' new
    /\ Forall (search_request "example.com") new.
Proof.
  destruct (@DnsApi.searchAllRecords (Demo.server Demo.short_zone) 2 Demo.client
              "example.com" (Demo.start Demo.short_zone)) as [[st' r]|] eqn:Hrun;
    [|vm_compute in Hrun; discriminate].
  destruct (@search_all_records_only_reads (Demo.server Demo.short_zone) 2 Demo.client
              "example.com" (Demo.start Demo.short_zone) st' r Hrun)
    as [(new & Hnew & Hall) _].
  exists st', new. split; [|split; assumption].
  vm_compute in Hrun. injection Hrun as _ <-. reflexivity.
Defined.

Lemma matching_failure_taken_for_empty_zone_witness :
  exists st8,
    @DnsApi.searchAllRecords
      (Demo.server (Demo.rejecting (ErrorInstance "host not found"))) 1 Demo.client
      "example.com" (Demo.start (Demo.rejecting (ErrorInstance "host not found")))
    = Some (st8, Ok (DnsApi.mkAllRecords [] 0))
    /\ length (fetchLog st8) = 8%nat.
Proof.
  destruct (@matching_failure_taken_for_empty_zone
              (Demo.server (Demo.rejecting (ErrorInstance "host not found")))
              Demo.client "example.com"
              (Demo.start (Demo.rejecting (ErrorInstance "host not found")))
              (mkURL "https://httpapi.com/api/dns/manage/search-records.json" [])
              (Rejected (ErrorInstance "host not found"))
              (CaughtRejection (ErrorInstance "host not found"))
              eq_refl (fun w req => eq_refl) eq_refl eq_refl 0%nat)
    as (st8 & Hrun & Hlen).
  exists st8. split; [exact Hrun|exact Hlen].
Defined.

Lemma announcing_page (params : DnsSearchParams)
    (st0 : ClientState (Demo.server (Demo.serving (Demo.announcing 120)))) :
  exists st1 page,
    @DnsApi.searchRecords (Demo.server (Demo.serving (Demo.announcing 120)))
      Demo.client params st0 = (st1, Ok page)
    /\ total page = Int 120.
Proof.
  unfold DnsApi.searchRecords, bind. rewrite get_eq.
  match goal with
  | |- context [buildUrl Demo.client ?path ?q] =>
      destruct (@buildUrl_some (Demo.server (Demo.serving (Demo.announcing 120)))
                  Demo.client path q (mkURL ("https://httpapi.com/api/" +:+ path) [])
                  eq_refl) as [url ->]
  end.
  rewrite request_eq. cbn [fetch Demo.server fst snd]. unfold Demo.serving.
  eexists _, _. split; [vm_compute; reflexivity|reflexivity].
Qed.

Lemma search_pages_request_count_witness :
  exists st' records,
    @DnsApi.search_pages (Demo.server (Demo.serving (Demo.announcing 120))) 3
      Demo.client "example.com" A 1 [] (Demo.start (Demo.serving (Demo.announcing 120)))
    = Some (st', records, Ok tt)
    /\ length (fetchLog st') = 3%nat.
Proof.
  destruct (@search_pages_request_count
              (Demo.server (Demo.serving (Demo.announcing 120))) 120 Demo.client
              "example.com" A 3 []
              (Demo.start (Demo.serving (Demo.announcing 120))))
    as (st' & records & Hrun & Hlen).
  - intros pageNo st0. apply announcing_page.
  - vm_compute. discriminate.
  - exists st', records. split; [exact Hrun|exact Hlen].
Defined.

Lemma not_found_decided_by_message_witness :
  exists st1 e,
    @DnsApi.search_pages (Demo.server (Demo.serving Demo.no_entity_found)) 1
      Demo.client "example.com" MX 1 [] (Demo.start (Demo.serving Demo.no_entity_found))
    = Some (st1, [], Throw e)
    /\ message e = "No Entity found"
    /\ @DnsApi.search_types (Demo.server (Demo.serving Demo.no_entity_found)) 1
         Demo.client "example.com" [MX] [] (Demo.start (Demo.serving Demo.no_entity_found))
       = Some (st1, Ok []).
Proof.
  destruct (@not_found_decided_by_message
              (Demo.server (Demo.serving Demo.no_entity_found)) 0 Demo.client
              "example.com" MX [] [] (Demo.start (Demo.serving Demo.no_entity_found))
              (mkURL "https://httpapi.com/api/dns/manage/search-records.json" [])
              200 "OK" [("status", JStr "ERROR"); ("message", JStr "No Entity found")]
              "No Entity found" eq_refl (fun req => eq_refl) eq_refl eq_refl eq_refl)
    as (st1 & e & Hpages & Hmsg & _ & Htypes).
  exists st1, e. split; [exact Hpages|]. split; [exact Hmsg|exact Htypes].
Defined.

Lemma null_body_type_error_witness :
  exists st1,
    @DomainApi.search (Demo.server (Demo.serving JNull)) Demo.client None
      (Demo.start (Demo.serving JNull))
    = (st1, Throw (typeError "Cannot convert undefined or null to object"))
    /\ length (fetchLog st1) = 1%nat.
Proof.
  pose proof (@null_body_type_error (Demo.server (Demo.serving JNull)) Demo.client
                (Demo.start (Demo.serving JNull)) 200 "OK"
                (fun path => ex_intro _ (mkURL ("https://httpapi.com/api/" +:+ path) [])
                               eq_refl)
                (fun req => eq_refl) eq_refl) as H.
  cbv zeta in H. destruct H as (_ & _ & _ & Hdomains & _).
  exact (Hdomains None).
Defined.

Lemma page_counts_read_back_witness :
  DnsApi.parseSearchResponse
    (JObj [("1", Demo.www_record); ("recsonpage", JStr "1"); ("recsindb", JStr "-51")])
  = Ok (mkPage [Demo.www_record] (Int (-51)) (Int 1)).
Proof.
  refine (proj1 (page_counts_read_back
                   [("1", Demo.www_record); ("recsonpage", JStr "1");
                    ("recsindb", JStr "-51")] (-51) 1 _ _ eq_refl eq_refl));
    unfold safe_integer; lia.
Defined.

Lemma domain_prototype_untouched_witness :
  DomainApi.proto (DomainApi.to_domain Demo.domain_entry) = DomainApi.ObjectPrototype
  /\ DomainApi.read (DomainApi.to_domain Demo.domain_entry) "domainname"
     = Some (JStr "example.com").
Proof.
  destruct (domain_prototype_untouched Demo.domain_entry) as (Hproto & _ & Hread).
  - unfold Demo.domain_entry. simpl own_entries.
    repeat (constructor; [vm_compute; discriminate|]). constructor.
  - split; [exact Hproto|]. rewrite Hread; [vm_compute; reflexivity|].
    intros Hin. apply list_elem_of_In in Hin. simpl in Hin.
    repeat (destruct Hin as [Hin|Hin]; [discriminate|]). exact Hin.
Defined.


Lemma records_grouped_by_type_witness :
  exists grouped,
    DnsTools.group_records [Demo.www_record; Demo.mx_record; Demo.www_record] []
    = Ok grouped
    /\ ("A", [Demo.www_record; Demo.www_record]) ∈ DnsTools.Object_entries grouped
    /\ ("MX", [Demo.mx_record]) ∈ DnsTools.Object_entries grouped.
Proof.
  destruct (DnsTools.group_records [Demo.www_record; Demo.mx_record; Demo.www_record] [])
    as [grouped|e] eqn:Hrun; [|vm_compute in Hrun; discriminate].
  destruct (records_grouped_by_type _ _ Hrun) as (_ & Hsections & _).
  exists grouped. split; [reflexivity|]. split.
  - apply Hsections. split; [discriminate|reflexivity].
  - apply Hsections. split; [discriminate|reflexivity].
Defined.

Lemma inherited_type_breaks_grouping_witness :
  DnsTools.group_records ([Demo.www_record] ++ Demo.odd_record :: [Demo.mx_record]) []
  = Throw (typeError "grouped[rtype].push is not a function").
Proof.
  refine (inherited_type_breaks_grouping [Demo.www_record] [Demo.mx_record]
            Demo.odd_record "constructor" [] [("A", [Demo.www_record])]
            eq_refl eq_refl _).
  apply list_elem_of_In. simpl. tauto.
Defined.

Lemma empty_zone_listing_witness :
  (exists st1,
     @DnsTools.list_dns_records (Demo.server (Demo.serving Demo.no_entity_found))
       Demo.client "example.com" A None None None
       (Demo.start (Demo.serving Demo.no_entity_found))
     = (st1, DnsTools.mkToolResult "Error: No Entity found" true))
  /\ (exists st8,
        @DnsTools.list_all_dns_records (Demo.server (Demo.serving Demo.no_entity_found))
          1 Demo.client "example.com" (Demo.start (Demo.serving Demo.no_entity_found))
        = Some (st8, DnsTools.mkToolResult
                       ("Total: 0 record(s) for example.com" +:+ DnsTools.nl
                        +:+ DnsTools.nl +:+ "No records found.") false)
        /\ length (fetchLog st8) = 8%nat).
Proof.
  destruct (@empty_zone_listing (Demo.server (Demo.serving Demo.no_entity_found))
              Demo.client "example.com" (Demo.start (Demo.serving Demo.no_entity_found))
              (mkURL "https://httpapi.com/api/dns/manage/search-records.json" [])
              200 "OK" [("status", JStr "ERROR"); ("message", JStr "No Entity found")]
              "No Entity found" eq_refl (fun w req => eq_refl) eq_refl eq_refl eq_refl
              eq_refl) as [Hone Hall].
  split.
  - destruct (Hone A None None None) as (st1 & Hrun & _). exists st1. exact Hrun.
  - destruct (Hall 0%nat) as (st8 & Hrun & Hlen). exists st8.
    split; [exact Hrun|exact Hlen].
Defined.

Lemma add_tool_reports_unsent_fields_witness :
  exists st1 req,
    @DnsTools.add_dns_record (Demo.server Demo.accepting) Demo.client A
      (mkAddParams "example.com" "www" "192.0.2.1" 14400 (Some 10) None None)
      (Demo.start Demo.accepting)
    = (st1, DnsTools.mkToolResult
              ("Successfully added A record for example.com:" +:+ DnsTools.nl
               +:+ "  Host:  www" +:+ DnsTools.nl
               +:+ "  Value: 192.0.2.1" +:+ DnsTools.nl
               +:+ "  TTL:   14400" +:+ DnsTools.nl
               +:+ "  Priority: 10") false)
    /\ fetchLog st1 = [req]
    /\ sp_get "ttl" (searchParams (req_url req)) = Some "14400"
    /\ sp_get "priority" (searchParams (req_url req)) = None.
Proof.
  destruct (@add_tool_reports_unsent_fields (Demo.server Demo.accepting) Demo.client A
              (mkAddParams "example.com" "www" "192.0.2.1" 14400 (Some 10) None None)
              (Demo.start Demo.accepting)
              (mkURL "https://httpapi.com/api/dns/manage/add-ipv4-record.json" [])
              200 "OK" (JObj [("status", JStr "Success")]) eq_refl eq_refl)
    as (st1 & req & Hrun & Hlog & _ & Httl & Hprio & _).
  - unfold MIN_TTL. simpl. lia.
  - reflexivity.
  - reflexivity.
  - intros req. reflexivity.
  - reflexivity.
  - reflexivity.
  - exists st1, req. split; [exact Hrun|]. split; [exact Hlog|].
    split; [exact Httl|exact Hprio].
Defined.
